(** * The conductor-go worker [TaskRunner]: polling, execution and result
      reporting

    A shallow embedding of
    [go-worker-service/vendor/github.com/conductor-sdk/conductor-go/sdk/worker/task_runner.go]
    (with the parts of [worker.go] that [RegisterWorker] uses), followed by
    the properties the design document states about it.

    Conventions of the embedding.
    - Go's [int] and [time.Duration] are 64-bit two's complement integers on
      the targets the service is built for; they are carried as [Z] and
      every arithmetic operation wraps ([GoInt.add], [GoInt.sub], ...).
      The [int32] conversions of [batchPoll] wrap to 32 bits.
    - A Go [map[string]T] is a [gmap string T]; reading a missing key gives
      the zero value of [T], as in Go.
    - A method of [*TaskRunner] is a function from the runner before the
      call to the runner after it, together with what the call returns, the
      goroutines it starts and the calls it makes to the outside (the
      Conductor server, the clock).  What the outside answers (the reply to
      a batch poll, to an update) is an argument of the function.
    - Every method body runs without interleaving: each lock-protected
      section of the source is short, and the theorems speak about one call
      (or one loop iteration) executing on the state it finds. *)

From Stdlib Require Import ZArith String List Lia Bool.
From stdpp Require Import base option gmap strings list pretty.

Local Open Scope string_scope.
Local Open Scope list_scope.
Local Open Scope Z_scope.

(** ** Machine integers *)

Module GoInt.

(** Two's complement wrap-around to [bits] bits. *)
Definition wrap (bits : Z) (z : Z) : Z :=
  (z + 2 ^ (bits - 1)) mod 2 ^ bits - 2 ^ (bits - 1).

Definition int_min : Z := - 2 ^ 63.
Definition int_max : Z := 2 ^ 63 - 1.

(** Values of Go's [int] (and of [int64], [time.Duration]). *)
Definition is_int (z : Z) : Prop := int_min <= z <= int_max.

Definition int (z : Z) : Z := wrap 64 z.
Definition int32 (z : Z) : Z := wrap 32 z.

Definition add (a b : Z) : Z := int (a + b).
Definition sub (a b : Z) : Z := int (a - b).
Definition mul (a b : Z) : Z := int (a * b).
(** Go's integer division truncates toward zero. *)
Definition div (a b : Z) : Z := int (Z.quot a b).

End GoInt.

(** ** Time *)

Module Duration.
(** [time.Duration] counts nanoseconds in an [int64]. *)
Definition Millisecond : Z := 1000000.
Definition Second : Z := 1000000000.
(** [Duration.Milliseconds()]. *)
Definition Milliseconds (d : Z) : Z := GoInt.div d Millisecond.
End Duration.

(** ** The data model ([sdk/model])

    [model.Task] and [model.TaskResult] are declared outside the files at
    hand; the records keep the fields [task_runner.go] reads or the design
    document names. *)

Definition Payload : Type := list (string * string).

Inductive TaskResultStatus : Type :=
| IN_PROGRESS
| FAILED
| FAILED_WITH_TERMINAL_ERROR
| COMPLETED.

Record Task : Type := mkTask {
  TaskId : string;
  TaskDefName : string;
  WorkflowInstanceId : string;
  Status : string;
  InputData : Payload
}.

Record TaskResult : Type := mkTaskResult {
  ResultTaskId : string;
  ResultWorkflowInstanceId : string;
  ResultStatus : TaskResultStatus;
  ReasonForIncompletion : string;
  OutputData : Payload
}.

(** What a handler hands back as its [interface{}] value. *)
Inductive ExecutionOutput : Type :=
| OutputNil
| OutputTaskResult (r : TaskResult)
| OutputValue (v : Payload).

(** One call of a [model.ExecuteTaskFunction]: it returns an output and an
    [error] ([None] is Go's [nil] error), or it panics. *)
Inductive HandlerOutcome : Type :=
| Returns (output : ExecutionOutput) (err : option string)
| Panics (value : string).

(** A [model.ExecuteTaskFunction] value; [None] is the [nil] function. *)
Definition ExecuteTaskFunction : Type := option (Task -> HandlerOutcome).

(** The message of the run-time panic raised by calling a [nil] function. *)
Definition nilFunctionPanic : string :=
  "runtime error: invalid memory address or nil pointer dereference".

Definition callExecuteFunction (executeFunction : ExecuteTaskFunction) (t : Task)
  : HandlerOutcome :=
  match executeFunction with
  | Some f => f t
  | None => Panics nilFunctionPanic
  end.

(** ** Collaborators declared outside the files at hand

    [executeTask] builds its results with two functions of [sdk/model], and
    both goroutine bodies defer [concurrency.HandlePanicError].  They are
    parameters of the development; the instance below is used wherever a
    concrete run is evaluated. *)

Class Collaborators : Type := {
  (** [model.NewTaskResultFromTaskWithError]. *)
  NewTaskResultFromTaskWithError : Task -> string -> TaskResult;
  (** [model.GetTaskResultFromTaskExecutionOutput]. *)
  GetTaskResultFromTaskExecutionOutput :
    Task -> ExecutionOutput -> TaskResult + string;
  (** [concurrency.HandlePanicError], as a deferred call: given its message
      and the panic in flight (if any), the panic still in flight when it
      returns. *)
  HandlePanicError : string -> option string -> option string
}.

Definition NewTaskResultFromTask (t : Task) : TaskResult :=
  {| ResultTaskId := TaskId t;
     ResultWorkflowInstanceId := WorkflowInstanceId t;
     ResultStatus := IN_PROGRESS;
     ReasonForIncompletion := "";
     OutputData := [] |}.

(** Modelled from the spec: the bodies of [model.NewTaskResultFromTaskWithError],
    [model.GetTaskResultFromTaskExecutionOutput] and
    [concurrency.HandlePanicError] are missing.  Following sections 4.4 and 7
    of the design: an error becomes a FAILED result carrying the error's
    message, a successful value becomes a COMPLETED result with the value as
    its output payload, and a runtime fault is intercepted. *)
#[export] Instance specCollaborators : Collaborators := {|
  NewTaskResultFromTaskWithError t err :=
    {| ResultTaskId := ResultTaskId (NewTaskResultFromTask t);
       ResultWorkflowInstanceId :=
         ResultWorkflowInstanceId (NewTaskResultFromTask t);
       ResultStatus := FAILED;
       ReasonForIncompletion := err;
       OutputData := [] |};
  GetTaskResultFromTaskExecutionOutput t out :=
    match out with
    | OutputTaskResult r => inl r
    | OutputValue v =>
        inl {| ResultTaskId := TaskId t;
               ResultWorkflowInstanceId := WorkflowInstanceId t;
               ResultStatus := COMPLETED;
               ReasonForIncompletion := "";
               OutputData := v |}
    | OutputNil =>
        inl {| ResultTaskId := TaskId t;
               ResultWorkflowInstanceId := WorkflowInstanceId t;
               ResultStatus := COMPLETED;
               ReasonForIncompletion := "";
               OutputData := [] |}
    end;
  HandlePanicError _ _ := None
|}.

(** ** The runner

    The maps of [TaskRunner]; the mutexes guarding them carry no data, and
    the HTTP client is represented by the replies passed to the functions
    that call it.  [workerWaitGroup] is the counter of the [sync.WaitGroup]. *)

(** A [context.Context], by name. *)
Definition Context : Type := string.

Record TaskRunner : Type := mkTaskRunner {
  workerWaitGroup : Z;
  batchSizeByTaskName : gmap string Z;
  runningWorkersByTaskName : gmap string Z;
  pollIntervalByTaskName : gmap string Z;
  pausedWorkers : gmap string bool;
  pollTimeout : Z;
  pollTimeoutByTaskName : gmap string Z;
  baseCtx : option Context
}.

(** [NewTaskRunnerWithApiClient]. *)
Definition NewTaskRunnerWithApiClient : TaskRunner :=
  {| workerWaitGroup := 0;
     batchSizeByTaskName := ∅;
     runningWorkersByTaskName := ∅;
     pollIntervalByTaskName := ∅;
     pausedWorkers := ∅;
     pollTimeout := GoInt.mul (-1) Duration.Millisecond;
     pollTimeoutByTaskName := ∅;
     baseCtx := None |}.

(** Goroutines started with [go]. *)
Inductive Goroutine : Type :=
| GoWork4ever (taskName : string) (executeFunction : ExecuteTaskFunction)
    (domain : string)
| GoExecuteAndUpdateTask (taskName : string) (task : Task)
    (executeFunction : ExecuteTaskFunction).

(** Calls that leave the runner: to the Conductor server and to the clock. *)
Inductive Event : Type :=
| EvBatchPoll (taskName : string) (count : Z) (domain : option string)
    (timeout : option Z)
| EvUpdateTask (taskName : string) (taskResult : TaskResult)
| EvSleep (d : Z)
| EvPauseOnGenericError (taskName domain err : string)
| EvPauseOnNoAvailableWorkerError (taskName domain : string)
| EvLogError (msg : string).

(** Reading a Go map: the zero value when the key is missing. *)
Definition mapInt (m : gmap string Z) (k : string) : Z := default 0 (m !! k).
Definition mapBool (m : gmap string bool) (k : string) : bool :=
  default false (m !! k).

(** Field updates. *)
Definition withBatchSize (c : TaskRunner) (m : gmap string Z) : TaskRunner :=
  {| workerWaitGroup := workerWaitGroup c;
     batchSizeByTaskName := m;
     runningWorkersByTaskName := runningWorkersByTaskName c;
     pollIntervalByTaskName := pollIntervalByTaskName c;
     pausedWorkers := pausedWorkers c;
     pollTimeout := pollTimeout c;
     pollTimeoutByTaskName := pollTimeoutByTaskName c;
     baseCtx := baseCtx c |}.

Definition withRunningWorkers (c : TaskRunner) (wg : Z) (m : gmap string Z)
  : TaskRunner :=
  {| workerWaitGroup := wg;
     batchSizeByTaskName := batchSizeByTaskName c;
     runningWorkersByTaskName := m;
     pollIntervalByTaskName := pollIntervalByTaskName c;
     pausedWorkers := pausedWorkers c;
     pollTimeout := pollTimeout c;
     pollTimeoutByTaskName := pollTimeoutByTaskName c;
     baseCtx := baseCtx c |}.

Definition withPollInterval (c : TaskRunner) (m : gmap string Z) : TaskRunner :=
  {| workerWaitGroup := workerWaitGroup c;
     batchSizeByTaskName := batchSizeByTaskName c;
     runningWorkersByTaskName := runningWorkersByTaskName c;
     pollIntervalByTaskName := m;
     pausedWorkers := pausedWorkers c;
     pollTimeout := pollTimeout c;
     pollTimeoutByTaskName := pollTimeoutByTaskName c;
     baseCtx := baseCtx c |}.

Definition withPausedWorkers (c : TaskRunner) (m : gmap string bool)
  : TaskRunner :=
  {| workerWaitGroup := workerWaitGroup c;
     batchSizeByTaskName := batchSizeByTaskName c;
     runningWorkersByTaskName := runningWorkersByTaskName c;
     pollIntervalByTaskName := pollIntervalByTaskName c;
     pausedWorkers := m;
     pollTimeout := pollTimeout c;
     pollTimeoutByTaskName := pollTimeoutByTaskName c;
     baseCtx := baseCtx c |}.

Definition withPollTimeouts (c : TaskRunner) (d : Z) (m : gmap string Z)
  : TaskRunner :=
  {| workerWaitGroup := workerWaitGroup c;
     batchSizeByTaskName := batchSizeByTaskName c;
     runningWorkersByTaskName := runningWorkersByTaskName c;
     pollIntervalByTaskName := pollIntervalByTaskName c;
     pausedWorkers := pausedWorkers c;
     pollTimeout := d;
     pollTimeoutByTaskName := m;
     baseCtx := baseCtx c |}.

Definition withWaitGroup (c : TaskRunner) (wg : Z) : TaskRunner :=
  withRunningWorkers c wg (runningWorkersByTaskName c).

(** ** Constants and formatted errors *)

Definition taskUpdateRetryAttemptsLimit : Z := 3.

(** [%s] applied to an [error]. *)
Definition formatError (e : option string) : string :=
  default "%!s(<nil>)" e.

(** ** Registry accessors *)

Definition isWorkerRegistered (c : TaskRunner) (taskName : string) : bool :=
  bool_decide (is_Some (batchSizeByTaskName c !! taskName)).

Definition getMaxAllowedWorkers (c : TaskRunner) (taskName : string)
  : Z * option string :=
  match batchSizeByTaskName c !! taskName with
  | None => (0, None)
  | Some amount => (amount, None)
  end.

Definition getRunningWorkers (c : TaskRunner) (taskName : string)
  : Z * option string :=
  match runningWorkersByTaskName c !! taskName with
  | None => (0, None)
  | Some amount => (amount, None)
  end.

Definition getAvailableWorkerAmount (c : TaskRunner) (taskName : string)
  : Z * option string :=
  match getMaxAllowedWorkers c taskName with
  | (_, Some err) => (-1, Some err)
  | (allowed, None) =>
      match getRunningWorkers c taskName with
      | (_, Some err) => (-1, Some err)
      | (running, None) => (GoInt.sub allowed running, None)
      end
  end.

Definition increaseRunningWorkers (c : TaskRunner) (taskName : string)
  : TaskRunner * option string :=
  (withRunningWorkers c (workerWaitGroup c + 1)
     (<[taskName := GoInt.add (mapInt (runningWorkersByTaskName c) taskName) 1]>
        (runningWorkersByTaskName c)),
   None).

Definition runningWorkerDone (c : TaskRunner) (taskName : string)
  : TaskRunner * option string :=
  (withRunningWorkers c (workerWaitGroup c - 1)
     (<[taskName := GoInt.sub (mapInt (runningWorkersByTaskName c) taskName) 1]>
        (runningWorkersByTaskName c)),
   None).

Definition increaseMaxAllowedWorkers (c : TaskRunner) (taskName : string)
    (batchSize : Z) : TaskRunner * option string :=
  (withBatchSize c
     (<[taskName := GoInt.add (mapInt (batchSizeByTaskName c) taskName) batchSize]>
        (batchSizeByTaskName c)),
   None).

Definition SetPollIntervalForTask (c : TaskRunner) (taskName : string)
    (pollInterval : Z) : TaskRunner * option string :=
  (withPollInterval c (<[taskName := pollInterval]> (pollIntervalByTaskName c)),
   None).

Definition GetPollIntervalForTask (c : TaskRunner) (taskName : string)
  : Z * option string :=
  match pollIntervalByTaskName c !! taskName with
  | None => (0, Some ("poll interval not registered for task: " +:+ taskName))
  | Some pollInterval => (pollInterval, None)
  end.

Definition GetBatchSizeForTask (c : TaskRunner) (taskName : string) : Z :=
  match batchSizeByTaskName c !! taskName with
  | None => 0
  | Some batchSize => batchSize
  end.

Definition SetPollTimeout (c : TaskRunner) (d : Z) : TaskRunner * option string :=
  (withPollTimeouts c d (pollTimeoutByTaskName c), None).

Definition GetPollTimeoutForTask (c : TaskRunner) (taskName : string)
  : Z * option string :=
  match pollTimeoutByTaskName c !! taskName with
  | None => (pollTimeout c, None)
  | Some d => (d, None)
  end.

Definition SetPollTimeoutForTask (c : TaskRunner) (taskName : string) (d : Z)
  : TaskRunner * option string :=
  (withPollTimeouts c (pollTimeout c)
     (<[taskName := d]> (pollTimeoutByTaskName c)),
   None).

(** ** Batch size *)

Definition SetBatchSize (c : TaskRunner) (taskName : string) (batchSize : Z)
  : TaskRunner * option string :=
  if batchSize <? 0 then (c, Some "batchSize can not be negative")
  else if negb (isWorkerRegistered c taskName) then
    (c, Some ("no worker registered for taskName: " +:+ taskName))
  else
    (withBatchSize c (<[taskName := batchSize]> (batchSizeByTaskName c)), None).

Definition IncreaseBatchSize (c : TaskRunner) (taskName : string) (batchSize : Z)
  : TaskRunner * option string :=
  if batchSize <? 1 then (c, Some "batchSize value must be positive")
  else if negb (isWorkerRegistered c taskName) then
    (c, Some ("no worker registered for taskName: " +:+ taskName))
  else
    (withBatchSize c
       (<[taskName := GoInt.add (mapInt (batchSizeByTaskName c) taskName) batchSize]>
          (batchSizeByTaskName c)),
     None).

Definition DecreaseBatchSize (c : TaskRunner) (taskName : string) (batchSize : Z)
  : TaskRunner * option string :=
  if batchSize <? 1 then (c, Some "batchSize value must be positive")
  else if negb (isWorkerRegistered c taskName) then
    (c, Some ("no worker registered for taskName: " +:+ taskName))
  else
    let previous := mapInt (batchSizeByTaskName c) taskName in
    let m := <[taskName := GoInt.sub previous batchSize]> (batchSizeByTaskName c) in
    if GoInt.sub previous batchSize <=? 0
    then (withBatchSize c (<[taskName := 0]> m), None)
    else (withBatchSize c m, None).

(** ** Pause, resume, shutdown *)

Definition Pause (c : TaskRunner) (taskName : string) : TaskRunner :=
  withPausedWorkers c (<[taskName := true]> (pausedWorkers c)).

Definition Resume (c : TaskRunner) (taskName : string) : TaskRunner :=
  withPausedWorkers c (<[taskName := false]> (pausedWorkers c)).

Definition isPaused (c : TaskRunner) (taskName : string) : bool :=
  mapBool (pausedWorkers c) taskName.

Definition Shutdown (c : TaskRunner) (taskName : string) : TaskRunner :=
  let c1 := withBatchSize c (delete taskName (batchSizeByTaskName c)) in
  let c2 := withPausedWorkers c1 (delete taskName (pausedWorkers c1)) in
  let c3 := withPollInterval c2 (delete taskName (pollIntervalByTaskName c2)) in
  withPollTimeouts c3 (pollTimeout c3) (delete taskName (pollTimeoutByTaskName c3)).

(** ** Workers ([worker.go]) *)

Record Options : Type := mkOptions {
  Domain : string;
  BatchSize : Z;
  PollInterval : Z;
  PollTimeout : Z;
  BaseContext : option Context
}.

Definition defaultOptions : Options :=
  {| Domain := "";
     BatchSize := 1;
     PollInterval := GoInt.mul 100 Duration.Millisecond;
     PollTimeout := GoInt.mul (-1) Duration.Millisecond;
     BaseContext := None |}.

Definition WithBaseContext (ctx : Context) (o : Options) : Options :=
  {| Domain := Domain o;
     BatchSize := BatchSize o;
     PollInterval := PollInterval o;
     PollTimeout := PollTimeout o;
     BaseContext := Some ctx |}.

(** [BaseWorker]; a [Worker] interface value is an [option BaseWorker],
    [None] being the [nil] interface. *)
Record BaseWorker : Type := mkBaseWorker {
  taskName_ : string;
  handler_ : ExecuteTaskFunction;
  options_ : Options
}.

Definition Worker : Type := option BaseWorker.

Definition withOptions (w : BaseWorker) (o : Options) : BaseWorker :=
  {| taskName_ := taskName_ w; handler_ := handler_ w; options_ := o |}.

Definition getBaseContext (c : TaskRunner) : Context :=
  match baseCtx c with
  | None => "context.Background"
  | Some ctx => ctx
  end.

(** ** Registration *)

(** [startWorker]: the runner after the call, the goroutines started and
    the error returned. *)
Definition startWorker (c : TaskRunner) (taskName : string)
    (executeFunction : ExecuteTaskFunction) (batchSize pollInterval : Z)
    (taskDomain : string) : TaskRunner * list Goroutine * option string :=
  let c := fst (SetPollIntervalForTask c taskName pollInterval) in
  let c := Resume c taskName in
  match getMaxAllowedWorkers c taskName with
  | (_, Some err) => (c, [], Some err)
  | (previousMaxAllowedWorkers, None) =>
      match increaseMaxAllowedWorkers c taskName batchSize with
      | (c, Some err) => (c, [], Some err)
      | (c, None) =>
          if previousMaxAllowedWorkers <? 1 then
            (withWaitGroup c (workerWaitGroup c + 1),
             [GoWork4ever taskName executeFunction taskDomain], None)
          else (c, [], None)
      end
  end.

Definition StartWorkerWithDomain (c : TaskRunner) (taskName : string)
    (executeFunction : ExecuteTaskFunction) (batchSize pollInterval : Z)
    (domain : string) : TaskRunner * list Goroutine * option string :=
  startWorker c taskName executeFunction batchSize pollInterval domain.

Definition StartWorker (c : TaskRunner) (taskName : string)
    (executeFunction : ExecuteTaskFunction) (batchSize pollInterval : Z)
  : TaskRunner * list Goroutine * option string :=
  startWorker c taskName executeFunction batchSize pollInterval "".

Definition RegisterWorker (c : TaskRunner) (w : Worker)
  : TaskRunner * list Goroutine * option string :=
  match w with
  | None => (c, [], Some "worker is nil")
  | Some w =>
      let w :=
        match BaseContext (options_ w) with
        | None =>
            withOptions w (WithBaseContext (getBaseContext c) (options_ w))
        | Some _ => w
        end in
      let opts := options_ w in
      match SetPollIntervalForTask c (taskName_ w) (PollInterval opts) with
      | (c, Some err) => (c, [], Some err)
      | (c, None) =>
          let step :=
            if negb (PollTimeout opts =? 0)
            then SetPollTimeoutForTask c (taskName_ w) (PollTimeout opts)
            else (c, None) in
          match step with
          | (c, Some err) => (c, [], Some err)
          | (c, None) =>
              startWorker c (taskName_ w) (handler_ w) (BatchSize opts)
                (PollInterval opts) (Domain opts)
          end
      end
  end.

(** ** Polling *)

(** What [BatchPoll] of the Conductor client answers. *)
Inductive PollReply : Type :=
| PollFailed (err : string)
| PollReplied (statusCode : Z) (tasks : list Task).

Definition batchPoll (c : TaskRunner) (taskName : string) (count : Z)
    (domain : string) (reply : PollReply)
  : (list Task + string) * list Event :=
  match GetPollTimeoutForTask c taskName with
  | (_, Some err) => (inr err, [])
  | (timeout, None) =>
      let domainOptional := if decide (domain = "") then None else Some domain in
      let timeoutOptional :=
        if 0 <=? timeout
        then Some (GoInt.int32 (Duration.Milliseconds timeout)) else None in
      let call :=
        EvBatchPoll taskName (GoInt.int32 count) domainOptional timeoutOptional in
      match reply with
      | PollFailed err => (inr err, [call])
      | PollReplied statusCode tasks =>
          if statusCode =? 204 then (inl [], [call]) else (inl tasks, [call])
      end
  end.

(** The loop [for _, task := range tasks] at the end of [workOnce]. *)
Fixpoint dispatchTasks (c : TaskRunner) (taskName : string)
    (executeFunction : ExecuteTaskFunction) (tasks : list Task)
  : TaskRunner * list Goroutine :=
  match tasks with
  | [] => (c, [])
  | task :: rest =>
      let c := fst (increaseRunningWorkers c taskName) in
      let '(c, started) := dispatchTasks c taskName executeFunction rest in
      (c, GoExecuteAndUpdateTask taskName task executeFunction :: started)
  end.

Definition workOnce (c : TaskRunner) (taskName : string)
    (executeFunction : ExecuteTaskFunction) (domain : string) (reply : PollReply)
  : TaskRunner * list Goroutine * list Event :=
  if isPaused c taskName then
    (c, [], [EvPauseOnGenericError taskName domain "worker is paused"])
  else
    match getAvailableWorkerAmount c taskName with
    | (_, Some err) =>
        (c, [],
         [EvPauseOnGenericError taskName domain
            ("failed to get the number of available workers, reason: " +:+ err)])
    | (batchSize, None) =>
        if batchSize <? 1 then
          (c, [], [EvPauseOnNoAvailableWorkerError taskName domain])
        else
          match batchPoll c taskName batchSize domain reply with
          | (inr err, calls) =>
              (c, [],
               calls ++ [EvPauseOnGenericError taskName domain
                           ("failed to poll, reason: " +:+ err)])
          | (inl tasks, calls) =>
              if Z.of_nat (length tasks) <? 1 then
                match GetPollIntervalForTask c taskName with
                | (_, Some err) =>
                    (c, [],
                     calls ++ [EvLogError err;
                               EvPauseOnGenericError taskName domain
                                 ("failed to get poll interval, reason: " +:+ err)])
                | (pollInterval, None) => (c, [], calls ++ [EvSleep pollInterval])
                end
              else
                let '(c, started) := dispatchTasks c taskName executeFunction tasks in
                (c, started, calls)
          end
    end.

(** ** Execution and result reporting *)

(** A Go call either returns or unwinds with a panic. *)
Inductive Outcome (A : Type) : Type :=
| Normal (a : A)
| Panic (value : string).
Arguments Normal {A} a.
Arguments Panic {A} value.

Section Execution.
Context `{Collaborators}.

Definition executeTask (t : Task) (executeFunction : ExecuteTaskFunction)
  : Outcome TaskResult :=
  match callExecuteFunction executeFunction t with
  | Panics value => Panic value
  | Returns taskExecutionOutput err =>
      match err, taskExecutionOutput with
      | Some e, OutputNil => Normal (NewTaskResultFromTaskWithError t e)
      | _, _ =>
          match GetTaskResultFromTaskExecutionOutput t taskExecutionOutput with
          | inr e => Normal (NewTaskResultFromTaskWithError t e)
          | inl taskResult => Normal taskResult
          end
      end
  end.

(** [updateTask]: one call of the client's [UpdateTask]; [reply] is the
    error it answers with ([None] for success). *)
Definition updateTask (taskName : string) (taskResult : TaskResult)
    (reply : option string) : option string * list Event :=
  (reply, [EvUpdateTask taskName taskResult]).

(** The body of the loop of [updateTaskWithRetry], over the values that
    [attempt] still has to take; [replies attempt] is the server's answer
    to the update sent in that round. *)
Fixpoint updateTaskAttempts (attempts : list Z) (taskName : string)
    (taskResult : TaskResult) (replies : Z -> option string)
    (lastError : option string) : option string * list Event :=
  match attempts with
  | [] =>
      (Some ("failed to update task " +:+ taskName +:+ " after "
             +:+ pretty taskUpdateRetryAttemptsLimit +:+ " attempts. "
             +:+ formatError lastError),
       [])
  | attempt :: rest =>
      let wait :=
        if 0 <? attempt then
          let amount := GoInt.mul attempt 10 in
          [EvSleep (GoInt.mul amount Duration.Second)]
        else [] in
      match updateTask taskName taskResult (replies attempt) with
      | (None, calls) => (None, wait ++ calls)
      | (Some err, calls) =>
          let '(result, later) :=
            updateTaskAttempts rest taskName taskResult replies (Some err) in
          (result, wait ++ calls ++ later)
      end
  end.

(** [for attempt := 0; attempt <= taskUpdateRetryAttemptsLimit; attempt += 1]. *)
Definition updateTaskWithRetry (taskName : string) (taskResult : TaskResult)
    (replies : Z -> option string) : option string * list Event :=
  updateTaskAttempts (seqZ 0 (taskUpdateRetryAttemptsLimit + 1)) taskName
    taskResult replies None.

(** [executeAndUpdateTask], the body of an execution goroutine: the runner
    when it ends, the calls it made, and the panic that leaves the
    goroutine (which would end the process), if any.  The two deferred
    calls run last registered first. *)
Definition executeAndUpdateTask (c : TaskRunner) (taskName : string)
    (task : Task) (executeFunction : ExecuteTaskFunction)
    (replies : Z -> option string) : TaskRunner * list Event * option string :=
  let '(events, inFlight) :=
    match executeTask task executeFunction with
    | Panic value => ([], Some value)
    | Normal taskResult =>
        match updateTaskWithRetry taskName taskResult replies with
        | (Some err, calls) =>
            (calls ++ [EvLogError ("failed to update task " +:+ err)], None)
        | (None, calls) => (calls, None)
        end
    end in
  let inFlight :=
    HandlePanicError
      ("execute_and_update_task " +:+ TaskId task +:+ ": " +:+ Status task)
      inFlight in
  let c := fst (runningWorkerDone c taskName) in
  (c, events, inFlight).

(** One turn of the loop of [work4ever]: the test
    [c.isWorkerRegistered(taskName)], then the body, or the way out
    through the deferred calls. *)
Inductive LoopTurn : Type :=
| Continues (c : TaskRunner) (started : list Goroutine) (events : list Event)
| Exits (c : TaskRunner) (inFlight : option string).

Definition work4everTurn (c : TaskRunner) (taskName : string)
    (executeFunction : ExecuteTaskFunction) (domain : string)
    (reply : PollReply) : LoopTurn :=
  if isWorkerRegistered c taskName then
    let '(c, started, events) :=
      workOnce c taskName executeFunction domain reply in
    Continues c started events
  else
    let inFlight := HandlePanicError "poll_and_execute" None in
    Exits (withWaitGroup c (workerWaitGroup c - 1)) inFlight.

(** ** The process: a runner and its goroutines

    The host application calls the public methods; the scheduler lets a
    goroutine take a turn (a poll loop runs its test and one iteration,
    an execution runs to its end).  [trace] collects the calls to the
    outside, latest last. *)

Record Process : Type := mkProcess {
  runner : TaskRunner;
  goroutines : list Goroutine;
  trace : list Event;
  crashed : option string
}.

Inductive Action : Type :=
| CallStartWorker (taskName : string) (executeFunction : ExecuteTaskFunction)
    (batchSize pollInterval : Z)
| CallStartWorkerWithDomain (taskName : string)
    (executeFunction : ExecuteTaskFunction) (batchSize pollInterval : Z)
    (domain : string)
| CallRegisterWorker (w : Worker)
| CallSetBatchSize (taskName : string) (batchSize : Z)
| CallIncreaseBatchSize (taskName : string) (batchSize : Z)
| CallDecreaseBatchSize (taskName : string) (batchSize : Z)
| CallPause (taskName : string)
| CallResume (taskName : string)
| CallShutdown (taskName : string)
| CallSetPollIntervalForTask (taskName : string) (pollInterval : Z)
| CallSetPollTimeoutForTask (taskName : string) (d : Z)
| CallSetPollTimeout (d : Z)
| Schedule (i : nat) (poll : PollReply) (updates : Z -> option string).

Definition newProcess : Process :=
  {| runner := NewTaskRunnerWithApiClient;
     goroutines := [];
     trace := [];
     crashed := None |}.

Definition withRunner (p : Process) (c : TaskRunner) : Process :=
  {| runner := c;
     goroutines := goroutines p;
     trace := trace p;
     crashed := crashed p |}.

Definition afterCall (p : Process)
    (r : TaskRunner * list Goroutine * option string) : Process :=
  {| runner := fst (fst r);
     goroutines := goroutines p ++ snd (fst r);
     trace := trace p;
     crashed := crashed p |}.

Definition schedule (p : Process) (i : nat) (poll : PollReply)
    (updates : Z -> option string) : Process :=
  match goroutines p !! i with
  | None => p
  | Some (GoWork4ever taskName executeFunction domain) =>
      match work4everTurn (runner p) taskName executeFunction domain poll with
      | Continues c started events =>
          {| runner := c;
             goroutines := goroutines p ++ started;
             trace := trace p ++ events;
             crashed := crashed p |}
      | Exits c inFlight =>
          {| runner := c;
             goroutines := delete i (goroutines p);
             trace := trace p;
             crashed := inFlight |}
      end
  | Some (GoExecuteAndUpdateTask taskName task executeFunction) =>
      let '(c, events, inFlight) :=
        executeAndUpdateTask (runner p) taskName task executeFunction updates in
      {| runner := c;
         goroutines := delete i (goroutines p);
         trace := trace p ++ events;
         crashed := inFlight |}
  end.

Definition step (p : Process) (a : Action) : Process :=
  match crashed p with
  | Some _ => p
  | None =>
      match a with
      | CallStartWorker n f b iv => afterCall p (StartWorker (runner p) n f b iv)
      | CallStartWorkerWithDomain n f b iv d =>
          afterCall p (StartWorkerWithDomain (runner p) n f b iv d)
      | CallRegisterWorker w => afterCall p (RegisterWorker (runner p) w)
      | CallSetBatchSize n b => withRunner p (fst (SetBatchSize (runner p) n b))
      | CallIncreaseBatchSize n b =>
          withRunner p (fst (IncreaseBatchSize (runner p) n b))
      | CallDecreaseBatchSize n b =>
          withRunner p (fst (DecreaseBatchSize (runner p) n b))
      | CallPause n => withRunner p (Pause (runner p) n)
      | CallResume n => withRunner p (Resume (runner p) n)
      | CallShutdown n => withRunner p (Shutdown (runner p) n)
      | CallSetPollIntervalForTask n d =>
          withRunner p (fst (SetPollIntervalForTask (runner p) n d))
      | CallSetPollTimeoutForTask n d =>
          withRunner p (fst (SetPollTimeoutForTask (runner p) n d))
      | CallSetPollTimeout d => withRunner p (fst (SetPollTimeout (runner p) d))
      | Schedule i poll updates => schedule p i poll updates
      end
  end.

Definition run (p : Process) (actions : list Action) : Process :=
  fold_left step actions p.

(** The poll loops among the goroutines that serve [taskName]. *)
Definition isPollLoopFor (taskName : string) (g : Goroutine) : bool :=
  match g with
  | GoWork4ever n _ _ => bool_decide (n = taskName)
  | GoExecuteAndUpdateTask _ _ _ => false
  end.

Definition pollLoops (p : Process) (taskName : string) : nat :=
  length (filter (fun g => isPollLoopFor taskName g = true) (goroutines p)).

End Execution.

(** The batch polls in a trace: task name and requested count. *)
Definition batchPolls (events : list Event) : list (string * Z) :=
  omap (fun e => match e with
                 | EvBatchPoll n count _ _ => Some (n, count)
                 | _ => None
                 end) events.

(** The results handed to the server in a trace. *)
Definition updateCalls (events : list Event) : list (string * TaskResult) :=
  omap (fun e => match e with
                 | EvUpdateTask n r => Some (n, r)
                 | _ => None
                 end) events.

(** The sleeps of a trace, in nanoseconds. *)
Definition sleeps (events : list Event) : list Z :=
  omap (fun e => match e with EvSleep d => Some d | _ => None end) events.

(** What a batch poll hands to [workOnce]: nothing on an error or on status
    204. *)
Definition returnedTasks (reply : PollReply) : list Task :=
  match reply with
  | PollFailed _ => []
  | PollReplied statusCode tasks => if statusCode =? 204 then [] else tasks
  end.

(** ** Names for groups of calls, and sample runs *)

(** The three batch-size mutations. *)
Inductive BatchSizeCall : Type :=
| ToSet
| ToIncrease
| ToDecrease.

Definition callBatchSize (op : BatchSizeCall) (c : TaskRunner)
    (taskName : string) (batchSize : Z) : TaskRunner * option string :=
  match op with
  | ToSet => SetBatchSize c taskName batchSize
  | ToIncrease => IncreaseBatchSize c taskName batchSize
  | ToDecrease => DecreaseBatchSize c taskName batchSize
  end.

Definition batchSizeAction (op : BatchSizeCall) (taskName : string)
    (batchSize : Z) : Action :=
  match op with
  | ToSet => CallSetBatchSize taskName batchSize
  | ToIncrease => CallIncreaseBatchSize taskName batchSize
  | ToDecrease => CallDecreaseBatchSize taskName batchSize
  end.

(** A handler that echoes the task's input, one that fails and one that
    panics. *)
Definition echoHandler : ExecuteTaskFunction :=
  Some (fun t => Returns (OutputValue (InputData t)) None).
Definition failingHandler : ExecuteTaskFunction :=
  Some (fun _ => Returns OutputNil (Some "missing entp_name in task input")).
Definition panickingHandler : ExecuteTaskFunction :=
  Some (fun _ => Panics "index out of range").

Definition sampleTask (id : string) : Task :=
  {| TaskId := id;
     TaskDefName := "echo";
     WorkflowInstanceId := "wf-1";
     Status := "SCHEDULED";
     InputData := [("user_name", "jdoe")] |}.

(** [StartWorker("echo", echoHandler, 2, 100ms)] on a fresh runner, then
    one loop iteration that fetches a single task. *)
Definition echoRegistered : TaskRunner :=
  fst (fst (StartWorker NewTaskRunnerWithApiClient "echo" echoHandler 2
              (GoInt.mul 100 Duration.Millisecond))).

Definition echoOneInFlight : TaskRunner :=
  fst (fst (workOnce echoRegistered "echo" echoHandler ""
              (PollReplied 200 [sampleTask "t-1"]))).

(** Register "echo" with batch size 1, take the capacity down to zero, and
    register it again. *)
Definition registeredTwice : Process :=
  run newProcess
    [CallStartWorker "echo" echoHandler 1 (GoInt.mul 100 Duration.Millisecond);
     CallDecreaseBatchSize "echo" 1;
     CallStartWorker "echo" echoHandler 1 (GoInt.mul 100 Duration.Millisecond)].

(** A process in which one execution of a panicking handler is in flight:
    "echo" registered with the panicking handler, one task fetched. *)
Definition panicInFlight : Process :=
  run newProcess
    [CallStartWorker "echo" panickingHandler 1
       (GoInt.mul 100 Duration.Millisecond);
     Schedule 0 (PollReplied 200 [sampleTask "t-1"]) (fun _ => None)].






(** "echo" registered with batch size 2, one task fetched and in flight,
    then a second poll answered with "no content". *)
Definition echoBusy : Process :=
  run newProcess
    [CallStartWorker "echo" echoHandler 2 (GoInt.mul 100 Duration.Millisecond);
     Schedule 0 (PollReplied 200 [sampleTask "t-1"]) (fun _ => None);
     Schedule 0 (PollReplied 204 []) (fun _ => None)].

(** What the host and the scheduler do after the shutdown of "echo" in the
    sample run: pause and resume it, try to raise its batch size, and give
    the loop and the execution their turns. *)
Definition afterShutdown : list Action :=
  [CallPause "echo";
   CallResume "echo";
   CallIncreaseBatchSize "echo" 5;
   Schedule 0 (PollReplied 200 [sampleTask "t-9"]) (fun _ => None);
   Schedule 0 (PollReplied 200 [sampleTask "t-9"]) (fun _ => None)].

(** ** The rest of the runner's surface *)

(** [RegisterWorkers]: registers the workers in order and stops at the first
    error. *)
Fixpoint RegisterWorkers (c : TaskRunner) (workers : list Worker)
  : TaskRunner * list Goroutine * option string :=
  match workers with
  | [] => (c, [], None)
  | w :: rest =>
      match RegisterWorker c w with
      | (c, started, Some err) => (c, started, Some err)
      | (c, started, None) =>
          let '(c, later, err) := RegisterWorkers c rest in
          (c, started ++ later, err)
      end
  end.

(** [GetBatchSizeForAll]: a copy of the batch sizes. *)
Definition GetBatchSizeForAll (c : TaskRunner) : gmap string Z :=
  map_fold (fun taskName batchSize copy => <[taskName := batchSize]> copy) ∅
    (batchSizeByTaskName c).

Definition GetPollTimeout (c : TaskRunner) : Z := pollTimeout c.

(** [WaitWorkers] hands control back as soon as the counter of the wait
    group is zero, and blocks as long as it is not. *)
Definition WaitWorkersBlocks (c : TaskRunner) : bool :=
  negb (workerWaitGroup c =? 0).

(** The executions of [taskName] among the goroutines. *)
Definition isExecutionOf (taskName : string) (g : Goroutine) : bool :=
  match g with
  | GoWork4ever _ _ _ => false
  | GoExecuteAndUpdateTask n _ _ => bool_decide (n = taskName)
  end.

Definition inFlight `{Collaborators} (p : Process) (taskName : string) : nat :=
  length (filter (fun g => isExecutionOf taskName g = true) (goroutines p)).

(** Every registered task name has a poll interval on record. *)
Definition intervalsCoverRegistry `{Collaborators} (p : Process) : Prop :=
  forall taskName,
    isWorkerRegistered (runner p) taskName = true ->
    is_Some (pollIntervalByTaskName (runner p) !! taskName).

(** The timeouts that the batch polls of a trace carry. *)
Definition pollTimeoutsSent (events : list Event) : list (option Z) :=
  omap (fun e => match e with
                 | EvBatchPoll _ _ _ timeout => Some timeout
                 | _ => None
                 end) events.

(** ** Worker options ([worker.go]) *)

(** An [Option] is a function on [Options]; [None] is the [nil] function. *)
Definition Option : Type := option (Options -> Options).

Definition WithBatchSize (size : Z) : Option :=
  Some (fun o =>
          if 0 <? size then
            {| Domain := Domain o;
               BatchSize := size;
               PollInterval := PollInterval o;
               PollTimeout := PollTimeout o;
               BaseContext := BaseContext o |}
          else o).

Definition WithPollInterval (interval : Z) : Option :=
  Some (fun o =>
          if 0 <? interval then
            {| Domain := Domain o;
               BatchSize := BatchSize o;
               PollInterval := interval;
               PollTimeout := PollTimeout o;
               BaseContext := BaseContext o |}
          else o).

Definition WithPollTimeout (timeout : Z) : Option :=
  Some (fun o =>
          {| Domain := Domain o;
             BatchSize := BatchSize o;
             PollInterval := PollInterval o;
             PollTimeout := timeout;
             BaseContext := BaseContext o |}).

Definition WithDomain (domain : string) : Option :=
  Some (fun o =>
          {| Domain := domain;
             BatchSize := BatchSize o;
             PollInterval := PollInterval o;
             PollTimeout := PollTimeout o;
             BaseContext := BaseContext o |}).

Fixpoint applyOptions (base : Options) (fns : list Option) : Options :=
  match fns with
  | [] => base
  | fn :: rest =>
      match fn with
      | Some f => applyOptions (f base) rest
      | None => applyOptions base rest
      end
  end.

(** [NewWorker]. *)
Definition NewWorker (taskName : string) (f : ExecuteTaskFunction)
    (options : list Option) : BaseWorker :=
  {| taskName_ := taskName;
     handler_ := f;
     options_ := applyOptions defaultOptions options |}.

(** [BaseWorker.With]. *)
Definition BaseWorkerWith (w : BaseWorker) (options : list Option) : BaseWorker :=
  withOptions w (applyOptions (options_ w) options).

(** The options the package itself builds. *)
Inductive packageOption : Option -> Prop :=
| IsNilOption : packageOption None
| IsWithBatchSize size : packageOption (WithBatchSize size)
| IsWithPollInterval interval : packageOption (WithPollInterval interval)
| IsWithPollTimeout timeout : packageOption (WithPollTimeout timeout)
| IsWithDomain domain : packageOption (WithDomain domain)
| IsWithBaseContext ctx : packageOption (Some (WithBaseContext ctx)).

(** The bookkeeping of a process is in order: the wait group counts the
    goroutines, each running count is the number of executions of its task
    name that are in flight (as an [int]), and every registered name has a
    poll interval. *)
Definition accounted `{Collaborators} (p : Process) : Prop :=
  workerWaitGroup (runner p) = Z.of_nat (length (goroutines p)) /\
  (forall taskName,
      mapInt (runningWorkersByTaskName (runner p)) taskName
      = GoInt.int (Z.of_nat (inFlight p taskName))) /\
  intervalsCoverRegistry p.

(** ** Typed workers (the second part of [task_runner.go]) and task contexts
      ([context.go])

    The fields of [model.Task] that [getWorkflowContext] reads beyond those
    of [Task] above are declared outside the files at hand; they are
    parameters, as is the conversion of a typed output to an [interface{}]
    value. *)

Record workflowContext : Type := mkWorkflowContext {
  ctxParent : Context;
  workflowInstanceID : string;
  workflowType : string;
  taskID : string;
  taskType : string;
  retryCount : Z;
  retriedTaskID : string;
  pollCount : Z
}.

(** One call of a typed handler. *)
Inductive TypedOutcome (TOut : Type) : Type :=
| TypedReturns (output : TOut) (err : option string)
| TypedPanics (value : string).
Arguments TypedReturns {TOut} output err.
Arguments TypedPanics {TOut} value.

Section TypedWorkers.
Context {TIn TOut : Type}.
(** [t.WorkflowType], [t.RetryCount], [t.RetriedTaskId], [t.PollCount]. *)
Context (WorkflowType : Task -> string) (RetryCount : Task -> Z)
        (RetriedTaskId : Task -> string) (PollCount : Task -> Z).
(** The [interface{}] value a [TOut] becomes when it is returned. *)
Context (box : TOut -> ExecutionOutput).

(** [getWorkflowContext]; [None] stands for a [nil] parent or a [nil] task. *)
Definition getWorkflowContext (parent : option Context) (t : option Task)
  : workflowContext :=
  let parent :=
    match parent with
    | None => "context.Background"
    | Some ctx => ctx
    end in
  match t with
  | None =>
      {| ctxParent := parent; workflowInstanceID := ""; workflowType := "";
         taskID := ""; taskType := ""; retryCount := 0; retriedTaskID := "";
         pollCount := 0 |}
  | Some t =>
      {| ctxParent := parent;
         workflowInstanceID := WorkflowInstanceId t;
         workflowType := WorkflowType t;
         taskID := TaskId t;
         taskType := TaskDefName t;
         retryCount := GoInt.int (RetryCount t);
         retriedTaskID := RetriedTaskId t;
         pollCount := GoInt.int (PollCount t) |}
  end.

(** [TypedWorker]: the binder turns the task's input into a [TIn] or
    fails. *)
Record TypedWorker : Type := mkTypedWorker {
  typedTaskName : string;
  typedHandler : option (workflowContext -> TIn -> TypedOutcome TOut);
  typedOptions : Options;
  typedBinder : Payload -> TIn + string
}.

(** [context.WithCancel(parentCtx)], by name. *)
Definition withCancel (parentCtx : Context) : Context :=
  parentCtx +:+ ".WithCancel".

(** [adapter]. *)
Definition adapter (tw : TypedWorker) : ExecuteTaskFunction :=
  Some (fun t =>
          match typedBinder tw (InputData t) with
          | inr err =>
              Returns OutputNil
                (Some ("input binding error for task " +:+ TaskDefName t
                       +:+ ": " +:+ err))
          | inl input =>
              let parentCtx :=
                match BaseContext (typedOptions tw) with
                | None => "context.Background"
                | Some ctx => ctx
                end in
              let ctx := withCancel parentCtx in
              match typedHandler tw with
              | None => Panics nilFunctionPanic
              | Some handler =>
                  match handler (getWorkflowContext (Some ctx) (Some t)) input with
                  | TypedReturns output err => Returns (box output) err
                  | TypedPanics value => Panics value
                  end
              end
          end).

(** [NewTypedWorker]; the binder of the source is the JSON binder. *)
Definition NewTypedWorker (taskName : string)
    (f : workflowContext -> TIn -> TypedOutcome TOut) (options : list Option)
    (jsonBinder : Payload -> TIn + string) : TypedWorker :=
  {| typedTaskName := taskName;
     typedHandler := Some f;
     typedOptions := applyOptions defaultOptions options;
     typedBinder := jsonBinder |}.

(** [TypedWorker.Handler]. *)
Definition TypedHandler (tw : TypedWorker) : ExecuteTaskFunction := adapter tw.

End TypedWorkers.

(** ** Log arguments ([sdk/log])

    The loggers receive [args ...interface{}] and only ever print them with
    [%v]; [render] is that printing. *)

Section LogArguments.
Context {Arg : Type} (render : Arg -> string).

(** The loop of [formatArgs] from index [i] on, [rest] being [args[i:]] and
    [b] the builder. *)
Fixpoint formatPairs (b : string) (rest : list Arg) : string :=
  match rest with
  | [] => b
  | key :: afterKey =>
      let b := if (0 <? String.length b)%nat then b +:+ " " else b in
      match afterKey with
      | [] => b +:+ render key +:+ "=" +:+ "<nil>"
      | val :: more => formatPairs (b +:+ render key +:+ "=" +:+ render val) more
      end
  end.

(** [formatArgs] of the standard logger. *)
Definition formatArgs (args : list Arg) : string :=
  match args with
  | [] => ""
  | first :: others =>
      if Nat.eqb (length args mod 2) 1
      then formatPairs (render first) others
      else formatPairs "" args
  end.

(** The loop of [splitArgs] from index [i] on; a field is a key with its
    value. *)
Fixpoint splitPairs (fields : list (string * Arg)) (rest : list Arg)
  : list (string * Arg) :=
  match rest with
  | [] => fields
  | key :: afterKey =>
      match afterKey with
      | [] => fields
      | val :: more => splitPairs (fields ++ [(render key, val)]) more
      end
  end.

(** [splitArgs] of the zap logger. *)
Definition splitArgs (args : list Arg) : string * list (string * Arg) :=
  match args with
  | [] => ("", splitPairs [] args)
  | first :: others =>
      if Nat.eqb (length args mod 2) 1
      then (render first, splitPairs [] others)
      else ("", splitPairs [] args)
  end.

(** A message followed by its fields, as one line. *)
Definition lineOf (msg : string) (fields : list (string * Arg)) : string :=
  String.concat " "
    ((if (0 <? String.length msg)%nat then [msg] else [])
     ++ map (fun kv => fst kv +:+ "=" +:+ render (snd kv)) fields).

(** A key with its value, as printed. *)
Definition pairText (kv : Arg * Arg) : string :=
  render (fst kv) +:+ "=" +:+ render (snd kv).

(** Keys and values, one after the other. *)
Fixpoint interleave (pairs : list (Arg * Arg)) : list Arg :=
  match pairs with
  | [] => []
  | (key, val) :: more => key :: val :: interleave more
  end.

End LogArguments.

(** ** Workflows ([model/workflow.go], and [WorkflowRun] alike)

    [model.Task] is declared outside the files at hand: the task type and
    the two fields read here are parameters. *)

Section Workflows.
Context {T : Type} (taskStatus : T -> string) (ReferenceTaskName : T -> string).

(** The inner loop of [GetTasksByStatus] with its [break]. *)
Fixpoint appendIfStatus (filteredTasks : list T) (task : T)
    (statuses : list string) : list T :=
  match statuses with
  | [] => filteredTasks
  | status :: more =>
      if String.eqb (taskStatus task) status
      then filteredTasks ++ [task]
      else appendIfStatus filteredTasks task more
  end.

(** The outer loop. *)
Fixpoint tasksByStatusFrom (filteredTasks : list T) (tasks : list T)
    (statuses : list string) : list T :=
  match tasks with
  | [] => filteredTasks
  | task :: rest =>
      tasksByStatusFrom (appendIfStatus filteredTasks task statuses) rest statuses
  end.

Definition GetTasksByStatus (tasks : list T) (statuses : list string) : list T :=
  tasksByStatusFrom [] tasks statuses.

(** [GetTaskByReferenceName]; [None] is the [nil] pointer. *)
Fixpoint GetTaskByReferenceName (tasks : list T) (referenceTaskName : string)
  : option T :=
  match tasks with
  | [] => None
  | task :: rest =>
      if String.eqb (ReferenceTaskName task) referenceTaskName
      then Some task
      else GetTaskByReferenceName rest referenceTaskName
  end.

End Workflows.

(** A typed worker whose binder rejects every input. *)
Definition unboundWorker : @TypedWorker Z Z :=
  {| typedTaskName := "echo";
     typedHandler := Some (fun _ n => TypedReturns (n + 1) None);
     typedOptions := defaultOptions;
     typedBinder := fun _ => inr "json: cannot unmarshal string into Go value" |}.

(** ** Fetching a workflow ([workflow/executor])

    [GetExecutionStatus] of the workflow client answers with a workflow, a
    response (whose status code is read; [None] is a [nil] response) and an
    error.  The workflow type is declared outside the files at hand. *)

Record StatusReply (W : Type) : Type := mkStatusReply {
  replyWorkflow : W;
  replyStatus : option Z;
  replyErr : option string
}.
Arguments mkStatusReply {W} replyWorkflow replyStatus replyErr.
Arguments replyWorkflow {W} s.
Arguments replyStatus {W} s.
Arguments replyErr {W} s.

Inductive ExecutorEvent : Type :=
| ExGetExecutionStatus (workflowId : string) (includeTasks : bool)
| ExSleep (d : Z).

Section WorkflowExecutor.
Context {W : Type}.

(** [getWorkflowWithContext], which calls itself to retry.  [attempt]
    counts the calls made so far; [ctxErr attempt] is what [ctx.Err()]
    answers at the start of the call and [replies attempt] what the server
    answers in it.  [fuel] bounds the depth of the recursion. *)
Fixpoint getWorkflowLoop (fuel : nat) (attempt : nat) (retry : Z)
    (workflowId : string) (includeTasks : bool)
    (ctxErr : nat -> option string) (replies : nat -> StatusReply W)
  : option (Outcome (option W * option string) * list ExecutorEvent) :=
  match fuel with
  | O => None
  | S fuel =>
      match ctxErr attempt with
      | Some err => Some (Normal (None, Some err), [])
      | None =>
          let reply := replies attempt in
          let call := ExGetExecutionStatus workflowId includeTasks in
          match replyStatus reply with
          | None => Some (Panic nilFunctionPanic, [call])
          | Some statusCode =>
              if statusCode =? 404 then
                Some (Normal (None, Some ("no such workflow by Id " +:+ workflowId)),
                      [call])
              else if (399 <? statusCode) && (statusCode <? 500)
                      && negb (statusCode =? 429) then
                Some (Normal (None, replyErr reply), [call])
              else
                match replyErr reply with
                | Some err =>
                    if retry <? 0 then Some (Normal (None, Some err), [call])
                    else
                      let pause :=
                        ExSleep (GoInt.mul (GoInt.mul (GoInt.sub 4 retry) 10)
                                   Duration.Second) in
                      match getWorkflowLoop fuel (S attempt) (GoInt.sub retry 1)
                              workflowId includeTasks ctxErr replies with
                      | Some (result, later) =>
                          Some (result, call :: pause :: later)
                      | None => None
                      end
                | None => Some (Normal (Some (replyWorkflow reply), None), [call])
                end
          end
      end
  end.

(** The recursion is at most [retry + 2] calls deep. *)
Definition getWorkflowWithContext (retry : Z) (workflowId : string)
    (includeTasks : bool) (ctxErr : nat -> option string)
    (replies : nat -> StatusReply W)
  : option (Outcome (option W * option string) * list ExecutorEvent) :=
  getWorkflowLoop (S (Z.to_nat (retry + 1))) 0 retry workflowId includeTasks
    ctxErr replies.

(** [GetWorkflowWithContext]. *)
Definition GetWorkflowWithContext (workflowId : string) (includeTasks : bool)
    (ctxErr : nat -> option string) (replies : nat -> StatusReply W)
  : option (Outcome (option W * option string) * list ExecutorEvent) :=
  getWorkflowWithContext 4 workflowId includeTasks ctxErr replies.

(** A reply that makes [getWorkflowWithContext] try again: an error, with a
    status that is neither 404 nor another client error (429 apart). *)
Definition retriable (reply : StatusReply W) : Prop :=
  exists statusCode err,
    replyStatus reply = Some statusCode /\
    replyErr reply = Some err /\
    statusCode <> 404 /\
    (statusCode <= 399 \/ 500 <= statusCode \/ statusCode = 429).

End WorkflowExecutor.

(** ** The worker service ([main] of go-worker-service)

    [recordWorkerState] writes one row to the table [worker_state]; the
    write is kept as the values it passes to the statement.
    [t.TaskType] is a field of [model.Task] beyond those of [Task] above
    and a parameter. *)

Record StateWrite : Type := mkStateWrite {
  write_task_id : string;
  write_workflow_id : string;
  write_task_type : string;
  write_status : string;
  write_input : Payload;
  write_output : option Payload;
  write_error : option string
}.

Section WorkerService.
Context (TaskType : Task -> string).

(** [recordWorkerState]; [dbOpen] tells whether the handle [db] is set. *)
Definition recordWorkerState (dbOpen : bool) (t : Task) (status : string)
    (output : option Payload) (errText : option string) : list StateWrite :=
  if negb dbOpen then []
  else [{| write_task_id := TaskId t;
           write_workflow_id := WorkflowInstanceId t;
           write_task_type := TaskType t;
           write_status := status;
           write_input := InputData t;
           write_output := output;
           write_error := errText |}].

(** [withStateLogging fn], called with [t]: what it returns and the rows it
    writes.  A handler output that is a key-value document is an
    [OutputValue]; a [nil] map is not told apart from an empty one, which
    matters only for the output column of the row COMPLETED. *)
Definition withStateLogging (dbOpen : bool) (fn : ExecuteTaskFunction) (t : Task)
  : HandlerOutcome * list StateWrite :=
  let started := recordWorkerState dbOpen t "STARTED" None None in
  match callExecuteFunction fn t with
  | Panics value => (Panics value, started)
  | Returns res (Some err) =>
      (Returns OutputNil (Some err),
       started ++ recordWorkerState dbOpen t "FAILED" None (Some err))
  | Returns res None =>
      let out :=
        match res with
        | OutputValue m => Some m
        | _ => None
        end in
      (Returns res None,
       started ++ recordWorkerState dbOpen t "COMPLETED" out None)
  end.

(** The wrapped handler, as the runner sees it. *)
Definition loggedHandler (dbOpen : bool) (fn : ExecuteTaskFunction)
  : ExecuteTaskFunction :=
  Some (fun t => fst (withStateLogging dbOpen fn t)).

End WorkerService.

(** * Properties *)

(** ** Facts about the machine integers *)

Module GoIntFacts.
Import GoInt.

Lemma wrap_range bits z :
  0 < bits -> - 2 ^ (bits - 1) <= wrap bits z <= 2 ^ (bits - 1) - 1.
Proof.
  intros Hb. unfold wrap.
  assert (H2 : 2 ^ bits = 2 * 2 ^ (bits - 1)).
  { replace bits with (Z.succ (bits - 1)) at 1 by lia.
    rewrite Z.pow_succ_r by lia. reflexivity. }
  assert (Hp : 0 < 2 ^ (bits - 1)) by (apply Z.pow_pos_nonneg; lia).
  pose proof (Z.mod_pos_bound (z + 2 ^ (bits - 1)) (2 ^ bits)) as Hm.
  lia.
Qed.

Lemma wrap_id bits z :
  0 < bits -> - 2 ^ (bits - 1) <= z <= 2 ^ (bits - 1) - 1 -> wrap bits z = z.
Proof.
  intros Hb Hz. unfold wrap.
  assert (H2 : 2 ^ bits = 2 * 2 ^ (bits - 1)).
  { replace bits with (Z.succ (bits - 1)) at 1 by lia.
    rewrite Z.pow_succ_r by lia. reflexivity. }
  rewrite Z.mod_small by lia. lia.
Qed.

Lemma int_is_int z : is_int (int z).
Proof.
  unfold is_int, int, int_min, int_max.
  pose proof (wrap_range 64 z ltac:(lia)) as H.
  change (64 - 1) with 63 in H. exact H.
Qed.

Lemma int_id z : is_int z -> int z = z.
Proof.
  unfold is_int, int, int_min, int_max. intros H.
  apply wrap_id; [lia|]. change (64 - 1) with 63. exact H.
Qed.

Lemma add_exact a b : is_int (a + b) -> add a b = a + b.
Proof. apply int_id. Qed.

Lemma sub_exact a b : is_int (a - b) -> sub a b = a - b.
Proof. apply int_id. Qed.

(** Counting one up and one down again is the identity on [int], also
    across the wrap-around. *)
Lemma sub_add_1 a : is_int a -> sub (add a 1) 1 = a.
Proof.
  unfold is_int, int_min, int_max. intros Ha.
  destruct (Z.eq_dec a (2 ^ 63 - 1)) as [->|Hne].
  - vm_compute. reflexivity.
  - assert (Hadd : add a 1 = a + 1).
    { apply add_exact. unfold is_int, int_min, int_max. lia. }
    rewrite Hadd. rewrite sub_exact.
    + lia.
    + unfold is_int, int_min, int_max. lia.
Qed.


(** Wrapping an already wrapped summand changes nothing. *)
Lemma int_add_int a b : int (int a + b) = int (a + b).
Proof.
  unfold int, wrap. change (64 - 1) with 63.
  f_equal.
  replace ((a + 2 ^ 63) mod 2 ^ 64 - 2 ^ 63 + b + 2 ^ 63)
    with ((a + 2 ^ 63) mod 2 ^ 64 + b) by lia.
  replace (a + b + 2 ^ 63) with ((a + 2 ^ 63) + b) by lia.
  rewrite Zplus_mod_idemp_l. reflexivity.
Qed.

End GoIntFacts.

(** ** Reading the maps *)

Lemma isWorkerRegistered_true c n :
  isWorkerRegistered c n = true <-> is_Some (batchSizeByTaskName c !! n).
Proof. unfold isWorkerRegistered. apply bool_decide_eq_true. Qed.

Lemma isWorkerRegistered_false c n :
  isWorkerRegistered c n = false <-> batchSizeByTaskName c !! n = None.
Proof.
  unfold isWorkerRegistered. rewrite bool_decide_eq_false.
  rewrite eq_None_not_Some. reflexivity.
Qed.

Lemma mapInt_insert_eq (m : gmap string Z) k v : mapInt (<[k := v]> m) k = v.
Proof. unfold mapInt. rewrite lookup_insert_eq. reflexivity. Qed.

Lemma mapInt_insert_ne (m : gmap string Z) k k' v :
  k <> k' -> mapInt (<[k := v]> m) k' = mapInt m k'.
Proof. intros Hne. unfold mapInt. rewrite lookup_insert_ne by exact Hne. reflexivity. Qed.

Lemma GetBatchSizeForTask_mapInt c n :
  GetBatchSizeForTask c n = mapInt (batchSizeByTaskName c) n.
Proof. unfold GetBatchSizeForTask, mapInt. destruct (_ !! _); reflexivity. Qed.

Lemma getMaxAllowedWorkers_mapInt c n :
  getMaxAllowedWorkers c n = (mapInt (batchSizeByTaskName c) n, None).
Proof. unfold getMaxAllowedWorkers, mapInt. destruct (_ !! _); reflexivity. Qed.

Lemma getRunningWorkers_mapInt c n :
  getRunningWorkers c n = (mapInt (runningWorkersByTaskName c) n, None).
Proof. unfold getRunningWorkers, mapInt. destruct (_ !! _); reflexivity. Qed.

Lemma getAvailableWorkerAmount_eq c n :
  getAvailableWorkerAmount c n =
  (GoInt.sub (mapInt (batchSizeByTaskName c) n)
     (mapInt (runningWorkersByTaskName c) n), None).
Proof.
  unfold getAvailableWorkerAmount.
  rewrite getMaxAllowedWorkers_mapInt, getRunningWorkers_mapInt. reflexivity.
Qed.

Lemma withRunner_id `{Collaborators} (p : Process) : withRunner p (runner p) = p.
Proof. destruct p; reflexivity. Qed.

(** ** Configuration errors *)

(** C7. [SetBatchSize], [IncreaseBatchSize] and [DecreaseBatchSize] on a
    task name that has no configuration, and [IncreaseBatchSize] and
    [DecreaseBatchSize] with a delta that is not positive (or [SetBatchSize]
    with a negative value) on any name, return an error and leave the
    runner, and with it the whole process, as it was. *)
Theorem batch_size_calls_reject `{Collaborators} (op : BatchSizeCall)
    (p : Process) (taskName : string) (batchSize : Z) :
  isWorkerRegistered (runner p) taskName = false \/
  match op with ToSet => batchSize < 0 | _ => batchSize <= 0 end ->
  (exists err,
      callBatchSize op (runner p) taskName batchSize = (runner p, Some err)) /\
  (crashed p = None -> step p (batchSizeAction op taskName batchSize) = p).
Proof.
  intros Hbad.
  assert (Hcall : exists err,
             callBatchSize op (runner p) taskName batchSize = (runner p, Some err)).
  { destruct Hbad as [Hreg | Harg].
    - destruct op; cbn [callBatchSize];
        unfold SetBatchSize, IncreaseBatchSize, DecreaseBatchSize;
        rewrite Hreg; cbn [negb];
        match goal with |- context [?a <? ?b] => destruct (a <? b) end; eauto.
    - destruct op; cbn [callBatchSize];
        unfold SetBatchSize, IncreaseBatchSize, DecreaseBatchSize;
        match goal with
        | |- context [?a <? ?b] =>
            destruct (Z.ltb_spec a b); [eauto | lia]
        end. }
  split; [exact Hcall|].
  intros Hlive. destruct Hcall as [err Herr].
  unfold step. rewrite Hlive.
  destruct op; cbn [batchSizeAction callBatchSize] in *; rewrite Herr;
    apply withRunner_id.
Qed.

Lemma batch_size_calls_reject_witness :
  isWorkerRegistered (runner newProcess) "echo" = false /\
  exists err,
    callBatchSize ToIncrease (runner newProcess) "echo" 1
    = (runner newProcess, Some err).
Proof.
  split; [reflexivity|].
  apply (batch_size_calls_reject ToIncrease newProcess "echo" 1).
  left. reflexivity.
Defined.

(** ** Decreasing the batch size *)

Lemma DecreaseBatchSize_accepts c n d :
  isWorkerRegistered c n = true -> 1 <= d ->
  DecreaseBatchSize c n d =
  (withBatchSize c
     (<[n := Z.max (GoInt.sub (mapInt (batchSizeByTaskName c) n) d) 0]>
        (batchSizeByTaskName c)), None).
Proof.
  intros Hreg Hd. unfold DecreaseBatchSize.
  destruct (Z.ltb_spec d 1); [lia|]. rewrite Hreg. cbn [negb].
  set (v := GoInt.sub _ d).
  destruct (Z.leb_spec v 0).
  - rewrite insert_insert_eq. rewrite Z.max_r by lia. reflexivity.
  - rewrite Z.max_l by lia. reflexivity.
Qed.

(** A loop iteration on a runner whose capacity for the task is zero and
    whose running count is not negative fetches nothing and starts nothing. *)
Lemma workOnce_starved c n fn domain reply :
  mapInt (batchSizeByTaskName c) n = 0 ->
  0 <= mapInt (runningWorkersByTaskName c) n ->
  GoInt.is_int (mapInt (runningWorkersByTaskName c) n) ->
  batchPolls (snd (workOnce c n fn domain reply)) = [] /\
  snd (fst (workOnce c n fn domain reply)) = [] /\
  fst (fst (workOnce c n fn domain reply)) = c.
Proof.
  intros Hcap Hrun Hint. unfold workOnce.
  destruct (isPaused c n); [repeat split|].
  rewrite getAvailableWorkerAmount_eq, Hcap.
  rewrite GoIntFacts.sub_exact.
  2:{ unfold GoInt.is_int, GoInt.int_min, GoInt.int_max in *. lia. }
  destruct (Z.ltb_spec (0 - mapInt (runningWorkersByTaskName c) n) 1); [|lia].
  repeat split.
Qed.

(** C6, as the code has it.  For a registered task type and a delta of at
    least 1, [DecreaseBatchSize] succeeds and stores
    [max (old - delta) 0], the difference being Go's [int] subtraction (the
    exact difference whenever that fits an [int]); the stored capacity is
    never negative.  When it is zero, [getAvailableWorkerAmount] returns
    minus the running count: zero only if nothing is in flight, negative
    otherwise.  Either way it is below 1 and a loop iteration fetches and
    dispatches nothing. *)
Theorem decrease_clamps_and_starves (c : TaskRunner) (taskName : string)
    (delta : Z) (fn : ExecuteTaskFunction) (domain : string) (reply : PollReply) :
  isWorkerRegistered c taskName = true ->
  1 <= delta ->
  let old := GetBatchSizeForTask c taskName in
  let c' := fst (DecreaseBatchSize c taskName delta) in
  let running := mapInt (runningWorkersByTaskName c') taskName in
  snd (DecreaseBatchSize c taskName delta) = None /\
  GetBatchSizeForTask c' taskName = Z.max (GoInt.sub old delta) 0 /\
  (GoInt.is_int (old - delta) ->
   GetBatchSizeForTask c' taskName = Z.max (old - delta) 0) /\
  0 <= GetBatchSizeForTask c' taskName /\
  runningWorkersByTaskName c' = runningWorkersByTaskName c /\
  (GetBatchSizeForTask c' taskName = 0 ->
   0 <= running -> GoInt.is_int running ->
   getAvailableWorkerAmount c' taskName = (- running, None) /\
   - running < 1 /\
   batchPolls (snd (workOnce c' taskName fn domain reply)) = [] /\
   snd (fst (workOnce c' taskName fn domain reply)) = []).
Proof.
  intros Hreg Hd old c' running.
  subst old c' running.
  rewrite (DecreaseBatchSize_accepts c taskName delta Hreg Hd). cbn [fst snd].
  rewrite !GetBatchSizeForTask_mapInt. cbn [withBatchSize batchSizeByTaskName
    runningWorkersByTaskName]. rewrite mapInt_insert_eq.
  split; [reflexivity|]. split; [reflexivity|].
  split; [intros Hfit; rewrite GoIntFacts.sub_exact by exact Hfit; reflexivity|].
  split; [lia|]. split; [reflexivity|].
  intros Hzero Hrun Hint.
  set (c' := withBatchSize c _).
  assert (Hcap : mapInt (batchSizeByTaskName c') taskName = 0).
  { subst c'. cbn [withBatchSize batchSizeByTaskName].
    rewrite mapInt_insert_eq. exact Hzero. }
  split.
  { rewrite getAvailableWorkerAmount_eq, Hcap.
    change (runningWorkersByTaskName c') with (runningWorkersByTaskName c).
    rewrite GoIntFacts.sub_exact.
    - reflexivity.
    - unfold GoInt.is_int, GoInt.int_min, GoInt.int_max in *. lia. }
  split; [lia|].
  destruct (workOnce_starved c' taskName fn domain reply Hcap Hrun Hint)
    as (Hp & Hs & _).
  split; assumption.
Qed.

Lemma decrease_clamps_and_starves_witness :
  isWorkerRegistered echoOneInFlight "echo" = true /\
  GetBatchSizeForTask (fst (DecreaseBatchSize echoOneInFlight "echo" 5)) "echo"
  = Z.max (GoInt.sub (GetBatchSizeForTask echoOneInFlight "echo") 5) 0.
Proof.
  split; [reflexivity|].
  pose proof (decrease_clamps_and_starves echoOneInFlight "echo" 5 echoHandler ""
                (PollFailed "timeout") eq_refl ltac:(lia)) as Hw.
  cbv zeta in Hw. destruct Hw as (_ & Hw & _). exact Hw.
Defined.

(** C6, as stated, fails when executions are in flight: with capacity 2 and
    one task running, decreasing by 2 stores capacity 0, and
    [getAvailableWorkerAmount] then returns -1, not 0. *)
Lemma decrease_available_counterexample :
  isWorkerRegistered echoOneInFlight "echo" = true /\
  GetBatchSizeForTask echoOneInFlight "echo" = 2 /\
  mapInt (runningWorkersByTaskName echoOneInFlight) "echo" = 1 /\
  GetBatchSizeForTask (fst (DecreaseBatchSize echoOneInFlight "echo" 2)) "echo"
  = 0 /\
  getAvailableWorkerAmount (fst (DecreaseBatchSize echoOneInFlight "echo" 2))
    "echo" = (-1, None) /\
  fst (getAvailableWorkerAmount
         (fst (DecreaseBatchSize echoOneInFlight "echo" 2)) "echo") <> 0.
Proof.
  repeat split; try (vm_compute; reflexivity).
  vm_compute. discriminate.
Qed.

(** ** Result delivery *)

(** C3. [updateTaskWithRetry] sends the result at most four times.  It
    sleeps 10 s, 20 s and 30 s before the second, third and fourth attempt
    and not before the first; it returns [nil] right after the first
    attempt that succeeds, making no further attempt; and when all four
    fail it returns one error, whose text ends with the error of the last
    attempt. *)
Theorem updateTaskWithRetry_schedule (taskName : string)
    (taskResult : TaskResult) (replies : Z -> option string) :
  let send := EvUpdateTask taskName taskResult in
  let wait := fun k => EvSleep (k * Duration.Second) in
  let result := fst (updateTaskWithRetry taskName taskResult replies) in
  let events := snd (updateTaskWithRetry taskName taskResult replies) in
  (length (updateCalls events) <= 4)%nat /\
  match replies 0, replies 1, replies 2, replies 3 with
  | None, _, _, _ =>
      result = None /\ events = [send]
  | Some _, None, _, _ =>
      result = None /\ events = [send; wait 10; send]
  | Some _, Some _, None, _ =>
      result = None /\ events = [send; wait 10; send; wait 20; send]
  | Some _, Some _, Some _, None =>
      result = None /\
      events = [send; wait 10; send; wait 20; send; wait 30; send]
  | Some _, Some _, Some _, Some lastError =>
      result = Some ("failed to update task " +:+ taskName
                     +:+ " after 3 attempts. " +:+ lastError) /\
      events = [send; wait 10; send; wait 20; send; wait 30; send]
  end.
Proof.
  intros send wait result events. subst send wait result events.
  unfold updateTaskWithRetry.
  change (seqZ 0 (taskUpdateRetryAttemptsLimit + 1)) with [0; 1; 2; 3].
  cbn [updateTaskAttempts updateTask].
  destruct (replies 0) as [e0|]; cbn [fst snd];
    [|split; [cbn; lia | split; reflexivity]].
  destruct (replies 1) as [e1|]; cbn [fst snd];
    [|split; [cbn; lia | split; reflexivity]].
  destruct (replies 2) as [e2|]; cbn [fst snd];
    [|split; [cbn; lia | split; reflexivity]].
  destruct (replies 3) as [e3|]; cbn [fst snd];
    split; try (cbn; lia); split; reflexivity.
Qed.

(** ** Releasing capacity *)

Lemma executeAndUpdateTask_runner `{Collaborators} c taskName task fn replies :
  fst (fst (executeAndUpdateTask c taskName task fn replies))
  = fst (runningWorkerDone c taskName).
Proof.
  unfold executeAndUpdateTask.
  destruct (executeTask task fn) as [taskResult|value].
  - destruct (updateTaskWithRetry taskName taskResult replies) as [[err|] calls];
      reflexivity.
  - reflexivity.
Qed.

(** C5. An execution goroutine decrements the running count of its task
    type exactly once, whatever the handler does (returns a value, returns
    an error, panics, or is [nil]) and whatever the server answers to the
    result updates: when [executeAndUpdateTask] ends, the count of its task
    type is the count it found minus one, every other count and every other
    map of the runner is as it was, and the increment made at dispatch
    followed by this decrement gives back the count from before the
    dispatch. *)
Theorem running_released_exactly_once `{Collaborators} (c : TaskRunner)
    (taskName : string) (task : Task) (fn : ExecuteTaskFunction)
    (replies : Z -> option string) :
  let c' := fst (fst (executeAndUpdateTask c taskName task fn replies)) in
  let dispatched := fst (increaseRunningWorkers c taskName) in
  mapInt (runningWorkersByTaskName c') taskName
  = GoInt.sub (mapInt (runningWorkersByTaskName c) taskName) 1 /\
  (forall other, other <> taskName ->
     runningWorkersByTaskName c' !! other = runningWorkersByTaskName c !! other) /\
  batchSizeByTaskName c' = batchSizeByTaskName c /\
  pausedWorkers c' = pausedWorkers c /\
  pollIntervalByTaskName c' = pollIntervalByTaskName c /\
  workerWaitGroup c' = workerWaitGroup c - 1 /\
  (GoInt.is_int (mapInt (runningWorkersByTaskName c) taskName) ->
   mapInt (runningWorkersByTaskName
             (fst (fst (executeAndUpdateTask dispatched taskName task fn replies))))
     taskName
   = mapInt (runningWorkersByTaskName c) taskName).
Proof.
  intros c' dispatched. subst c' dispatched.
  rewrite !executeAndUpdateTask_runner.
  cbn [runningWorkerDone increaseRunningWorkers fst withRunningWorkers
       runningWorkersByTaskName batchSizeByTaskName pausedWorkers
       pollIntervalByTaskName workerWaitGroup].
  rewrite !mapInt_insert_eq.
  repeat split.
  - intros other Hne. rewrite lookup_insert_ne by congruence. reflexivity.
  - intros Hint. apply GoIntFacts.sub_add_1. exact Hint.
Qed.

Lemma running_released_exactly_once_witness :
  GoInt.is_int (mapInt (runningWorkersByTaskName echoOneInFlight) "echo") /\
  mapInt (runningWorkersByTaskName
            (fst (fst (executeAndUpdateTask
                         (fst (increaseRunningWorkers echoOneInFlight "echo"))
                         "echo" (sampleTask "t-2") panickingHandler
                         (fun _ => Some "connection refused")))))
    "echo"
  = mapInt (runningWorkersByTaskName echoOneInFlight) "echo".
Proof.
  assert (Hint : GoInt.is_int
                   (mapInt (runningWorkersByTaskName echoOneInFlight) "echo")).
  { vm_compute. split; discriminate. }
  split; [exact Hint|].
  pose proof (running_released_exactly_once echoOneInFlight "echo"
                (sampleTask "t-2") panickingHandler
                (fun _ => Some "connection refused")) as Hw.
  cbv zeta in Hw. destruct Hw as (_ & _ & _ & _ & _ & _ & Hw).
  exact (Hw Hint).
Defined.

(** ** Registration *)

Lemma startWorker_eq c n fn b iv d :
  startWorker c n fn b iv d =
  let c1 := Resume (fst (SetPollIntervalForTask c n iv)) n in
  let previous := mapInt (batchSizeByTaskName c) n in
  let c2 :=
    withBatchSize c1 (<[n := GoInt.add previous b]> (batchSizeByTaskName c)) in
  if previous <? 1
  then (withWaitGroup c2 (workerWaitGroup c + 1), [GoWork4ever n fn d], None)
  else (c2, [], None).
Proof.
  unfold startWorker. rewrite getMaxAllowedWorkers_mapInt.
  cbn [increaseMaxAllowedWorkers SetPollIntervalForTask Resume fst
       withPausedWorkers withPollInterval batchSizeByTaskName workerWaitGroup
       withBatchSize].
  destruct (mapInt (batchSizeByTaskName c) n <? 1); reflexivity.
Qed.

Lemma startWorker_facts c n fn b iv d :
  snd (startWorker c n fn b iv d) = None /\
  GetBatchSizeForTask (fst (fst (startWorker c n fn b iv d))) n
  = GoInt.add (GetBatchSizeForTask c n) b /\
  isPaused (fst (fst (startWorker c n fn b iv d))) n = false /\
  isWorkerRegistered (fst (fst (startWorker c n fn b iv d))) n = true /\
  snd (fst (startWorker c n fn b iv d))
  = (if GetBatchSizeForTask c n <? 1 then [GoWork4ever n fn d] else []).
Proof.
  rewrite startWorker_eq. cbv zeta.
  rewrite !GetBatchSizeForTask_mapInt.
  destruct (mapInt (batchSizeByTaskName c) n <? 1); cbn [fst snd];
    rewrite ?GetBatchSizeForTask_mapInt;
    unfold isPaused, isWorkerRegistered, mapBool;
    cbn [withWaitGroup withRunningWorkers withBatchSize Resume
         withPausedWorkers SetPollIntervalForTask withPollInterval fst
         batchSizeByTaskName pausedWorkers];
    rewrite mapInt_insert_eq, !lookup_insert_eq;
    repeat split; apply bool_decide_eq_true; eauto.
Qed.

(** What [RegisterWorker] passes on to [startWorker]. *)
Lemma RegisterWorker_some c w :
  exists c0,
    batchSizeByTaskName c0 = batchSizeByTaskName c /\
    RegisterWorker c (Some w)
    = startWorker c0 (taskName_ w) (handler_ w) (BatchSize (options_ w))
        (PollInterval (options_ w)) (Domain (options_ w)).
Proof.
  unfold RegisterWorker.
  destruct w as [n h [dom b iv tmo ctx]]; cbn.
  destruct ctx; cbn -[startWorker];
    destruct (tmo =? 0); cbn -[startWorker];
    (eexists; split; [|reflexivity]); reflexivity.
Qed.

(** C9, as the code has it.  [RegisterWorker] rejects a [nil] [Worker] with
    an error and changes nothing.  [StartWorker] and [StartWorkerWithDomain]
    make no check of the execute function: with a [nil] function they
    return no error, register the task name, add the batch size and start
    the poll loop as for any other function.  [RegisterWorker] likewise
    accepts a worker whose handler is [nil]. *)
Theorem nil_handler_registration (c : TaskRunner) (taskName : string)
    (batchSize pollInterval : Z) (domain : string) (w : BaseWorker) :
  handler_ w = None ->
  RegisterWorker c None = (c, [], Some "worker is nil") /\
  snd (StartWorker c taskName None batchSize pollInterval) = None /\
  snd (StartWorkerWithDomain c taskName None batchSize pollInterval domain)
  = None /\
  isWorkerRegistered
    (fst (fst (StartWorker c taskName None batchSize pollInterval))) taskName
  = true /\
  GetBatchSizeForTask
    (fst (fst (StartWorker c taskName None batchSize pollInterval))) taskName
  = GoInt.add (GetBatchSizeForTask c taskName) batchSize /\
  (GetBatchSizeForTask c taskName < 1 ->
   snd (fst (StartWorker c taskName None batchSize pollInterval))
   = [GoWork4ever taskName None ""]) /\
  snd (RegisterWorker c (Some w)) = None.
Proof.
  intros Hnil.
  unfold StartWorker, StartWorkerWithDomain.
  destruct (startWorker_facts c taskName None batchSize pollInterval "")
    as (He & Hb & _ & Hr & Hs).
  destruct (startWorker_facts c taskName None batchSize pollInterval domain)
    as (Hed & _).
  repeat split; try assumption.
  - intros Hlt. rewrite Hs.
    destruct (Z.ltb_spec (GetBatchSizeForTask c taskName) 1); [reflexivity|lia].
  - destruct (RegisterWorker_some c w) as (c0 & _ & ->).
    apply startWorker_facts.
Qed.

Lemma nil_handler_registration_witness :
  handler_ {| taskName_ := "echo"; handler_ := None; options_ := defaultOptions |}
  = None /\
  snd (RegisterWorker NewTaskRunnerWithApiClient
         (Some {| taskName_ := "echo"; handler_ := None;
                  options_ := defaultOptions |})) = None.
Proof.
  split; [reflexivity|].
  apply (nil_handler_registration NewTaskRunnerWithApiClient "echo" 1
           (GoInt.mul 100 Duration.Millisecond) ""
           {| taskName_ := "echo"; handler_ := None; options_ := defaultOptions |}
           eq_refl).
Defined.

(** C9, as stated, fails for [StartWorker]: called on a fresh runner with a
    [nil] execute function it returns no error, registers "echo" with
    capacity 1 and starts its poll loop. *)
Lemma nil_function_accepted_counterexample :
  StartWorker NewTaskRunnerWithApiClient "echo" None 1
    (GoInt.mul 100 Duration.Millisecond)
  = (fst (fst (StartWorker NewTaskRunnerWithApiClient "echo" None 1
                 (GoInt.mul 100 Duration.Millisecond))),
     [GoWork4ever "echo" None ""], None) /\
  isWorkerRegistered
    (fst (fst (StartWorker NewTaskRunnerWithApiClient "echo" None 1
                 (GoInt.mul 100 Duration.Millisecond)))) "echo" = true /\
  GetBatchSizeForTask
    (fst (fst (StartWorker NewTaskRunnerWithApiClient "echo" None 1
                 (GoInt.mul 100 Duration.Millisecond)))) "echo" = 1 /\
  ~ (exists err,
        snd (StartWorker NewTaskRunnerWithApiClient "echo" None 1
               (GoInt.mul 100 Duration.Millisecond)) = Some err).
Proof.
  repeat split; try (vm_compute; reflexivity).
  intros [err Herr]. vm_compute in Herr. discriminate.
Qed.

(** C10, as the code has it.  A registration through [StartWorker],
    [StartWorkerWithDomain] or [RegisterWorker], also of a name that is
    registered already, returns no error, adds the batch size to the
    capacity the name had (Go's [int] addition; a name without
    configuration counts as zero), leaves the paused flag of the name at
    false whatever it was, and starts one poll loop if the capacity before
    the call was below 1 and none otherwise. *)
Theorem registration_is_additive (c : TaskRunner) (taskName : string)
    (fn : ExecuteTaskFunction) (batchSize pollInterval : Z) (domain : string)
    (w : BaseWorker) :
  let started := fun (name : string) (f : ExecuteTaskFunction) (d : string) =>
    if GetBatchSizeForTask c name <? 1 then [GoWork4ever name f d] else [] in
  let r1 := StartWorker c taskName fn batchSize pollInterval in
  let r2 := StartWorkerWithDomain c taskName fn batchSize pollInterval domain in
  let r3 := RegisterWorker c (Some w) in
  (snd r1 = None /\
   GetBatchSizeForTask (fst (fst r1)) taskName
   = GoInt.add (GetBatchSizeForTask c taskName) batchSize /\
   isPaused (fst (fst r1)) taskName = false /\
   snd (fst r1) = started taskName fn "") /\
  (snd r2 = None /\
   GetBatchSizeForTask (fst (fst r2)) taskName
   = GoInt.add (GetBatchSizeForTask c taskName) batchSize /\
   isPaused (fst (fst r2)) taskName = false /\
   snd (fst r2) = started taskName fn domain) /\
  (snd r3 = None /\
   GetBatchSizeForTask (fst (fst r3)) (taskName_ w)
   = GoInt.add (GetBatchSizeForTask c (taskName_ w)) (BatchSize (options_ w)) /\
   isPaused (fst (fst r3)) (taskName_ w) = false /\
   snd (fst r3) = started (taskName_ w) (handler_ w) (Domain (options_ w))).
Proof.
  intros started r1 r2 r3. subst started r1 r2 r3.
  unfold StartWorker, StartWorkerWithDomain.
  destruct (startWorker_facts c taskName fn batchSize pollInterval "")
    as (H1 & H2 & H3 & _ & H4).
  destruct (startWorker_facts c taskName fn batchSize pollInterval domain)
    as (H5 & H6 & H7 & _ & H8).
  destruct (RegisterWorker_some c w) as (c0 & Hc0 & ->).
  destruct (startWorker_facts c0 (taskName_ w) (handler_ w)
              (BatchSize (options_ w)) (PollInterval (options_ w))
              (Domain (options_ w))) as (H9 & H10 & H11 & _ & H12).
  assert (Hb : GetBatchSizeForTask c0 (taskName_ w)
               = GetBatchSizeForTask c (taskName_ w)).
  { rewrite !GetBatchSizeForTask_mapInt, Hc0. reflexivity. }
  rewrite Hb in H10, H12.
  repeat split; assumption.
Qed.

(** C10, as stated, fails in its last part: after "echo" is registered with
    batch size 1 and its capacity is decreased to zero, its poll loop is
    still running; a second registration finds a capacity below 1 and
    starts a second loop.  Both loops are alive and both go on to run
    [workOnce] at their next turn. *)
Lemma second_poll_loop_counterexample :
  isWorkerRegistered (runner registeredTwice) "echo" = true /\
  goroutines registeredTwice
  = [GoWork4ever "echo" echoHandler ""; GoWork4ever "echo" echoHandler ""] /\
  pollLoops registeredTwice "echo" = 2%nat /\
  ~ (pollLoops registeredTwice "echo" <= 1)%nat /\
  batchPolls
    (trace (run registeredTwice
              [Schedule 0 (PollReplied 204 []) (fun _ => None);
               Schedule 1 (PollReplied 204 []) (fun _ => None)]))
  = [("echo", 1); ("echo", 1)] /\
  pollLoops
    (run registeredTwice
       [Schedule 0 (PollReplied 204 []) (fun _ => None);
        Schedule 1 (PollReplied 204 []) (fun _ => None)]) "echo" = 2%nat.
Proof.
  repeat split; try (vm_compute; reflexivity).
  vm_compute. lia.
Qed.

(** ** Handler faults *)

(** [executeTask] on the sample handlers: a value gives a COMPLETED result
    with the value as payload, an error a FAILED result with the error's
    text, a panic (also that of a [nil] function) no result at all. *)
Example executeTask_samples :
  executeTask (sampleTask "t-1") echoHandler
  = Normal {| ResultTaskId := "t-1";
              ResultWorkflowInstanceId := "wf-1";
              ResultStatus := COMPLETED;
              ReasonForIncompletion := "";
              OutputData := [("user_name", "jdoe")] |} /\
  executeTask (sampleTask "t-1") failingHandler
  = Normal {| ResultTaskId := "t-1";
              ResultWorkflowInstanceId := "wf-1";
              ResultStatus := FAILED;
              ReasonForIncompletion := "missing entp_name in task input";
              OutputData := [] |} /\
  executeTask (sampleTask "t-1") panickingHandler = Panic "index out of range" /\
  executeTask (sampleTask "t-1") None = Panic nilFunctionPanic.
Proof. repeat split. Qed.

Lemma filter_delete_other {A} (P : A -> Prop) `{forall x, Decision (P x)}
    (l : list A) (i : nat) (x : A) :
  l !! i = Some x -> ~ P x -> filter P (delete i l) = filter P l.
Proof.
  revert i. induction l as [|y l IH]; intros i Hi Hx; [discriminate|].
  destruct i as [|i].
  - change (delete 0%nat (y :: l)) with l.
    inversion Hi; subst. rewrite filter_cons_False by exact Hx. reflexivity.
  - change (delete (S i) (y :: l)) with (y :: delete i l).
    change (l !! i = Some x) in Hi.
    rewrite !filter_cons. rewrite (IH i Hi Hx). reflexivity.
Qed.

Lemma pollLoops_delete_execution `{Collaborators} (p p' : Process) i n t f name :
  goroutines p !! i = Some (GoExecuteAndUpdateTask n t f) ->
  goroutines p' = delete i (goroutines p) ->
  pollLoops p' name = pollLoops p name.
Proof.
  intros Hi Hg. unfold pollLoops. rewrite Hg.
  erewrite filter_delete_other; [reflexivity | exact Hi |].
  cbn. discriminate.
Qed.

(** C2, as the code has it.  When the handler panics (or is [nil]),
    [executeTask] does not return: no [TaskResult] is built, and
    [executeAndUpdateTask] makes no call to the server, so nothing is
    reported for the task.  The panic reaches the deferred
    [HandlePanicError]; the running count is released once.  If
    [HandlePanicError] intercepts the panic, the goroutine just ends: the
    process goes on, every poll loop is still there and the trace has
    gained nothing. *)
Theorem handler_panic_is_dropped `{Collaborators} (p : Process) (i : nat)
    (taskName : string) (task : Task) (fn : ExecuteTaskFunction)
    (value : string) (poll : PollReply) (replies : Z -> option string) :
  callExecuteFunction fn task = Panics value ->
  goroutines p !! i = Some (GoExecuteAndUpdateTask taskName task fn) ->
  let message :=
    "execute_and_update_task " +:+ TaskId task +:+ ": " +:+ Status task in
  let p' := schedule p i poll replies in
  executeTask task fn = Panic value /\
  executeAndUpdateTask (runner p) taskName task fn replies
  = (fst (runningWorkerDone (runner p) taskName), [],
     HandlePanicError message (Some value)) /\
  trace p' = trace p /\
  updateCalls (snd (fst (executeAndUpdateTask (runner p) taskName task fn replies)))
  = [] /\
  mapInt (runningWorkersByTaskName (runner p')) taskName
  = GoInt.sub (mapInt (runningWorkersByTaskName (runner p)) taskName) 1 /\
  (forall name, pollLoops p' name = pollLoops p name) /\
  crashed p' = HandlePanicError message (Some value) /\
  (HandlePanicError message (Some value) = None -> crashed p' = None).
Proof.
  intros Hpanic Hi message p'.
  assert (Hexec : executeTask task fn = Panic value).
  { unfold executeTask. rewrite Hpanic. reflexivity. }
  assert (Hrun : executeAndUpdateTask (runner p) taskName task fn replies
                 = (fst (runningWorkerDone (runner p) taskName), [],
                    HandlePanicError message (Some value))).
  { unfold executeAndUpdateTask. rewrite Hexec. reflexivity. }
  assert (Hp' : p' = {| runner := fst (runningWorkerDone (runner p) taskName);
                        goroutines := delete i (goroutines p);
                        trace := trace p ++ [];
                        crashed := HandlePanicError message (Some value) |}).
  { subst p'. unfold schedule. rewrite Hi, Hrun. reflexivity. }
  split; [exact Hexec|]. split; [exact Hrun|].
  rewrite Hrun. cbn [fst snd]. rewrite Hp'. cbn [trace runner crashed].
  split; [apply app_nil_r|]. split; [reflexivity|].
  split.
  { cbn [runningWorkerDone fst withRunningWorkers runningWorkersByTaskName].
    apply mapInt_insert_eq. }
  split.
  { intros name. eapply pollLoops_delete_execution; [exact Hi | reflexivity]. }
  split; [reflexivity | intros Hr; exact Hr].
Qed.

Lemma handler_panic_is_dropped_witness :
  callExecuteFunction panickingHandler (sampleTask "t-1")
  = Panics "index out of range" /\
  goroutines panicInFlight !! 1%nat
  = Some (GoExecuteAndUpdateTask "echo" (sampleTask "t-1") panickingHandler) /\
  trace (schedule panicInFlight 1 (PollFailed "unused") (fun _ => None))
  = trace panicInFlight.
Proof.
  split; [reflexivity|]. split; [reflexivity|].
  pose proof (handler_panic_is_dropped panicInFlight 1 "echo" (sampleTask "t-1")
                panickingHandler "index out of range" (PollFailed "unused")
                (fun _ => None) eq_refl eq_refl) as Hw.
  cbv zeta in Hw. destruct Hw as (_ & _ & Hw & _). exact Hw.
Defined.

(** C2, as stated, fails: for a handler that panics, the execution goroutine
    hands no result to the server (neither FAILED nor any other), although
    the server would have accepted it; the trace of the process is the one
    poll that fetched the task. *)
Lemma handler_panic_counterexample :
  goroutines panicInFlight
  = [GoWork4ever "echo" panickingHandler "";
     GoExecuteAndUpdateTask "echo" (sampleTask "t-1") panickingHandler] /\
  executeTask (sampleTask "t-1") panickingHandler = Panic "index out of range" /\
  executeAndUpdateTask (runner panicInFlight) "echo" (sampleTask "t-1")
    panickingHandler (fun _ => None)
  = (fst (runningWorkerDone (runner panicInFlight) "echo"), [], None) /\
  updateCalls
    (trace (schedule panicInFlight 1 (PollFailed "unused") (fun _ => None)))
  = [] /\
  ~ (exists r,
        In ("echo", r)
          (updateCalls
             (trace (schedule panicInFlight 1 (PollFailed "unused")
                       (fun _ => None)))) /\
        ResultStatus r = FAILED).
Proof.
  repeat split; try (vm_compute; reflexivity).
  intros (r & Hin & _). vm_compute in Hin. exact Hin.
Qed.

(** ** The capacity check of the poll loop *)

Lemma dispatchTasks_facts c n fn tasks :
  snd (dispatchTasks c n fn tasks)
  = map (fun t => GoExecuteAndUpdateTask n t fn) tasks /\
  mapInt (runningWorkersByTaskName (fst (dispatchTasks c n fn tasks))) n
  = Nat.iter (length tasks) (fun r => GoInt.add r 1)
      (mapInt (runningWorkersByTaskName c) n) /\
  (forall other, other <> n ->
     runningWorkersByTaskName (fst (dispatchTasks c n fn tasks)) !! other
     = runningWorkersByTaskName c !! other) /\
  batchSizeByTaskName (fst (dispatchTasks c n fn tasks)) = batchSizeByTaskName c /\
  pausedWorkers (fst (dispatchTasks c n fn tasks)) = pausedWorkers c.
Proof.
  revert c. induction tasks as [|t rest IH]; intros c.
  - cbn. repeat split.
  - cbn [dispatchTasks].
    set (c1 := fst (increaseRunningWorkers c n)).
    specialize (IH c1). destruct (dispatchTasks c1 n fn rest) as [c2 started].
    cbn [fst snd] in *. destruct IH as (Hs & Hr & Ho & Hb & Hp).
    split; [cbn [map]; rewrite Hs; reflexivity|].
    split.
    { rewrite Hr. subst c1.
      cbn [increaseRunningWorkers fst withRunningWorkers runningWorkersByTaskName].
      rewrite mapInt_insert_eq. cbn [length].
      rewrite Nat.iter_succ_r. reflexivity. }
    split.
    { intros other Hne. rewrite (Ho other Hne). subst c1.
      cbn [increaseRunningWorkers fst withRunningWorkers runningWorkersByTaskName].
      apply lookup_insert_ne. congruence. }
    split; [rewrite Hb | rewrite Hp]; reflexivity.
Qed.

Lemma iter_add_1_exact (k : nat) (r : Z) :
  GoInt.is_int r -> GoInt.is_int (r + Z.of_nat k) ->
  Nat.iter k (fun r => GoInt.add r 1) r = r + Z.of_nat k.
Proof.
  intros Hr. induction k as [|k IH]; intros Hk.
  - cbn. lia.
  - rewrite Nat.iter_succ. rewrite IH.
    + rewrite GoIntFacts.add_exact.
      * lia.
      * replace (r + Z.of_nat k + 1) with (r + Z.of_nat (S k)) by lia. exact Hk.
    + unfold GoInt.is_int, GoInt.int_min, GoInt.int_max in *. lia.
Qed.

Lemma batchPoll_events c n count domain reply :
  batchPolls (snd (batchPoll c n count domain reply)) = [(n, GoInt.int32 count)] /\
  match fst (batchPoll c n count domain reply) with
  | inl tasks => tasks = returnedTasks reply
  | inr _ => returnedTasks reply = []
  end.
Proof.
  unfold batchPoll, GetPollTimeoutForTask.
  destruct (pollTimeoutByTaskName c !! n); destruct reply as [err|code tasks];
    cbn [returnedTasks]; try destruct (code =? 204); cbn; split; reflexivity.
Qed.

Lemma batchPolls_app e1 e2 : batchPolls (e1 ++ e2) = batchPolls e1 ++ batchPolls e2.
Proof. unfold batchPolls. apply omap_app. Qed.

(** What one iteration does, by cases on the pause flag and on the
    available amount. *)
Lemma workOnce_cases c n fn domain reply :
  let available :=
    GoInt.sub (mapInt (batchSizeByTaskName c) n)
      (mapInt (runningWorkersByTaskName c) n) in
  let r := workOnce c n fn domain reply in
  (isPaused c n = true \/ available < 1) /\
    r = (c, [], snd r) /\ batchPolls (snd r) = []
  \/
  (isPaused c n = false /\ 1 <= available) /\
    batchPolls (snd r) = [(n, GoInt.int32 available)] /\
    snd (fst r) = map (fun t => GoExecuteAndUpdateTask n t fn) (returnedTasks reply) /\
    mapInt (runningWorkersByTaskName (fst (fst r))) n
    = Nat.iter (length (returnedTasks reply)) (fun r => GoInt.add r 1)
        (mapInt (runningWorkersByTaskName c) n) /\
    batchSizeByTaskName (fst (fst r)) = batchSizeByTaskName c.
Proof.
  intros available r. subst r. unfold workOnce.
  destruct (isPaused c n) eqn:Hp.
  { left. cbn. repeat split. left; reflexivity. }
  rewrite getAvailableWorkerAmount_eq. fold available.
  destruct (Z.ltb_spec available 1) as [Hlt|Hge].
  { left. cbn. repeat split. right; exact Hlt. }
  right. split; [split; [reflexivity | exact Hge]|].
  destruct (batchPoll_events c n available domain reply) as [Hev Hres].
  destruct (batchPoll c n available domain reply) as [[tasks|err] calls].
  - cbn [fst snd] in Hev, Hres. subst tasks.
    destruct (Z.ltb_spec (Z.of_nat (length (returnedTasks reply))) 1) as [Hnone|Hsome].
    + assert (Hnil : returnedTasks reply = []).
      { destruct (returnedTasks reply); [reflexivity | cbn in Hnone; lia]. }
      rewrite Hnil.
      destruct (GetPollIntervalForTask c n) as [iv [err|]]; cbn [fst snd];
        rewrite batchPolls_app, Hev; cbn; repeat split.
    + pose proof (dispatchTasks_facts c n fn (returnedTasks reply))
        as (Hs & Hr & _ & Hb & _).
      destruct (dispatchTasks c n fn (returnedTasks reply)) as [c' started].
      cbn [fst snd] in *. repeat split; assumption.
  - cbn [fst snd] in Hev, Hres. rewrite Hres. cbn [fst snd].
    rewrite batchPolls_app, Hev. cbn. repeat split.
Qed.




(** ** Poll loops and the registry *)

Section PollLoops.
Context `{Collaborators}.





Lemma startWorker_registry c n fn b iv d m :
  (batchSizeByTaskName (fst (fst (startWorker c n fn b iv d))) !! m
   = if decide (n = m)
     then Some (GoInt.add (mapInt (batchSizeByTaskName c) n) b)
     else batchSizeByTaskName c !! m) /\
  snd (fst (startWorker c n fn b iv d))
  = (if mapInt (batchSizeByTaskName c) n <? 1 then [GoWork4ever n fn d] else []).
Proof.
  rewrite startWorker_eq. cbv zeta.
  destruct (mapInt (batchSizeByTaskName c) n <? 1); cbn [fst snd];
    cbn [withWaitGroup withRunningWorkers withBatchSize batchSizeByTaskName];
    rewrite lookup_insert; split; reflexivity.
Qed.

Lemma callBatchSize_registry op c n b m :
  (is_Some (batchSizeByTaskName (fst (callBatchSize op c n b)) !! m)
   <-> is_Some (batchSizeByTaskName c !! m)) /\
  (n <> m ->
   batchSizeByTaskName (fst (callBatchSize op c n b)) !! m
   = batchSizeByTaskName c !! m).
Proof.
  assert (Hins : forall v w,
             isWorkerRegistered c n = true ->
             (is_Some (<[n := v]> (<[n := w]> (batchSizeByTaskName c)) !! m)
              <-> is_Some (batchSizeByTaskName c !! m)) /\
             (is_Some (<[n := v]> (batchSizeByTaskName c) !! m)
              <-> is_Some (batchSizeByTaskName c !! m))).
  { intros v w Hreg. apply isWorkerRegistered_true in Hreg.
    rewrite !lookup_insert. destruct (decide (n = m)) as [->|Hne].
    - split; split; intros _; eauto.
    - split; reflexivity. }
  destruct op; cbn [callBatchSize];
    unfold SetBatchSize, IncreaseBatchSize, DecreaseBatchSize;
    match goal with |- context [?a <? ?b] => destruct (a <? b) end;
    cbn [fst]; try (split; reflexivity);
    destruct (isWorkerRegistered c n) eqn:Hreg; cbn [negb fst];
    try (split; reflexivity).
  - cbn [withBatchSize batchSizeByTaskName]. split.
    + apply (Hins b b eq_refl).
    + intros Hne. apply lookup_insert_ne. exact Hne.
  - cbn [withBatchSize batchSizeByTaskName]. split.
    + apply (Hins _ 0 eq_refl).
    + intros Hne. apply lookup_insert_ne. exact Hne.
  - destruct (_ <=? 0); cbn [fst withBatchSize batchSizeByTaskName]; split.
    + apply (Hins 0 _ eq_refl).
    + intros Hne. rewrite !lookup_insert_ne by exact Hne. reflexivity.
    + apply (Hins _ 0 eq_refl).
    + intros Hne. apply lookup_insert_ne. exact Hne.
Qed.

End PollLoops.

Section RegistryInvariant.
Context `{Collaborators}.







End RegistryInvariant.

(** ** Capacity changes and the poll loop *)




(** ** Shutdown *)

Section Shutdown.
Context `{Collaborators}.

Lemma filter_delete_one {A} (P : A -> Prop) `{forall x, Decision (P x)}
    (l : list A) (i : nat) (x : A) :
  l !! i = Some x -> P x ->
  S (length (filter P (delete i l))) = length (filter P l).
Proof.
  revert i. induction l as [|y l IH]; intros i Hi Hx; [discriminate|].
  destruct i as [|i].
  - change (delete 0%nat (y :: l)) with l.
    inversion Hi; subst. rewrite filter_cons_True by exact Hx. reflexivity.
  - change (delete (S i) (y :: l)) with (y :: delete i l).
    change (l !! i = Some x) in Hi. specialize (IH i Hi Hx).
    rewrite !filter_cons. destruct (decide (P y)); cbn [length]; lia.
Qed.

Lemma updateTaskAttempts_events attempts n r replies lastError :
  batchPolls (snd (updateTaskAttempts attempts n r replies lastError)) = [].
Proof.
  revert lastError. induction attempts as [|attempt rest IH]; intros lastError.
  - reflexivity.
  - cbn [updateTaskAttempts updateTask].
    destruct (replies attempt) as [err|].
    + specialize (IH (Some err)).
      destruct (updateTaskAttempts rest n r replies (Some err)) as [res later].
      cbn [snd] in *. rewrite !batchPolls_app, IH.
      destruct (0 <? attempt); reflexivity.
    + cbn [snd]. rewrite batchPolls_app. destruct (0 <? attempt); reflexivity.
Qed.

Lemma executeAndUpdateTask_events c n task fn replies :
  batchPolls (snd (fst (executeAndUpdateTask c n task fn replies))) = [].
Proof.
  unfold executeAndUpdateTask.
  destruct (executeTask task fn) as [r|v]; [|reflexivity].
  pose proof (updateTaskAttempts_events
                (seqZ 0 (taskUpdateRetryAttemptsLimit + 1)) n r replies None)
    as Hev.
  fold (updateTaskWithRetry n r replies) in Hev.
  destruct (updateTaskWithRetry n r replies) as [[err|] calls];
    cbn [fst snd] in *; [|exact Hev].
  rewrite batchPolls_app, Hev. reflexivity.
Qed.







End Shutdown.



(** The sample run behind the witness, evaluated: two polls before the
    shutdown, none after it; the loop is gone, and the execution that was
    in flight has reported its COMPLETED result. *)
Example shutdown_sample_run :
  batchPolls (trace echoBusy) = [("echo", 2); ("echo", 1)] /\
  goroutines echoBusy
  = [GoWork4ever "echo" echoHandler "";
     GoExecuteAndUpdateTask "echo" (sampleTask "t-1") echoHandler] /\
  goroutines (run (step echoBusy (CallShutdown "echo")) afterShutdown) = [] /\
  batchPolls (trace (run (step echoBusy (CallShutdown "echo")) afterShutdown))
  = [("echo", 2); ("echo", 1)] /\
  map (fun u => ResultStatus (snd u))
    (updateCalls
       (trace (run (step echoBusy (CallShutdown "echo")) afterShutdown)))
  = [COMPLETED].
Proof. repeat split; vm_compute; reflexivity. Qed.

(** * Further properties of the runner *)

(** ** Pause and resume *)

Lemma mapBool_insert_eq (m : gmap string bool) k v : mapBool (<[k := v]> m) k = v.
Proof. unfold mapBool. rewrite lookup_insert_eq. reflexivity. Qed.

Lemma mapBool_insert_ne (m : gmap string bool) k k' v :
  k <> k' -> mapBool (<[k := v]> m) k' = mapBool m k'.
Proof.
  intros Hne. unfold mapBool. rewrite lookup_insert_ne by exact Hne. reflexivity.
Qed.

(** What an iteration starts and which calls it makes depends on the runner
    only through the pause flag, the batch size, the running count, the poll
    interval and the poll timeout of its task name. *)
Lemma workOnce_reads c1 c2 n fn domain reply :
  isPaused c1 n = isPaused c2 n ->
  batchSizeByTaskName c1 !! n = batchSizeByTaskName c2 !! n ->
  runningWorkersByTaskName c1 !! n = runningWorkersByTaskName c2 !! n ->
  pollIntervalByTaskName c1 !! n = pollIntervalByTaskName c2 !! n ->
  GetPollTimeoutForTask c1 n = GetPollTimeoutForTask c2 n ->
  snd (fst (workOnce c1 n fn domain reply)) = snd (fst (workOnce c2 n fn domain reply)) /\
  snd (workOnce c1 n fn domain reply) = snd (workOnce c2 n fn domain reply).
Proof.
  intros Hp Hb Hr Hi Ht. unfold workOnce. rewrite Hp.
  destruct (isPaused c2 n); [split; reflexivity|].
  rewrite !getAvailableWorkerAmount_eq. unfold mapInt. rewrite Hb, Hr.
  destruct (_ <? 1); [split; reflexivity|].
  unfold batchPoll. rewrite Ht.
  destruct (GetPollTimeoutForTask c2 n) as [timeout [err|]].
  { cbn. split; reflexivity. }
  set (count := GoInt.sub _ _).
  set (call := EvBatchPoll _ _ _ _).
  destruct reply as [err|code tasks]; [split; reflexivity|].
  assert (Hgo : forall ts,
             snd (fst (if Z.of_nat (length ts) <? 1
                       then match GetPollIntervalForTask c1 n with
                            | (_, Some err) =>
                                (c1, [], [call] ++ [EvLogError err;
                                   EvPauseOnGenericError n domain
                                     ("failed to get poll interval, reason: " +:+ err)])
                            | (pollInterval, None) =>
                                (c1, [], [call] ++ [EvSleep pollInterval])
                            end
                       else let '(c, started) := dispatchTasks c1 n fn ts in
                            (c, started, [call])))
             = snd (fst (if Z.of_nat (length ts) <? 1
                       then match GetPollIntervalForTask c2 n with
                            | (_, Some err) =>
                                (c2, [], [call] ++ [EvLogError err;
                                   EvPauseOnGenericError n domain
                                     ("failed to get poll interval, reason: " +:+ err)])
                            | (pollInterval, None) =>
                                (c2, [], [call] ++ [EvSleep pollInterval])
                            end
                       else let '(c, started) := dispatchTasks c2 n fn ts in
                            (c, started, [call]))) /\
             snd (if Z.of_nat (length ts) <? 1
                       then match GetPollIntervalForTask c1 n with
                            | (_, Some err) =>
                                (c1, [], [call] ++ [EvLogError err;
                                   EvPauseOnGenericError n domain
                                     ("failed to get poll interval, reason: " +:+ err)])
                            | (pollInterval, None) =>
                                (c1, [], [call] ++ [EvSleep pollInterval])
                            end
                       else let '(c, started) := dispatchTasks c1 n fn ts in
                            (c, started, [call]))
             = snd (if Z.of_nat (length ts) <? 1
                       then match GetPollIntervalForTask c2 n with
                            | (_, Some err) =>
                                (c2, [], [call] ++ [EvLogError err;
                                   EvPauseOnGenericError n domain
                                     ("failed to get poll interval, reason: " +:+ err)])
                            | (pollInterval, None) =>
                                (c2, [], [call] ++ [EvSleep pollInterval])
                            end
                       else let '(c, started) := dispatchTasks c2 n fn ts in
                            (c, started, [call]))).
  { intros ts. destruct (_ <? 1).
    - unfold GetPollIntervalForTask. rewrite Hi.
      destruct (pollIntervalByTaskName c2 !! n); split; reflexivity.
    - pose proof (dispatchTasks_facts c1 n fn ts) as (H1 & _).
      pose proof (dispatchTasks_facts c2 n fn ts) as (H2 & _).
      destruct (dispatchTasks c1 n fn ts), (dispatchTasks c2 n fn ts).
      cbn [fst snd] in *. subst. split; reflexivity. }
  destruct (code =? 204); apply Hgo.
Qed.

(** X1. While a task type is paused, an iteration of its poll loop makes
    no batch poll, starts no execution and leaves the runner as it is,
    whatever capacity is free.  Iterations for other task types start the
    same goroutines and make the same calls as without the pause.  [Pause]
    touches neither registration nor capacity, never fails, and [Resume]
    ends the pause. *)
Theorem paused_iteration_is_idle (c : TaskRunner) (taskName other : string)
    (fn : ExecuteTaskFunction) (domain : string) (reply : PollReply) :
  workOnce (Pause c taskName) taskName fn domain reply
  = (Pause c taskName, [],
     [EvPauseOnGenericError taskName domain "worker is paused"]) /\
  (other <> taskName ->
   snd (fst (workOnce (Pause c taskName) other fn domain reply))
   = snd (fst (workOnce c other fn domain reply)) /\
   snd (workOnce (Pause c taskName) other fn domain reply)
   = snd (workOnce c other fn domain reply)) /\
  batchSizeByTaskName (Pause c taskName) = batchSizeByTaskName c /\
  runningWorkersByTaskName (Pause c taskName) = runningWorkersByTaskName c /\
  Pause (Pause c taskName) taskName = Pause c taskName /\
  isPaused (Resume (Pause c taskName) taskName) taskName = false /\
  Resume (Pause c taskName) taskName = Resume c taskName.
Proof.
  split.
  { unfold workOnce, isPaused, Pause. cbn [pausedWorkers withPausedWorkers].
    rewrite mapBool_insert_eq. reflexivity. }
  split.
  { intros Hne. apply workOnce_reads; try reflexivity.
    unfold isPaused, Pause. cbn [pausedWorkers withPausedWorkers].
    apply mapBool_insert_ne. congruence. }
  split; [reflexivity|]. split; [reflexivity|].
  split.
  { unfold Pause. cbn [pausedWorkers withPausedWorkers withPausedWorkers
                       workerWaitGroup batchSizeByTaskName runningWorkersByTaskName
                       pollIntervalByTaskName pollTimeout pollTimeoutByTaskName
                       baseCtx].
    unfold withPausedWorkers. cbn. rewrite insert_insert_eq. reflexivity. }
  split.
  { unfold isPaused, Resume. cbn [pausedWorkers withPausedWorkers].
    apply mapBool_insert_eq. }
  unfold Resume, Pause, withPausedWorkers. cbn. rewrite insert_insert_eq.
  reflexivity.
Qed.

Lemma paused_iteration_is_idle_witness :
  "create_user_task" <> "echo" /\
  snd (workOnce (Pause echoOneInFlight "echo") "create_user_task" echoHandler ""
         (PollFailed "timeout"))
  = snd (workOnce echoOneInFlight "create_user_task" echoHandler ""
           (PollFailed "timeout")).
Proof.
  assert (Hne : "create_user_task" <> "echo") by discriminate.
  split; [exact Hne|].
  apply (paused_iteration_is_idle echoOneInFlight "echo" "create_user_task"
           echoHandler "" (PollFailed "timeout")).
  exact Hne.
Defined.

(** ** Shutdown and registering again *)

Lemma Shutdown_lookups c n m :
  batchSizeByTaskName (Shutdown c n) !! m
  = (if decide (n = m) then None else batchSizeByTaskName c !! m) /\
  pausedWorkers (Shutdown c n) !! m
  = (if decide (n = m) then None else pausedWorkers c !! m) /\
  pollIntervalByTaskName (Shutdown c n) !! m
  = (if decide (n = m) then None else pollIntervalByTaskName c !! m) /\
  pollTimeoutByTaskName (Shutdown c n) !! m
  = (if decide (n = m) then None else pollTimeoutByTaskName c !! m) /\
  runningWorkersByTaskName (Shutdown c n) = runningWorkersByTaskName c /\
  workerWaitGroup (Shutdown c n) = workerWaitGroup c /\
  pollTimeout (Shutdown c n) = pollTimeout c.
Proof.
  unfold Shutdown.
  cbn [withPollTimeouts withPollInterval withPausedWorkers withBatchSize
       batchSizeByTaskName pausedWorkers pollIntervalByTaskName
       pollTimeoutByTaskName runningWorkersByTaskName workerWaitGroup pollTimeout].
  rewrite !lookup_delete. repeat split.
Qed.

Lemma Shutdown_twice c n : Shutdown (Shutdown c n) n = Shutdown c n.
Proof.
  unfold Shutdown.
  cbn [withPollTimeouts withPollInterval withPausedWorkers withBatchSize
       batchSizeByTaskName pausedWorkers pollIntervalByTaskName
       pollTimeoutByTaskName runningWorkersByTaskName workerWaitGroup
       pollTimeout baseCtx].
  rewrite !delete_delete_eq. reflexivity.
Qed.

(** X2. [Shutdown] removes the batch size, the pause flag, the poll
    interval and the poll timeout of the task name and nothing else: after
    it the name is not registered, its batch size reads 0, it is not
    paused, its poll interval is reported missing and its poll timeout is
    the runner's default.  The entries of every other name, all running
    counts (that of the name included) and the wait group are as before,
    and a second [Shutdown] changes nothing. *)
Theorem shutdown_clears_one_name (c : TaskRunner) (taskName other : string) :
  let c' := Shutdown c taskName in
  isWorkerRegistered c' taskName = false /\
  GetBatchSizeForTask c' taskName = 0 /\
  isPaused c' taskName = false /\
  GetPollIntervalForTask c' taskName
  = (0, Some ("poll interval not registered for task: " +:+ taskName)) /\
  GetPollTimeoutForTask c' taskName = (pollTimeout c, None) /\
  runningWorkersByTaskName c' = runningWorkersByTaskName c /\
  workerWaitGroup c' = workerWaitGroup c /\
  Shutdown c' taskName = c' /\
  (other <> taskName ->
   isWorkerRegistered c' other = isWorkerRegistered c other /\
   GetBatchSizeForTask c' other = GetBatchSizeForTask c other /\
   isPaused c' other = isPaused c other /\
   GetPollIntervalForTask c' other = GetPollIntervalForTask c other /\
   GetPollTimeoutForTask c' other = GetPollTimeoutForTask c other).
Proof.
  intros c'. subst c'.
  destruct (Shutdown_lookups c taskName taskName) as (Hb & Hp & Hi & Ht & Hr & Hw & Hd).
  destruct (decide (taskName = taskName)) as [_|Hne]; [|contradiction].
  split; [apply isWorkerRegistered_false; exact Hb|].
  split; [unfold GetBatchSizeForTask; rewrite Hb; reflexivity|].
  split; [unfold isPaused, mapBool; rewrite Hp; reflexivity|].
  split; [unfold GetPollIntervalForTask; rewrite Hi; reflexivity|].
  split; [unfold GetPollTimeoutForTask; rewrite Ht, Hd; reflexivity|].
  split; [exact Hr|]. split; [exact Hw|].
  split; [apply Shutdown_twice|].
  intros Hne.
  destruct (Shutdown_lookups c taskName other) as (Hb' & Hp' & Hi' & Ht' & _ & _ & Hd').
  destruct (decide (taskName = other)) as [->|_]; [contradiction|].
  unfold isWorkerRegistered, GetBatchSizeForTask, isPaused, mapBool,
    GetPollIntervalForTask, GetPollTimeoutForTask.
  rewrite Hb', Hp', Hi', Ht', Hd'. repeat split.
Qed.

Lemma shutdown_clears_one_name_witness :
  "create_user_task" <> "echo" /\
  GetBatchSizeForTask (Shutdown echoOneInFlight "echo") "create_user_task"
  = GetBatchSizeForTask echoOneInFlight "create_user_task".
Proof.
  assert (Hne : "create_user_task" <> "echo") by discriminate.
  split; [exact Hne|].
  pose proof (shutdown_clears_one_name echoOneInFlight "echo" "create_user_task")
    as Hw.
  cbv zeta in Hw. destruct Hw as (_ & _ & _ & _ & _ & _ & _ & _ & Hw).
  apply (Hw Hne).
Defined.

(** X3. Registering a task name after its shutdown starts from nothing:
    the capacity is the new batch size alone, the pause flag is off, the
    poll interval is the new one and one poll loop is started.  The
    running count is not reset: executions that were in flight at the
    shutdown still count against the new capacity. *)
Theorem registration_after_shutdown (c : TaskRunner) (taskName : string)
    (fn : ExecuteTaskFunction) (batchSize pollInterval : Z) (domain : string) :
  GoInt.is_int batchSize ->
  let r := startWorker (Shutdown c taskName) taskName fn batchSize pollInterval
             domain in
  snd r = None /\
  snd (fst r) = [GoWork4ever taskName fn domain] /\
  GetBatchSizeForTask (fst (fst r)) taskName = batchSize /\
  isPaused (fst (fst r)) taskName = false /\
  GetPollIntervalForTask (fst (fst r)) taskName = (pollInterval, None) /\
  runningWorkersByTaskName (fst (fst r)) = runningWorkersByTaskName c /\
  getAvailableWorkerAmount (fst (fst r)) taskName
  = (GoInt.sub batchSize (mapInt (runningWorkersByTaskName c) taskName), None).
Proof.
  intros Hint r. subst r.
  assert (Hzero : GetBatchSizeForTask (Shutdown c taskName) taskName = 0).
  { destruct (Shutdown_lookups c taskName taskName) as (Hb0 & _).
    destruct (decide (taskName = taskName)) as [_|Hne]; [|contradiction].
    unfold GetBatchSizeForTask. rewrite Hb0. reflexivity. }
  destruct (startWorker_facts (Shutdown c taskName) taskName fn batchSize
              pollInterval domain) as (He & Hb & Hp & _ & Hs).
  rewrite Hzero in Hb, Hs. cbn in Hs.
  rewrite GoIntFacts.add_exact in Hb by (rewrite Z.add_0_l; exact Hint).
  rewrite Z.add_0_l in Hb.
  assert (Hfields :
            pollIntervalByTaskName
              (fst (fst (startWorker (Shutdown c taskName) taskName fn batchSize
                           pollInterval domain))) !! taskName = Some pollInterval /\
            runningWorkersByTaskName
              (fst (fst (startWorker (Shutdown c taskName) taskName fn batchSize
                           pollInterval domain)))
            = runningWorkersByTaskName c).
  { rewrite startWorker_eq. cbv zeta.
    destruct (_ <? 1); cbn; rewrite lookup_insert_eq; split; reflexivity. }
  destruct Hfields as [Hiv Hr].
  split; [exact He|]. split; [exact Hs|]. split; [exact Hb|]. split; [exact Hp|].
  split; [unfold GetPollIntervalForTask; rewrite Hiv; reflexivity|].
  split; [exact Hr|].
  rewrite getAvailableWorkerAmount_eq, Hr.
  rewrite <- GetBatchSizeForTask_mapInt, Hb. reflexivity.
Qed.

Lemma registration_after_shutdown_witness :
  GoInt.is_int 1 /\
  getAvailableWorkerAmount
    (fst (fst (startWorker (Shutdown echoOneInFlight "echo") "echo" echoHandler
                 1 100000000 "")))
    "echo"
  = (GoInt.sub 1 (mapInt (runningWorkersByTaskName echoOneInFlight) "echo"), None).
Proof.
  assert (Hint : GoInt.is_int 1) by (vm_compute; split; discriminate).
  split; [exact Hint|].
  apply (registration_after_shutdown echoOneInFlight "echo" echoHandler 1
           100000000 "" Hint).
Defined.

(** ** Poll timeouts *)

Lemma batchPoll_timeout c n count domain reply :
  pollTimeoutsSent (snd (batchPoll c n count domain reply))
  = [if 0 <=? fst (GetPollTimeoutForTask c n)
     then Some (GoInt.int32 (Duration.Milliseconds (fst (GetPollTimeoutForTask c n))))
     else None].
Proof.
  unfold batchPoll.
  assert (Hnone : snd (GetPollTimeoutForTask c n) = None).
  { unfold GetPollTimeoutForTask. destruct (_ !! _); reflexivity. }
  destruct (GetPollTimeoutForTask c n) as [timeout err]. cbn [fst snd] in *.
  subst err. destruct reply as [err|code tasks]; [reflexivity|].
  destruct (code =? 204); reflexivity.
Qed.

Lemma Milliseconds_exact d :
  0 <= d -> GoInt.is_int d -> Duration.Milliseconds d = d / 1000000.
Proof.
  intros Hd Hint. unfold Duration.Milliseconds, GoInt.div, Duration.Millisecond.
  rewrite Z.quot_div_nonneg by lia.
  apply GoIntFacts.int_id.
  unfold GoInt.is_int, GoInt.int_min, GoInt.int_max in *.
  assert (0 <= d / 1000000 <= d).
  { split; [apply Z.div_pos; lia|]. apply Z.div_le_upper_bound; lia. }
  lia.
Qed.

(** X4. Which poll timeout a batch poll carries.  The timeout set for the
    task name with [SetPollTimeoutForTask] is used and a later
    [SetPollTimeout] does not change it; a name without its own timeout
    uses the runner-wide one.  A negative timeout is not sent at all (so a
    new runner sends none); a timeout of [d >= 0] nanoseconds is sent as
    [int32(d / 1000000)] milliseconds, which is [d / 1000000] rounded down
    as long as that is below [2^31], and 0 for anything under a
    millisecond. *)
Theorem poll_timeout_sent (c : TaskRunner) (taskName : string) (d wide : Z)
    (count : Z) (domain : string) (reply : PollReply) :
  GoInt.is_int d ->
  let own := fst (SetPollTimeoutForTask c taskName d) in
  let sent := fun runner =>
    pollTimeoutsSent (snd (batchPoll runner taskName count domain reply)) in
  sent (fst (SetPollTimeout own wide)) = sent own /\
  (d < 0 -> sent own = [None]) /\
  (0 <= d -> sent own = [Some (GoInt.int32 (d / 1000000))]) /\
  (0 <= d < 2 ^ 31 * 1000000 -> sent own = [Some (d / 1000000)]) /\
  (pollTimeoutByTaskName c !! taskName = None ->
   GoInt.is_int wide -> 0 <= wide < 2 ^ 31 * 1000000 ->
   sent (fst (SetPollTimeout c wide)) = [Some (wide / 1000000)]) /\
  pollTimeoutsSent
    (snd (batchPoll NewTaskRunnerWithApiClient taskName count domain reply))
  = [None].
Proof.
  intros Hint own sent. subst own sent. cbv beta.
  rewrite !batchPoll_timeout.
  assert (Hown : forall w,
             GetPollTimeoutForTask
               (fst (SetPollTimeout (fst (SetPollTimeoutForTask c taskName d)) w))
               taskName = (d, None)).
  { intros w. unfold GetPollTimeoutForTask. cbn. rewrite lookup_insert_eq.
    reflexivity. }
  assert (Hown' : GetPollTimeoutForTask (fst (SetPollTimeoutForTask c taskName d))
                    taskName = (d, None)).
  { unfold GetPollTimeoutForTask. cbn. rewrite lookup_insert_eq. reflexivity. }
  rewrite Hown, Hown'. cbn [fst].
  split; [reflexivity|].
  split.
  { intros Hneg. destruct (Z.leb_spec 0 d); [lia | reflexivity]. }
  split.
  { intros Hpos. destruct (Z.leb_spec 0 d); [|lia].
    rewrite Milliseconds_exact by assumption. reflexivity. }
  split.
  { intros [Hpos Hlt]. destruct (Z.leb_spec 0 d); [|lia].
    rewrite Milliseconds_exact by assumption.
    unfold GoInt.int32. rewrite GoIntFacts.wrap_id; [reflexivity | lia |].
    change (32 - 1) with 31.
    assert (0 <= d / 1000000 < 2 ^ 31).
    { split; [apply Z.div_pos; lia|]. apply Z.div_lt_upper_bound; lia. }
    lia. }
  split.
  { intros Hnone Hw [Hpos Hlt].
    assert (Hg : GetPollTimeoutForTask (fst (SetPollTimeout c wide)) taskName
                 = (wide, None)).
    { unfold GetPollTimeoutForTask. cbn. rewrite Hnone. reflexivity. }
    rewrite Hg. cbn [fst]. destruct (Z.leb_spec 0 wide); [|lia].
    rewrite Milliseconds_exact by assumption.
    unfold GoInt.int32. rewrite GoIntFacts.wrap_id; [reflexivity | lia |].
    change (32 - 1) with 31.
    assert (0 <= wide / 1000000 < 2 ^ 31).
    { split; [apply Z.div_pos; lia|]. apply Z.div_lt_upper_bound; lia. }
    lia. }
  reflexivity.
Qed.

Lemma poll_timeout_sent_witness :
  GoInt.is_int 2500000 /\
  pollTimeoutsSent
    (snd (batchPoll (fst (SetPollTimeoutForTask echoRegistered "echo" 2500000))
            "echo" 2 "" (PollFailed "timeout")))
  = [Some 2].
Proof.
  assert (Hint : GoInt.is_int 2500000) by (vm_compute; split; discriminate).
  split; [exact Hint|].
  pose proof (poll_timeout_sent echoRegistered "echo" 2500000 0 2 ""
                (PollFailed "timeout") Hint) as Hw.
  cbv zeta beta in Hw. destruct Hw as (_ & _ & _ & Hw & _).
  apply Hw. lia.
Defined.

Lemma RegisterWorker_eq c w :
  RegisterWorker c (Some w)
  = startWorker
      (let ci := withPollInterval c
                   (<[taskName_ w := PollInterval (options_ w)]>
                      (pollIntervalByTaskName c)) in
       if PollTimeout (options_ w) =? 0 then ci
       else withPollTimeouts ci (pollTimeout c)
              (<[taskName_ w := PollTimeout (options_ w)]>
                 (pollTimeoutByTaskName c)))
      (taskName_ w) (handler_ w) (BatchSize (options_ w))
      (PollInterval (options_ w)) (Domain (options_ w)).
Proof.
  unfold RegisterWorker.
  destruct w as [n h [dom b iv tmo ctx]].
  cbn [options_ taskName_ handler_ BaseContext PollInterval PollTimeout BatchSize
       Domain withOptions WithBaseContext SetPollIntervalForTask].
  destruct ctx as [ctx|];
    cbn [options_ taskName_ handler_ BaseContext PollInterval PollTimeout BatchSize
         Domain withOptions WithBaseContext SetPollIntervalForTask];
    destruct (tmo =? 0); reflexivity.
Qed.

Lemma startWorker_timeouts c n h b iv dom :
  pollIntervalByTaskName (fst (fst (startWorker c n h b iv dom))) !! n = Some iv /\
  pollTimeoutByTaskName (fst (fst (startWorker c n h b iv dom)))
  = pollTimeoutByTaskName c /\
  pollTimeout (fst (fst (startWorker c n h b iv dom))) = pollTimeout c.
Proof.
  rewrite startWorker_eq. cbv zeta.
  destruct (_ <? 1);
    cbn [fst snd withPollTimeouts withPollInterval withPausedWorkers withBatchSize
         withWaitGroup withRunningWorkers Resume SetPollIntervalForTask
         batchSizeByTaskName pausedWorkers pollIntervalByTaskName
         pollTimeoutByTaskName runningWorkersByTaskName workerWaitGroup
         pollTimeout baseCtx];
    rewrite lookup_insert_eq; repeat split.
Qed.

(** X5. [RegisterWorker] writes the worker's poll interval, and its poll
    timeout unless that is zero.  A worker with any non-zero poll timeout
    (the default of [NewWorker] is -1 ms) therefore gets a timeout of its own, which
    a later [SetPollTimeout] on the runner does not reach; with a zero poll
    timeout the timeout in force for the name stays what it was. *)
Theorem register_worker_sets_timeouts (c : TaskRunner) (w : BaseWorker) (wide : Z) :
  let opts := options_ w in
  let c' := fst (fst (RegisterWorker c (Some w))) in
  GetPollIntervalForTask c' (taskName_ w) = (PollInterval opts, None) /\
  (PollTimeout opts <> 0 ->
   GetPollTimeoutForTask c' (taskName_ w) = (PollTimeout opts, None) /\
   GetPollTimeoutForTask (fst (SetPollTimeout c' wide)) (taskName_ w)
   = (PollTimeout opts, None)) /\
  (PollTimeout opts = 0 ->
   GetPollTimeoutForTask c' (taskName_ w) = GetPollTimeoutForTask c (taskName_ w)).
Proof.
  intros opts c'. subst opts c'.
  rewrite RegisterWorker_eq. cbv zeta.
  match goal with
  | |- context [startWorker ?c0 ?n ?h ?b ?iv ?dom] =>
      destruct (startWorker_timeouts c0 n h b iv dom) as (Hiv & Hto & Hd)
  end.
  unfold GetPollIntervalForTask, GetPollTimeoutForTask.
  cbn [SetPollTimeout fst withPollTimeouts pollTimeoutByTaskName pollTimeout].
  rewrite Hiv, Hto, Hd.
  split; [reflexivity|].
  destruct (Z.eqb_spec (PollTimeout (options_ w)) 0) as [Hz|Hnz].
  - split; [intros Hne; contradiction|]. intros _. reflexivity.
  - split; [|intros Hz; contradiction]. intros _.
    cbn [withPollTimeouts withPollInterval pollTimeoutByTaskName pollTimeout].
    rewrite lookup_insert_eq. split; reflexivity.
Qed.

Lemma register_worker_sets_timeouts_witness :
  PollTimeout (options_ (NewWorker "echo" echoHandler [])) <> 0 /\
  GetPollTimeoutForTask
    (fst (SetPollTimeout
            (fst (fst (RegisterWorker NewTaskRunnerWithApiClient
                         (Some (NewWorker "echo" echoHandler []))))) 5000000000))
    "echo"
  = (-1000000, None).
Proof.
  assert (Hne : PollTimeout (options_ (NewWorker "echo" echoHandler [])) <> 0)
    by (vm_compute; discriminate).
  split; [exact Hne|].
  pose proof (register_worker_sets_timeouts NewTaskRunnerWithApiClient
                (NewWorker "echo" echoHandler []) 5000000000) as Hw.
  cbv zeta in Hw. destruct Hw as (_ & Hw & _).
  destruct (Hw Hne) as [_ Hset]. exact Hset.
Defined.

(** ** Batch sizes *)

Lemma IncreaseBatchSize_accepts c n d :
  isWorkerRegistered c n = true -> 1 <= d ->
  IncreaseBatchSize c n d =
  (withBatchSize c
     (<[n := GoInt.add (mapInt (batchSizeByTaskName c) n) d]>
        (batchSizeByTaskName c)), None).
Proof.
  intros Hreg Hd. unfold IncreaseBatchSize.
  destruct (Z.ltb_spec d 1); [lia|]. rewrite Hreg. reflexivity.
Qed.

Lemma withBatchSize_registered c n v :
  isWorkerRegistered (withBatchSize c (<[n := v]> (batchSizeByTaskName c))) n = true.
Proof.
  apply isWorkerRegistered_true. cbn. rewrite lookup_insert_eq. eauto.
Qed.

(** X6. Increasing and decreasing by the same amount do not commute at the
    floor.  For a registered task type of capacity [old >= 0] and a delta
    [d >= 1] whose sum fits an [int]: [IncreaseBatchSize d] followed by
    [DecreaseBatchSize d] gives back [old], while [DecreaseBatchSize d]
    followed by [IncreaseBatchSize d] gives [max old d], that is, more
    than before whenever the decrease hit zero. *)
Theorem increase_decrease_compose (c : TaskRunner) (taskName : string) (d : Z) :
  isWorkerRegistered c taskName = true ->
  1 <= d ->
  0 <= GetBatchSizeForTask c taskName ->
  GoInt.is_int (GetBatchSizeForTask c taskName + d) ->
  let old := GetBatchSizeForTask c taskName in
  let up_down :=
    fst (DecreaseBatchSize (fst (IncreaseBatchSize c taskName d)) taskName d) in
  let down_up :=
    fst (IncreaseBatchSize (fst (DecreaseBatchSize c taskName d)) taskName d) in
  GetBatchSizeForTask up_down taskName = old /\
  GetBatchSizeForTask down_up taskName = Z.max old d /\
  (old < d -> GetBatchSizeForTask down_up taskName = d).
Proof.
  intros Hreg Hd Hold Hfit old up_down down_up. subst old up_down down_up.
  rewrite GetBatchSizeForTask_mapInt in Hold, Hfit.
  assert (Hrange : forall z, 0 - d <= z <= mapInt (batchSizeByTaskName c) taskName + d ->
                             GoInt.is_int z).
  { intros z Hz. unfold GoInt.is_int, GoInt.int_min, GoInt.int_max in *. lia. }
  rewrite (IncreaseBatchSize_accepts c taskName d Hreg Hd).
  rewrite (DecreaseBatchSize_accepts c taskName d Hreg Hd). cbn [fst].
  rewrite DecreaseBatchSize_accepts by (apply withBatchSize_registered || exact Hd).
  rewrite IncreaseBatchSize_accepts by (apply withBatchSize_registered || exact Hd).
  cbn [fst]. rewrite !GetBatchSizeForTask_mapInt.
  cbn [withBatchSize batchSizeByTaskName]. rewrite !mapInt_insert_eq.
  rewrite (GoIntFacts.add_exact (mapInt (batchSizeByTaskName c) taskName) d)
    by exact Hfit.
  rewrite (GoIntFacts.sub_exact (mapInt (batchSizeByTaskName c) taskName + d) d)
    by (apply Hrange; lia).
  rewrite (GoIntFacts.sub_exact (mapInt (batchSizeByTaskName c) taskName) d)
    by (apply Hrange; lia).
  rewrite GoIntFacts.add_exact by (apply Hrange; lia).
  repeat split; lia.
Qed.

Lemma increase_decrease_compose_witness :
  isWorkerRegistered echoRegistered "echo" = true /\
  GetBatchSizeForTask
    (fst (IncreaseBatchSize (fst (DecreaseBatchSize echoRegistered "echo" 5))
            "echo" 5)) "echo" = 5.
Proof.
  split; [reflexivity|].
  pose proof (increase_decrease_compose echoRegistered "echo" 5 eq_refl
                ltac:(lia)) as Hw.
  assert (H0 : 0 <= GetBatchSizeForTask echoRegistered "echo")
    by (vm_compute; discriminate).
  assert (H1 : GoInt.is_int (GetBatchSizeForTask echoRegistered "echo" + 5))
    by (vm_compute; split; discriminate).
  specialize (Hw H0 H1). cbv zeta in Hw. destruct Hw as (_ & _ & Hw).
  apply Hw. vm_compute. reflexivity.
Defined.

(** X7. [StartWorker] and [StartWorkerWithDomain] accept a batch size that
    is zero or negative: for a name without configuration they return no
    error, register the name with that capacity and start its poll loop.
    As long as the running count is not negative, and the capacity minus
    the running count is still an [int], the loop's iterations poll nothing
    and start nothing. *)
Theorem start_worker_without_capacity (c : TaskRunner) (taskName : string)
    (fn : ExecuteTaskFunction) (batchSize pollInterval : Z) (domain : string)
    (reply : PollReply) :
  isWorkerRegistered c taskName = false ->
  batchSize <= 0 ->
  GoInt.is_int batchSize ->
  let r := StartWorkerWithDomain c taskName fn batchSize pollInterval domain in
  let c' := fst (fst r) in
  StartWorker c taskName fn batchSize pollInterval
  = StartWorkerWithDomain c taskName fn batchSize pollInterval "" /\
  snd r = None /\
  snd (fst r) = [GoWork4ever taskName fn domain] /\
  isWorkerRegistered c' taskName = true /\
  GetBatchSizeForTask c' taskName = batchSize /\
  (0 <= mapInt (runningWorkersByTaskName c) taskName ->
   GoInt.is_int (batchSize - mapInt (runningWorkersByTaskName c) taskName) ->
   batchPolls (snd (workOnce c' taskName fn domain reply)) = [] /\
   snd (fst (workOnce c' taskName fn domain reply)) = []).
Proof.
  intros Hun Hb Hint r c'. subst r c'. unfold StartWorker, StartWorkerWithDomain.
  destruct (startWorker_facts c taskName fn batchSize pollInterval domain)
    as (He & Hcap & Hp & Hreg & Hs).
  assert (Hzero : GetBatchSizeForTask c taskName = 0).
  { unfold GetBatchSizeForTask. apply isWorkerRegistered_false in Hun.
    rewrite Hun. reflexivity. }
  rewrite Hzero in Hcap, Hs. cbn in Hs.
  rewrite GoIntFacts.add_exact in Hcap by (rewrite Z.add_0_l; exact Hint).
  rewrite Z.add_0_l in Hcap.
  split; [reflexivity|]. split; [exact He|]. split; [exact Hs|].
  split; [exact Hreg|]. split; [exact Hcap|].
  intros Hrun Hrint.
  set (c' := fst (fst (startWorker c taskName fn batchSize pollInterval domain))) in *.
  assert (Hr : runningWorkersByTaskName c' = runningWorkersByTaskName c).
  { subst c'. rewrite startWorker_eq. cbv zeta. destruct (_ <? 1); reflexivity. }
  pose proof (workOnce_cases c' taskName fn domain reply) as Hc. cbv zeta in Hc.
  destruct Hc as [(_ & Hsame & Hnone) | ((_ & Hge) & _)].
  - split; [exact Hnone|]. rewrite Hsame. reflexivity.
  - exfalso. rewrite Hr, <- GetBatchSizeForTask_mapInt, Hcap in Hge.
    rewrite GoIntFacts.sub_exact in Hge by exact Hrint. lia.
Qed.

Lemma start_worker_without_capacity_witness :
  isWorkerRegistered NewTaskRunnerWithApiClient "echo" = false /\
  GetBatchSizeForTask
    (fst (fst (StartWorkerWithDomain NewTaskRunnerWithApiClient "echo" echoHandler
                 (-3) 100000000 "eu"))) "echo" = -3.
Proof.
  split; [reflexivity|].
  pose proof (start_worker_without_capacity NewTaskRunnerWithApiClient "echo"
                echoHandler (-3) 100000000 "eu" (PollFailed "timeout") eq_refl
                ltac:(lia)) as Hw.
  assert (Hint : GoInt.is_int (-3)) by (vm_compute; split; discriminate).
  specialize (Hw Hint). cbv zeta in Hw.
  destruct Hw as (_ & _ & _ & _ & Hw & _). exact Hw.
Defined.

(** ** What an iteration does with the reply *)

(** X8. An iteration dispatches every task the server returns, whether or
    not the server kept to the requested count.  With no overflow of the
    counter: after an iteration that polled, the running count is the old
    one plus the number of tasks returned, one execution was started per
    task, and the count is within the capacity exactly when the server
    returned no more tasks than were available. *)
Theorem iteration_dispatches_all (c : TaskRunner) (taskName : string)
    (fn : ExecuteTaskFunction) (domain : string) (reply : PollReply) :
  let capacity := mapInt (batchSizeByTaskName c) taskName in
  let running := mapInt (runningWorkersByTaskName c) taskName in
  let returned := Z.of_nat (length (returnedTasks reply)) in
  let c' := fst (fst (workOnce c taskName fn domain reply)) in
  batchPolls (snd (workOnce c taskName fn domain reply)) <> [] ->
  GoInt.is_int running ->
  GoInt.is_int (capacity - running) ->
  GoInt.is_int (running + returned) ->
  length (snd (fst (workOnce c taskName fn domain reply)))
  = length (returnedTasks reply) /\
  mapInt (runningWorkersByTaskName c') taskName = running + returned /\
  (mapInt (runningWorkersByTaskName c') taskName
   <= mapInt (batchSizeByTaskName c') taskName
   <-> returned <= capacity - running).
Proof.
  intros capacity running returned c' Hpoll Hr Hfit Hsum.
  subst c'.
  destruct (workOnce_cases c taskName fn domain reply)
    as [(_ & _ & Hnone) | (_ & _ & Hst & Hrun & Hb)]; [contradiction|].
  fold running in Hrun.
  split; [rewrite Hst; apply length_map|].
  rewrite Hrun, Hb. fold capacity.
  rewrite iter_add_1_exact by assumption. fold returned.
  split; [reflexivity | lia].
Qed.

Lemma iteration_dispatches_all_witness :
  batchPolls
    (snd (workOnce echoOneInFlight "echo" echoHandler ""
            (PollReplied 200 [sampleTask "t-2"; sampleTask "t-3"]))) <> [] /\
  mapInt
    (runningWorkersByTaskName
       (fst (fst (workOnce echoOneInFlight "echo" echoHandler ""
                    (PollReplied 200 [sampleTask "t-2"; sampleTask "t-3"])))))
    "echo"
  = mapInt (runningWorkersByTaskName echoOneInFlight) "echo" + 2.
Proof.
  assert (Hpoll : batchPolls
                    (snd (workOnce echoOneInFlight "echo" echoHandler ""
                            (PollReplied 200 [sampleTask "t-2"; sampleTask "t-3"])))
                  <> []) by (vm_compute; discriminate).
  split; [exact Hpoll|].
  pose proof (iteration_dispatches_all echoOneInFlight "echo" echoHandler ""
                (PollReplied 200 [sampleTask "t-2"; sampleTask "t-3"])) as Hw.
  cbv zeta in Hw.
  assert (H1 : GoInt.is_int (mapInt (runningWorkersByTaskName echoOneInFlight) "echo"))
    by (vm_compute; split; discriminate).
  assert (H2 : GoInt.is_int
                 (mapInt (batchSizeByTaskName echoOneInFlight) "echo"
                  - mapInt (runningWorkersByTaskName echoOneInFlight) "echo"))
    by (vm_compute; split; discriminate).
  assert (H3 : GoInt.is_int
                 (mapInt (runningWorkersByTaskName echoOneInFlight) "echo"
                  + Z.of_nat (length (returnedTasks
                       (PollReplied 200 [sampleTask "t-2"; sampleTask "t-3"])))))
    by (vm_compute; split; discriminate).
  destruct (Hw Hpoll H1 H2 H3) as (_ & Hrun & _). exact Hrun.
Defined.

Lemma dispatchTasks_fields c n fn tasks :
  pollIntervalByTaskName (fst (dispatchTasks c n fn tasks)) = pollIntervalByTaskName c /\
  pollTimeoutByTaskName (fst (dispatchTasks c n fn tasks)) = pollTimeoutByTaskName c /\
  pollTimeout (fst (dispatchTasks c n fn tasks)) = pollTimeout c /\
  baseCtx (fst (dispatchTasks c n fn tasks)) = baseCtx c /\
  workerWaitGroup (fst (dispatchTasks c n fn tasks))
  = workerWaitGroup c + Z.of_nat (length tasks).
Proof.
  revert c. induction tasks as [|t rest IH]; intros c.
  - cbn. repeat split. lia.
  - cbn [dispatchTasks]. set (c1 := fst (increaseRunningWorkers c n)).
    specialize (IH c1). destruct (dispatchTasks c1 n fn rest) as [c2 started].
    cbn [fst] in *. destruct IH as (H1 & H2 & H3 & H4 & H5).
    rewrite H1, H2, H3, H4, H5. subst c1. cbn [length]. cbn.
    repeat split. lia.
Qed.

(** X9. An iteration never touches the configuration: batch sizes, pause
    flags, poll intervals and poll timeouts are after it what they were
    before.  When the poll fails, is answered with status 204 or returns
    an empty list (and when no poll is made at all), the whole runner is
    unchanged and nothing is started: a poll error is absorbed by the
    iteration and unregisters nothing. *)
Theorem iteration_keeps_configuration (c : TaskRunner) (taskName : string)
    (fn : ExecuteTaskFunction) (domain : string) (reply : PollReply) :
  let c' := fst (fst (workOnce c taskName fn domain reply)) in
  batchSizeByTaskName c' = batchSizeByTaskName c /\
  pausedWorkers c' = pausedWorkers c /\
  pollIntervalByTaskName c' = pollIntervalByTaskName c /\
  pollTimeoutByTaskName c' = pollTimeoutByTaskName c /\
  pollTimeout c' = pollTimeout c /\
  (returnedTasks reply = [] ->
   fst (workOnce c taskName fn domain reply) = (c, [])) /\
  (forall err,
      reply = PollFailed err ->
      batchPolls (snd (workOnce c taskName fn domain reply)) <> [] ->
      exists poll,
        snd (workOnce c taskName fn domain reply)
        = [poll; EvPauseOnGenericError taskName domain
                   ("failed to poll, reason: " +:+ err)]).
Proof.
  intros c'. subst c'.
  assert (Hfields :
            batchSizeByTaskName (fst (fst (workOnce c taskName fn domain reply)))
            = batchSizeByTaskName c /\
            pausedWorkers (fst (fst (workOnce c taskName fn domain reply)))
            = pausedWorkers c /\
            pollIntervalByTaskName (fst (fst (workOnce c taskName fn domain reply)))
            = pollIntervalByTaskName c /\
            pollTimeoutByTaskName (fst (fst (workOnce c taskName fn domain reply)))
            = pollTimeoutByTaskName c /\
            pollTimeout (fst (fst (workOnce c taskName fn domain reply)))
            = pollTimeout c).
  { unfold workOnce. destruct (isPaused c taskName); [repeat split|].
    destruct (getAvailableWorkerAmount c taskName) as [b [e|]]; [repeat split|].
    destruct (b <? 1); [repeat split|].
    destruct (batchPoll c taskName b domain reply) as [[tasks|e] calls];
      [|repeat split].
    destruct (_ <? 1).
    - destruct (GetPollIntervalForTask c taskName) as [iv [e|]]; repeat split.
    - pose proof (dispatchTasks_facts c taskName fn tasks) as (_ & _ & _ & Hb & Hp).
      pose proof (dispatchTasks_fields c taskName fn tasks) as (Hi & Ht & Hd & _).
      destruct (dispatchTasks c taskName fn tasks) as [c2 started].
      cbn [fst snd] in *. repeat split; assumption. }
  destruct Hfields as (H1 & H2 & H3 & H4 & H5).
  split; [exact H1|]. split; [exact H2|]. split; [exact H3|].
  split; [exact H4|]. split; [exact H5|].
  split.
  { intros Hnil. unfold workOnce. destruct (isPaused c taskName); [reflexivity|].
    destruct (getAvailableWorkerAmount c taskName) as [b [e|]]; [reflexivity|].
    destruct (b <? 1); [reflexivity|].
    destruct (batchPoll_events c taskName b domain reply) as [_ Hres].
    destruct (batchPoll c taskName b domain reply) as [[tasks|e] calls];
      [|reflexivity].
    cbn [fst] in Hres. rewrite Hres, Hnil. cbn [length Z.of_nat].
    change (0 <? 1) with true. cbv iota.
    destruct (GetPollIntervalForTask c taskName) as [iv [e|]]; reflexivity. }
  intros err -> Hpoll. clear H1 H2 H3 H4 H5. unfold workOnce in *.
  destruct (isPaused c taskName); [contradiction Hpoll; reflexivity|].
  destruct (getAvailableWorkerAmount c taskName) as [b [e|]];
    [contradiction Hpoll; reflexivity|].
  destruct (b <? 1); [contradiction Hpoll; reflexivity|].
  unfold batchPoll in *. destruct (GetPollTimeoutForTask c taskName) as [t [e|]].
  - contradiction Hpoll. reflexivity.
  - eexists. reflexivity.
Qed.

Lemma iteration_keeps_configuration_witness :
  returnedTasks (PollReplied 204 [sampleTask "t-2"]) = [] /\
  fst (workOnce echoOneInFlight "echo" echoHandler ""
         (PollReplied 204 [sampleTask "t-2"]))
  = (echoOneInFlight, []).
Proof.
  split; [reflexivity|].
  pose proof (iteration_keeps_configuration echoOneInFlight "echo" echoHandler ""
                (PollReplied 204 [sampleTask "t-2"])) as Hw.
  cbv zeta in Hw. destruct Hw as (_ & _ & _ & _ & _ & Hw & _).
  apply Hw. reflexivity.
Defined.

(** ** Handler results *)

(** X10. How [executeTask] treats a handler's error.  An error that comes
    with a [nil] output gives the result of
    [NewTaskResultFromTaskWithError] for that error.  An error that comes
    with any other output is not looked at again: the result is the one the
    same output would give without the error.  When the output cannot be
    turned into a result, the result carries the conversion error. *)
Theorem handler_error_needs_nil_output `{Collaborators} (t : Task)
    (f : Task -> HandlerOutcome) (output : ExecutionOutput)
    (err : option string) (e : string) :
  f t = Returns output err ->
  (output = OutputNil -> err = Some e ->
   executeTask t (Some f) = Normal (NewTaskResultFromTaskWithError t e)) /\
  (output <> OutputNil ->
   executeTask t (Some f) = executeTask t (Some (fun _ => Returns output None))) /\
  (err = None \/ output <> OutputNil ->
   forall why,
     GetTaskResultFromTaskExecutionOutput t output = inr why ->
     executeTask t (Some f) = Normal (NewTaskResultFromTaskWithError t why)) /\
  (err = None \/ output <> OutputNil ->
   forall r,
     GetTaskResultFromTaskExecutionOutput t output = inl r ->
     executeTask t (Some f) = Normal r).
Proof.
  intros Hf. unfold executeTask, callExecuteFunction. rewrite Hf.
  split; [intros -> ->; reflexivity|].
  split.
  { intros Hout. destruct err, output; try reflexivity. contradiction. }
  split.
  - intros Hcase why Hwhy.
    destruct Hcase as [-> | Hout].
    + destruct output; rewrite Hwhy; reflexivity.
    + destruct err, output; try contradiction; rewrite Hwhy; reflexivity.
  - intros Hcase r Hr.
    destruct Hcase as [-> | Hout].
    + destruct output; rewrite Hr; reflexivity.
    + destruct err, output; try contradiction; rewrite Hr; reflexivity.
Qed.

Lemma handler_error_needs_nil_output_witness :
  (fun _ : Task => Returns (OutputValue [("user_id", "7")]) (Some "late failure"))
    (sampleTask "t-1")
  = Returns (OutputValue [("user_id", "7")]) (Some "late failure") /\
  executeTask (sampleTask "t-1")
    (Some (fun _ => Returns (OutputValue [("user_id", "7")]) (Some "late failure")))
  = executeTask (sampleTask "t-1")
      (Some (fun _ => Returns (OutputValue [("user_id", "7")]) None)).
Proof.
  split; [reflexivity|].
  pose proof (handler_error_needs_nil_output (sampleTask "t-1")
                (fun _ => Returns (OutputValue [("user_id", "7")])
                            (Some "late failure"))
                (OutputValue [("user_id", "7")]) (Some "late failure") ""
                eq_refl) as Hw.
  destruct Hw as (_ & Hw & _). apply Hw. discriminate.
Defined.

(** ** The bookkeeping of a running process *)

Section Bookkeeping.
Context `{Collaborators}.

Lemma int_sub_int a b : GoInt.sub (GoInt.int a) b = GoInt.int (a - b).
Proof.
  unfold GoInt.sub. replace (GoInt.int a - b) with (GoInt.int a + - b) by lia.
  rewrite GoIntFacts.int_add_int. reflexivity.
Qed.

Lemma iter_add_1_int (k : nat) (a : Z) :
  Nat.iter k (fun r => GoInt.add r 1) (GoInt.int a) = GoInt.int (a + Z.of_nat k).
Proof.
  induction k as [|k IH].
  - change (Z.of_nat 0) with 0. rewrite Z.add_0_r. reflexivity.
  - rewrite Nat.iter_succ, IH. unfold GoInt.add.
    rewrite GoIntFacts.int_add_int. f_equal; lia.
Qed.

Lemma inFlight_app (p : Process) (l : list Goroutine) n :
  length (filter (fun g => isExecutionOf n g = true) (goroutines p ++ l))
  = (inFlight p n + length (filter (fun g => isExecutionOf n g = true) l))%nat.
Proof. unfold inFlight. rewrite filter_app, length_app. reflexivity. Qed.

Lemma executions_count n m fn tasks :
  length (filter (fun g => isExecutionOf n g = true)
            (map (fun t => GoExecuteAndUpdateTask m t fn) tasks))
  = (if decide (m = n) then length tasks else 0%nat).
Proof.
  induction tasks as [|t rest IH]; [destruct (decide (m = n)); reflexivity|].
  cbn [map]. destruct (decide (m = n)) as [Heq|Hne].
  - rewrite filter_cons_True by (cbn; apply bool_decide_eq_true; exact Heq).
    cbn [length]. rewrite IH. reflexivity.
  - rewrite filter_cons_False by (cbn; rewrite bool_decide_eq_true; exact Hne).
    exact IH.
Qed.

Lemma startWorker_summary c n fn b iv d :
  runningWorkersByTaskName (fst (fst (startWorker c n fn b iv d)))
  = runningWorkersByTaskName c /\
  workerWaitGroup (fst (fst (startWorker c n fn b iv d)))
  = workerWaitGroup c + Z.of_nat (length (snd (fst (startWorker c n fn b iv d)))) /\
  pollIntervalByTaskName (fst (fst (startWorker c n fn b iv d)))
  = <[n := iv]> (pollIntervalByTaskName c) /\
  (forall m,
      filter (fun g => isExecutionOf m g = true)
        (snd (fst (startWorker c n fn b iv d))) = []).
Proof.
  rewrite startWorker_eq. cbv zeta.
  destruct (_ <? 1); cbn; repeat split; lia.
Qed.

Lemma RegisterWorker_summary c w :
  exists c0,
    RegisterWorker c (Some w)
    = startWorker c0 (taskName_ w) (handler_ w) (BatchSize (options_ w))
        (PollInterval (options_ w)) (Domain (options_ w)) /\
    batchSizeByTaskName c0 = batchSizeByTaskName c /\
    runningWorkersByTaskName c0 = runningWorkersByTaskName c /\
    workerWaitGroup c0 = workerWaitGroup c /\
    pollIntervalByTaskName c0
    = <[taskName_ w := PollInterval (options_ w)]> (pollIntervalByTaskName c).
Proof.
  unfold RegisterWorker.
  destruct w as [n h [dom b iv tmo ctx]]; cbn.
  destruct ctx; cbn -[startWorker];
    destruct (tmo =? 0); cbn -[startWorker];
    (eexists; split; [reflexivity|]); repeat split.
Qed.

Lemma callBatchSize_fields op c n b :
  runningWorkersByTaskName (fst (callBatchSize op c n b))
  = runningWorkersByTaskName c /\
  workerWaitGroup (fst (callBatchSize op c n b)) = workerWaitGroup c /\
  pollIntervalByTaskName (fst (callBatchSize op c n b)) = pollIntervalByTaskName c.
Proof.
  destruct op; cbn [callBatchSize];
    unfold SetBatchSize, IncreaseBatchSize, DecreaseBatchSize;
    match goal with |- context [?a <? ?b] => destruct (a <? b) end;
    try (repeat split; fail);
    destruct (isWorkerRegistered c n); cbn [negb]; try (repeat split; fail).
  destruct (_ <=? 0); repeat split.
Qed.

Lemma workOnce_summary c n fn domain reply :
  exists tasks,
    snd (fst (workOnce c n fn domain reply))
    = map (fun t => GoExecuteAndUpdateTask n t fn) tasks /\
    mapInt (runningWorkersByTaskName (fst (fst (workOnce c n fn domain reply)))) n
    = Nat.iter (length tasks) (fun r => GoInt.add r 1)
        (mapInt (runningWorkersByTaskName c) n) /\
    (forall other, other <> n ->
       runningWorkersByTaskName (fst (fst (workOnce c n fn domain reply))) !! other
       = runningWorkersByTaskName c !! other) /\
    workerWaitGroup (fst (fst (workOnce c n fn domain reply)))
    = workerWaitGroup c + Z.of_nat (length tasks) /\
    batchSizeByTaskName (fst (fst (workOnce c n fn domain reply)))
    = batchSizeByTaskName c /\
    pollIntervalByTaskName (fst (fst (workOnce c n fn domain reply)))
    = pollIntervalByTaskName c.
Proof.
  assert (Hidle : forall events : list Event,
             exists tasks,
               snd (fst (c, @nil Goroutine, events))
               = map (fun t => GoExecuteAndUpdateTask n t fn) tasks /\
               mapInt (runningWorkersByTaskName (fst (fst (c, @nil Goroutine, events)))) n
               = Nat.iter (length tasks) (fun r => GoInt.add r 1)
                   (mapInt (runningWorkersByTaskName c) n) /\
               (forall other, other <> n ->
                  runningWorkersByTaskName (fst (fst (c, @nil Goroutine, events))) !! other
                  = runningWorkersByTaskName c !! other) /\
               workerWaitGroup (fst (fst (c, @nil Goroutine, events)))
               = workerWaitGroup c + Z.of_nat (length tasks) /\
               batchSizeByTaskName (fst (fst (c, @nil Goroutine, events)))
               = batchSizeByTaskName c /\
               pollIntervalByTaskName (fst (fst (c, @nil Goroutine, events)))
               = pollIntervalByTaskName c).
  { intros events. exists []. cbn. repeat split. lia. }
  unfold workOnce. destruct (isPaused c n); [apply Hidle|].
  destruct (getAvailableWorkerAmount c n) as [b [e|]]; [apply Hidle|].
  destruct (b <? 1); [apply Hidle|].
  destruct (batchPoll c n b domain reply) as [[tasks|e] calls]; [|apply Hidle].
  destruct (_ <? 1).
  - destruct (GetPollIntervalForTask c n) as [iv [e|]]; apply Hidle.
  - pose proof (dispatchTasks_facts c n fn tasks) as (Hs & Hr & Ho & Hb & _).
    pose proof (dispatchTasks_fields c n fn tasks) as (Hi & _ & _ & _ & Hw).
    destruct (dispatchTasks c n fn tasks) as [c2 started].
    cbn [fst snd] in *. exists tasks. repeat split; assumption.
Qed.

Lemma mapInt_lookup_eq (m1 m2 : gmap string Z) k :
  m1 !! k = m2 !! k -> mapInt m1 k = mapInt m2 k.
Proof. unfold mapInt. intros ->. reflexivity. Qed.

Lemma afterCall_startWorker_accounted p c0 n fn b iv d :
  accounted p ->
  batchSizeByTaskName c0 = batchSizeByTaskName (runner p) ->
  runningWorkersByTaskName c0 = runningWorkersByTaskName (runner p) ->
  workerWaitGroup c0 = workerWaitGroup (runner p) ->
  (forall m, is_Some (pollIntervalByTaskName (runner p) !! m) ->
             is_Some (pollIntervalByTaskName c0 !! m)) ->
  accounted (afterCall p (startWorker c0 n fn b iv d)).
Proof.
  intros (Hw & Hr & Hi) Hb0 Hr0 Hw0 Hi0.
  destruct (startWorker_summary c0 n fn b iv d) as (Sr & Sw & Si & Sx).
  destruct (startWorker_registry c0 n fn b iv d n) as [_ Hstarted].
  split; [|split].
  - cbn [afterCall runner goroutines]. rewrite Sw, Hw0, Hw, length_app. lia.
  - intros m. cbn [afterCall runner]. rewrite Sr, Hr0, Hr.
    unfold inFlight at 2. cbn [afterCall goroutines].
    rewrite inFlight_app, Sx. cbn [length]. rewrite Nat.add_0_r. reflexivity.
  - intros m Hm. cbn [afterCall runner] in *. rewrite Si.
    rewrite lookup_insert. destruct (decide (n = m)) as [_|Hne]; [eauto|].
    apply Hi0. apply Hi. apply isWorkerRegistered_true.
    apply isWorkerRegistered_true in Hm.
    destruct (startWorker_registry c0 n fn b iv d m) as [Hlook _].
    rewrite Hlook in Hm. destruct (decide (n = m)); [contradiction|].
    rewrite <- Hb0. exact Hm.
Qed.

Lemma withRunner_accounted p c' :
  accounted p ->
  workerWaitGroup c' = workerWaitGroup (runner p) ->
  runningWorkersByTaskName c' = runningWorkersByTaskName (runner p) ->
  (forall m, is_Some (batchSizeByTaskName c' !! m) ->
             is_Some (batchSizeByTaskName (runner p) !! m) /\
             (is_Some (pollIntervalByTaskName (runner p) !! m) ->
              is_Some (pollIntervalByTaskName c' !! m))) ->
  accounted (withRunner p c').
Proof.
  intros (Hw & Hr & Hi) Hw' Hr' Hsub. split; [|split].
  - cbn [withRunner runner goroutines]. rewrite Hw'. exact Hw.
  - intros m. cbn [withRunner runner]. rewrite Hr'. apply Hr.
  - intros m Hm. apply isWorkerRegistered_true in Hm. cbn [withRunner runner] in *.
    destruct (Hsub m Hm) as [Hreg Hint]. apply Hint. apply Hi.
    apply isWorkerRegistered_true. exact Hreg.
Qed.

Lemma schedule_accounted p i poll updates :
  accounted p -> accounted (schedule p i poll updates).
Proof.
  intros (Hw & Hr & Hi). unfold schedule.
  destruct (goroutines p !! i) as [[n fn d | n task fn]|] eqn:Hgi;
    [| |split; [exact Hw | split; [exact Hr | exact Hi]]].
  - unfold work4everTurn.
    destruct (isWorkerRegistered (runner p) n) eqn:Hreg.
    + destruct (workOnce_summary (runner p) n fn d poll)
        as (tasks & Hs & Hrun & Ho & Hwg & Hb & Hiv).
      destruct (workOnce (runner p) n fn d poll) as [[c' started] events].
      cbn [fst snd] in *. subst started. split; [|split].
      * cbn [runner goroutines]. rewrite Hwg, Hw, length_app, length_map. lia.
      * intros m. cbn [runner]. unfold inFlight. cbn [goroutines].
        rewrite inFlight_app, executions_count.
        destruct (decide (n = m)) as [<-|Hne].
        -- rewrite Hrun, Hr, iter_add_1_int. f_equal. lia.
        -- rewrite (mapInt_lookup_eq _ _ m (Ho m (not_eq_sym Hne))), Hr.
           rewrite Nat.add_0_r. reflexivity.
      * intros m Hm. apply isWorkerRegistered_true in Hm. cbn [runner] in *.
        rewrite Hb in Hm. rewrite Hiv. apply Hi.
        apply isWorkerRegistered_true. exact Hm.
    + split; [|split].
      * cbn [runner goroutines withWaitGroup withRunningWorkers workerWaitGroup].
        rewrite length_delete by eauto. rewrite Hw.
        assert (0 < length (goroutines p))%nat
          by (apply lookup_lt_Some in Hgi; lia).
        lia.
      * intros m. cbn [runner withWaitGroup withRunningWorkers
                       runningWorkersByTaskName].
        rewrite Hr. unfold inFlight. cbn [goroutines].
        erewrite filter_delete_other; [reflexivity | exact Hgi |].
        cbn. discriminate.
      * intros m Hm. exact (Hi m Hm).
  - rewrite (surjective_pairing (executeAndUpdateTask _ _ _ _ _)).
    rewrite (surjective_pairing (fst (executeAndUpdateTask _ _ _ _ _))).
    rewrite executeAndUpdateTask_runner.
    split; [|split].
    * cbn [runner goroutines runningWorkerDone fst withRunningWorkers
           workerWaitGroup].
      rewrite length_delete by eauto. rewrite Hw.
      assert (0 < length (goroutines p))%nat
        by (apply lookup_lt_Some in Hgi; lia).
      lia.
    * intros m. cbn [runner runningWorkerDone fst withRunningWorkers
                     runningWorkersByTaskName].
      unfold inFlight. cbn [goroutines].
      destruct (decide (n = m)) as [<-|Hne].
      -- rewrite mapInt_insert_eq, Hr, int_sub_int. f_equal.
         pose proof (filter_delete_one (fun g => isExecutionOf n g = true)
                       (goroutines p) i _ Hgi) as Hone.
         unfold inFlight. rewrite <- Hone; [lia|].
         cbn. apply bool_decide_eq_true. reflexivity.
      -- rewrite mapInt_insert_ne by exact Hne. rewrite Hr. unfold inFlight.
         erewrite filter_delete_other; [reflexivity | exact Hgi |].
         cbn. rewrite bool_decide_eq_true. exact Hne.
    * intros m Hm. exact (Hi m Hm).
Qed.

Lemma step_accounted p a : accounted p -> accounted (step p a).
Proof.
  intros Hacc. unfold step. destruct (crashed p); [exact Hacc|].
  destruct a as [n f b iv | n f b iv d | [w|] | n b | n b | n b | n | n | n
                 | n d | n d | d | i poll updates].
  - apply afterCall_startWorker_accounted; auto.
  - apply afterCall_startWorker_accounted; auto.
  - destruct (RegisterWorker_summary (runner p) w) as (c0 & -> & Hb & Hr & Hw & Hi).
    apply afterCall_startWorker_accounted; auto.
    intros m Hm. rewrite Hi, lookup_insert. destruct (decide _); eauto.
  - destruct Hacc as (Hw & Hr & Hi). split; [|split].
    + cbn. rewrite length_app. cbn. rewrite Hw. lia.
    + intros m. cbn [RegisterWorker afterCall runner fst snd].
      unfold inFlight, afterCall. cbn [goroutines fst snd]. rewrite app_nil_r.
      apply Hr.
    + exact Hi.
  - destruct (callBatchSize_fields ToSet (runner p) n b) as (Hr & Hw & Hi).
    apply withRunner_accounted; auto. intros m Hm. split.
    + apply (callBatchSize_registry ToSet (runner p) n b m). exact Hm.
    + cbn [callBatchSize] in Hi. rewrite Hi. auto.
  - destruct (callBatchSize_fields ToIncrease (runner p) n b) as (Hr & Hw & Hi).
    apply withRunner_accounted; auto. intros m Hm. split.
    + apply (callBatchSize_registry ToIncrease (runner p) n b m). exact Hm.
    + cbn [callBatchSize] in Hi. rewrite Hi. auto.
  - destruct (callBatchSize_fields ToDecrease (runner p) n b) as (Hr & Hw & Hi).
    apply withRunner_accounted; auto. intros m Hm. split.
    + apply (callBatchSize_registry ToDecrease (runner p) n b m). exact Hm.
    + cbn [callBatchSize] in Hi. rewrite Hi. auto.
  - apply withRunner_accounted; auto.
  - apply withRunner_accounted; auto.
  - apply withRunner_accounted;
      [exact Hacc | apply (Shutdown_lookups (runner p) n n)
       | apply (Shutdown_lookups (runner p) n n) |].
    intros m. destruct (Shutdown_lookups (runner p) n m) as (Hb & _ & Hi & _).
      rewrite Hb, Hi. destruct (decide (n = m)); [intros [? ?]; discriminate|].
      auto.
  - apply withRunner_accounted; auto. intros m Hm. split; [exact Hm|].
    cbn. rewrite lookup_insert. destruct (decide _); eauto.
  - apply withRunner_accounted; auto.
  - apply withRunner_accounted; auto.
  - apply schedule_accounted. exact Hacc.
Qed.

Lemma run_accounted actions : accounted (run newProcess actions).
Proof.
  assert (Hgen : forall p, accounted p -> accounted (run p actions)).
  { induction actions as [|a rest IH]; intros p Hp; [exact Hp|].
    apply IH. apply step_accounted. exact Hp. }
  apply Hgen. split; [reflexivity|]. split; [intros m; reflexivity|].
  intros m Hm. vm_compute in Hm. discriminate.
Qed.

End Bookkeeping.

(** X11. In every state a process reaches from a new runner, the counter
    of the wait group equals the number of goroutines alive (poll loops and
    executions): [WaitWorkers] blocks exactly as long as one of them is
    left. *)
Theorem wait_group_counts_goroutines `{Collaborators} (actions : list Action) :
  let p := run newProcess actions in
  workerWaitGroup (runner p) = Z.of_nat (length (goroutines p)) /\
  (WaitWorkersBlocks (runner p) = false <-> goroutines p = []).
Proof.
  intros p. destruct (run_accounted actions) as (Hw & _). fold p in Hw.
  split; [exact Hw|].
  unfold WaitWorkersBlocks. rewrite Hw.
  destruct (goroutines p) as [|g rest].
  - split; reflexivity.
  - split; [|discriminate]. cbn [length].
    destruct (Z.eqb_spec (Z.of_nat (S (length rest))) 0); [lia | discriminate].
Qed.

(** X12. In every state a process reaches from a new runner, the running
    count of a task name is the number of executions of that name in
    flight, as an [int]: exactly that number, and so never negative, as
    long as it does not exceed the largest [int].  The amount
    [getAvailableWorkerAmount] reports is the capacity minus that number. *)
Theorem running_counts_executions `{Collaborators} (actions : list Action)
    (taskName : string) :
  let p := run newProcess actions in
  let executions := Z.of_nat (inFlight p taskName) in
  mapInt (runningWorkersByTaskName (runner p)) taskName = GoInt.int executions /\
  (executions <= GoInt.int_max ->
   getRunningWorkers (runner p) taskName = (executions, None) /\
   getAvailableWorkerAmount (runner p) taskName
   = (GoInt.sub (GetBatchSizeForTask (runner p) taskName) executions, None)).
Proof.
  intros p executions. destruct (run_accounted actions) as (_ & Hr & _).
  fold p in Hr. specialize (Hr taskName). fold executions in Hr.
  split; [exact Hr|]. intros Hle.
  assert (Hexact : GoInt.int executions = executions).
  { apply GoIntFacts.int_id. unfold GoInt.is_int, GoInt.int_min. subst executions.
    lia. }
  rewrite getRunningWorkers_mapInt, getAvailableWorkerAmount_eq,
    GetBatchSizeForTask_mapInt, Hr, Hexact.
  split; reflexivity.
Qed.

Lemma running_counts_executions_witness :
  Z.of_nat (inFlight echoBusy "echo") <= GoInt.int_max /\
  getRunningWorkers (runner echoBusy) "echo"
  = (Z.of_nat (inFlight echoBusy "echo"), None).
Proof.
  assert (Hle : Z.of_nat (inFlight echoBusy "echo") <= GoInt.int_max)
    by (vm_compute; discriminate).
  split; [exact Hle|].
  pose proof (running_counts_executions
                [CallStartWorker "echo" echoHandler 2
                   (GoInt.mul 100 Duration.Millisecond);
                 Schedule 0 (PollReplied 200 [sampleTask "t-1"]) (fun _ => None);
                 Schedule 0 (PollReplied 204 []) (fun _ => None)] "echo") as Hw.
  cbv zeta in Hw. destruct Hw as [_ Hw]. destruct (Hw Hle) as [Hrun _].
  exact Hrun.
Defined.



(** ** Registering several workers *)

Lemma RegisterWorker_accepts c w m :
  snd (RegisterWorker c (Some w)) = None /\
  isWorkerRegistered (fst (fst (RegisterWorker c (Some w)))) (taskName_ w) = true /\
  (isWorkerRegistered c m = true ->
   isWorkerRegistered (fst (fst (RegisterWorker c (Some w)))) m = true).
Proof.
  destruct (RegisterWorker_some c w) as (c0 & Hc0 & ->).
  destruct (startWorker_facts c0 (taskName_ w) (handler_ w) (BatchSize (options_ w))
              (PollInterval (options_ w)) (Domain (options_ w)))
    as (He & _ & _ & Hreg & _).
  split; [exact He|]. split; [exact Hreg|].
  intros Hm. apply isWorkerRegistered_true. apply isWorkerRegistered_true in Hm.
  destruct (startWorker_registry c0 (taskName_ w) (handler_ w)
              (BatchSize (options_ w)) (PollInterval (options_ w))
              (Domain (options_ w)) m) as [Hlook _].
  rewrite Hlook. destruct (decide (taskName_ w = m)); [eauto|].
  rewrite Hc0. exact Hm.
Qed.

Lemma RegisterWorkers_keeps c workers m :
  isWorkerRegistered c m = true ->
  isWorkerRegistered (fst (fst (RegisterWorkers c workers))) m = true.
Proof.
  revert c. induction workers as [|[w|] rest IH]; intros c Hm; [exact Hm| |exact Hm].
  cbn [RegisterWorkers].
  destruct (RegisterWorker_accepts c w m) as (He & _ & Hkeep).
  destruct (RegisterWorker c (Some w)) as [[c1 started] err].
  cbn [fst snd] in *. subst err. specialize (IH c1 (Hkeep Hm)).
  destruct (RegisterWorkers c1 rest) as [[c2 later] err]. exact IH.
Qed.

(** X14. [RegisterWorkers] works through the list in order and stops at
    the first [nil] worker, the only thing it rejects.  A list without
    [nil] is registered completely and gives no error; with a [nil] in it,
    the workers before the first [nil] are registered, their poll loops
    running, exactly as if they had been passed alone, those after it are
    not looked at, and the error is "worker is nil". *)
Theorem register_workers_stops_at_nil (c : TaskRunner)
    (before : list BaseWorker) (after : list Worker) :
  let done := RegisterWorkers c (map Some before) in
  snd done = None /\
  Forall (fun w => isWorkerRegistered (fst (fst done)) (taskName_ w) = true)
    before /\
  RegisterWorkers c (map Some before ++ None :: after)
  = (fst (fst done), snd (fst done), Some "worker is nil").
Proof.
  intros done. subst done. revert c.
  induction before as [|w rest IH]; intros c.
  - cbn. repeat split. constructor.
  - cbn [map app RegisterWorkers].
    destruct (RegisterWorker_accepts c w (taskName_ w)) as (He & Hreg & _).
    destruct (RegisterWorker c (Some w)) as [[c1 started] err].
    cbn [fst snd] in *. subst err.
    destruct (IH c1) as (H1 & H2 & H3).
    pose proof (RegisterWorkers_keeps c1 (map Some rest) (taskName_ w) Hreg) as Hk.
    rewrite H3.
    destruct (RegisterWorkers c1 (map Some rest)) as [[c2 later] err].
    cbn [fst snd] in *. subst err.
    split; [reflexivity|]. split; [|reflexivity].
    constructor; assumption.
Qed.

(** ** Worker options *)

Lemma defaultOptions_positive :
  1 <= BatchSize defaultOptions /\ 0 < PollInterval defaultOptions.
Proof. vm_compute. split; [discriminate | reflexivity]. Qed.

Lemma applyOptions_app base fns more :
  applyOptions base (fns ++ more) = applyOptions (applyOptions base fns) more.
Proof.
  revert base. induction fns as [|[f|] rest IH]; intros base; cbn; auto.
Qed.

(** X15. However a worker is put together from the options of the package
    ([WithBatchSize], [WithPollInterval], [WithPollTimeout], [WithDomain],
    [WithBaseContext], or a [nil] option), its batch size is at least 1
    and its poll interval is positive: a batch size or poll interval that
    is not positive is passed over without a word and the value set before
    stays.  Of several options for the same setting the last one that takes
    effect wins. *)
Theorem package_options_keep_positive (taskName : string)
    (f : ExecuteTaskFunction) (options : list Option) (size interval : Z) :
  Forall packageOption options ->
  let w := NewWorker taskName f options in
  1 <= BatchSize (options_ w) /\
  0 < PollInterval (options_ w) /\
  BatchSize (options_ (NewWorker taskName f (options ++ [WithBatchSize size])))
  = (if 0 <? size then size else BatchSize (options_ w)) /\
  PollInterval
    (options_ (NewWorker taskName f (options ++ [WithPollInterval interval])))
  = (if 0 <? interval then interval else PollInterval (options_ w)) /\
  options_ (BaseWorkerWith w [None]) = options_ w.
Proof.
  intros Hall w. subst w. unfold NewWorker. cbn [options_].
  assert (Hinv : forall base,
             1 <= BatchSize base -> 0 < PollInterval base ->
             1 <= BatchSize (applyOptions base options) /\
             0 < PollInterval (applyOptions base options)).
  { induction Hall as [|o rest Ho _ IH]; intros base Hb Hi; [split; assumption|].
    destruct Ho; cbn [applyOptions WithBatchSize WithPollInterval WithPollTimeout
                      WithDomain]; apply IH; try assumption;
      try (destruct (Z.ltb_spec 0 size0); cbn; solve [assumption | lia]);
      try (destruct (Z.ltb_spec 0 interval0); cbn; solve [assumption | lia]). }
  destruct defaultOptions_positive as [Hb Hi].
  destruct (Hinv defaultOptions Hb Hi) as [Hb' Hi'].
  split; [exact Hb'|]. split; [exact Hi'|].
  rewrite !applyOptions_app. cbn [applyOptions WithBatchSize WithPollInterval].
  split; [destruct (0 <? size); reflexivity|].
  split; [destruct (0 <? interval); reflexivity|].
  reflexivity.
Qed.

Lemma package_options_keep_positive_witness :
  Forall packageOption [WithBatchSize 0; WithPollInterval (-5); WithDomain "eu"] /\
  1 <= BatchSize
         (options_ (NewWorker "echo" echoHandler
                      [WithBatchSize 0; WithPollInterval (-5); WithDomain "eu"])).
Proof.
  assert (Hall : Forall packageOption
                   [WithBatchSize 0; WithPollInterval (-5); WithDomain "eu"]).
  { repeat constructor. }
  split; [exact Hall|].
  apply (package_options_keep_positive "echo" echoHandler
           [WithBatchSize 0; WithPollInterval (-5); WithDomain "eu"] 0 0 Hall).
Defined.

(** ** Reading the batch sizes *)

(** X16. [GetBatchSizeForAll] returns the batch sizes of exactly the
    registered task names: a name is in the result if and only if it is
    registered, with the size [GetBatchSizeForTask] reports for it; for a
    name that is not in it [GetBatchSizeForTask] gives 0. *)
Theorem batch_sizes_listed (c : TaskRunner) (taskName : string) :
  GetBatchSizeForAll c = batchSizeByTaskName c /\
  (is_Some (GetBatchSizeForAll c !! taskName)
   <-> isWorkerRegistered c taskName = true) /\
  (forall size, GetBatchSizeForAll c !! taskName = Some size ->
                GetBatchSizeForTask c taskName = size) /\
  (GetBatchSizeForAll c !! taskName = None -> GetBatchSizeForTask c taskName = 0).
Proof.
  assert (Hcopy : GetBatchSizeForAll c = batchSizeByTaskName c).
  { unfold GetBatchSizeForAll.
    apply (map_fold_weak_ind (fun copy m => copy = m)); [reflexivity|].
    intros i x m r _ ->. reflexivity. }
  split; [exact Hcopy|]. rewrite Hcopy.
  split; [symmetry; apply isWorkerRegistered_true|].
  unfold GetBatchSizeForTask.
  split; [intros size ->; reflexivity | intros ->; reflexivity].
Qed.

Lemma batch_sizes_listed_witness :
  GetBatchSizeForAll echoRegistered !! "echo" = Some 2 /\
  GetBatchSizeForTask echoRegistered "echo" = 2.
Proof.
  assert (Hin : GetBatchSizeForAll echoRegistered !! "echo" = Some 2)
    by (vm_compute; reflexivity).
  split; [exact Hin|].
  pose proof (batch_sizes_listed echoRegistered "echo") as (_ & _ & Hw & _).
  apply Hw. exact Hin.
Defined.

(** ** Typed workers *)

(** X17. The function a typed worker hands to the runner is never [nil].
    When the task's input cannot be bound, the typed handler is not called:
    the function returns a [nil] output with the error "input binding
    error for task", the name of the task definition and the binder's
    error, and [executeTask] turns that into the result of
    [NewTaskResultFromTaskWithError].  When the input binds, the typed
    handler's output and error are passed on; an error that comes with an
    output that is not the [nil] interface then changes nothing in the
    result of [executeTask]. *)
Theorem typed_worker_binding `{Collaborators} {TIn TOut : Type}
    (WorkflowType : Task -> string) (RetryCount : Task -> Z)
    (RetriedTaskId : Task -> string) (PollCount : Task -> Z)
    (box : TOut -> ExecutionOutput) (tw : @TypedWorker TIn TOut) (t : Task) :
  let handler :=
    TypedHandler WorkflowType RetryCount RetriedTaskId PollCount box tw in
  handler <> None /\
  (forall why,
      typedBinder tw (InputData t) = inr why ->
      let message :=
        "input binding error for task " +:+ TaskDefName t +:+ ": " +:+ why in
      callExecuteFunction handler t = Returns OutputNil (Some message) /\
      executeTask t handler = Normal (NewTaskResultFromTaskWithError t message)) /\
  (forall input f output err,
      typedBinder tw (InputData t) = inl input ->
      typedHandler tw = Some f ->
      f (getWorkflowContext WorkflowType RetryCount RetriedTaskId PollCount
           (Some (withCancel
                    (match BaseContext (typedOptions tw) with
                     | None => "context.Background"
                     | Some ctx => ctx
                     end)))
           (Some t)) input
      = TypedReturns output err ->
      callExecuteFunction handler t = Returns (box output) err /\
      (box output <> OutputNil ->
       executeTask t handler
       = executeTask t (Some (fun _ => Returns (box output) None)))).
Proof.
  intros handler. subst handler. unfold TypedHandler, adapter.
  split; [discriminate|]. split.
  - intros why Hwhy. cbv zeta. unfold executeTask, callExecuteFunction.
    rewrite Hwhy. split; reflexivity.
  - intros input f output err Hin Hf Hcall.
    unfold executeTask, callExecuteFunction. rewrite Hin, Hf, Hcall.
    split; [reflexivity|].
    intros Hbox. destruct err, (box output); try reflexivity. contradiction.
Qed.

Lemma typed_worker_binding_witness :
  typedBinder unboundWorker (InputData (sampleTask "t-1"))
  = inr "json: cannot unmarshal string into Go value" /\
  executeTask (sampleTask "t-1")
    (TypedHandler (fun _ => "") (fun _ => 0) (fun _ => "") (fun _ => 0)
       (fun _ => OutputValue []) unboundWorker)
  = Normal (NewTaskResultFromTaskWithError (sampleTask "t-1")
              ("input binding error for task echo: "
               +:+ "json: cannot unmarshal string into Go value")).
Proof.
  split; [reflexivity|].
  pose proof (typed_worker_binding (fun _ => "") (fun _ => 0) (fun _ => "")
                (fun _ => 0) (fun _ => OutputValue []) unboundWorker
                (sampleTask "t-1")) as Hw.
  cbv zeta in Hw. destruct Hw as (_ & Hw & _).
  destruct (Hw "json: cannot unmarshal string into Go value" eq_refl) as [_ Hres].
  exact Hres.
Defined.

(** ** Log arguments *)

Lemma append_assoc (a b c : string) : (a +:+ b) +:+ c = a +:+ (b +:+ c).
Proof.
  induction a as [|x a IH]; [reflexivity|].
  change (String x ((a +:+ b) +:+ c) = String x (a +:+ (b +:+ c))).
  f_equal. exact IH.
Qed.

Lemma length_append (a b : string) :
  String.length (a +:+ b) = (String.length a + String.length b)%nat.
Proof.
  induction a as [|x a IH]; [reflexivity|].
  change (S (String.length (a +:+ b)) = S (String.length a + String.length b)).
  f_equal. exact IH.
Qed.

Lemma length_zero_empty (a : string) : String.length a = 0%nat -> a = "".
Proof. destruct a; [reflexivity | discriminate]. Qed.

Lemma concat_cons_cons sep (x y : string) (l : list string) :
  String.concat sep (x :: y :: l) = x +:+ sep +:+ String.concat sep (y :: l).
Proof. reflexivity. Qed.

Section LogFacts.
Context {Arg : Type} (render : Arg -> string).

Lemma formatPairs_interleave (b : string) (pairs : list (Arg * Arg)) :
  formatPairs render b (interleave pairs)
  = String.concat " "
      ((if (0 <? String.length b)%nat then [b] else [])
       ++ map (pairText render) pairs).
Proof.
  revert b. induction pairs as [|[k v] more IH]; intros b.
  - cbn [interleave formatPairs map]. rewrite app_nil_r.
    destruct (Nat.ltb_spec 0 (String.length b)); [reflexivity|].
    cbn. apply length_zero_empty. lia.
  - cbn [interleave formatPairs map]. rewrite IH.
    assert (Hlen : forall s, (0 <? String.length (s +:+ render k +:+ "=" +:+ render v))%nat
                             = true).
    { intros s. apply Nat.ltb_lt. rewrite !length_append. cbn. lia. }
    rewrite Hlen. unfold pairText at 2. cbn [fst snd].
    destruct (Nat.ltb_spec 0 (String.length b)) as [Hpos|Hzero].
    + cbn [app]. destruct more as [|kv more'].
      * cbn. rewrite append_assoc. reflexivity.
      * cbn [map]. rewrite !concat_cons_cons. rewrite !append_assoc. reflexivity.
    + assert (Hb : b = "") by (apply length_zero_empty; lia).
      subst b. reflexivity.
Qed.

Lemma splitPairs_interleave (fields : list (string * Arg))
    (pairs : list (Arg * Arg)) :
  splitPairs render fields (interleave pairs)
  = fields ++ map (fun kv => (render (fst kv), snd kv)) pairs.
Proof.
  revert fields. induction pairs as [|[k v] more IH]; intros fields.
  - cbn. rewrite app_nil_r. reflexivity.
  - cbn [interleave splitPairs map]. rewrite IH, <- app_assoc. reflexivity.
Qed.

Lemma length_interleave (pairs : list (Arg * Arg)) :
  length (interleave pairs) = (2 * length pairs)%nat.
Proof. induction pairs as [|[k v] more IH]; cbn [interleave length]; lia. Qed.

(** Every argument list is a list of pairs, with or without a leading
    message. *)
Lemma args_shape (args : list Arg) :
  (exists pairs, args = interleave pairs) \/
  (exists first pairs, args = first :: interleave pairs).
Proof.
  induction args as [|a rest IH]; [left; exists []; reflexivity|].
  destruct IH as [[pairs ->] | (first & pairs & ->)].
  - right. exists a, pairs. reflexivity.
  - left. exists ((a, first) :: pairs). reflexivity.
Qed.

End LogFacts.

(** X18. What [formatArgs] of the standard logger prints.  An even number
    of arguments is printed as [key=value] pairs separated by single
    spaces; with an odd number the first argument is the message and comes
    first, followed by a space only if it is not empty.  Every key is
    printed with its own value: the ["<nil>"] that the loop holds ready for
    a key without value is never used. *)
Theorem formatArgs_prints_pairs {Arg : Type} (render : Arg -> string)
    (first : Arg) (pairs : list (Arg * Arg)) :
  let texts :=
    map (fun kv => render (fst kv) +:+ "=" +:+ render (snd kv)) pairs in
  formatArgs render (interleave pairs) = String.concat " " texts /\
  formatArgs render (first :: interleave pairs)
  = (if (0 <? String.length (render first))%nat
     then String.concat " " (render first :: texts)
     else String.concat " " texts) /\
  formatArgs render [first] = render first.
Proof.
  intros texts. subst texts.
  assert (Heven : forall l : list (Arg * Arg),
             Nat.eqb (length (interleave l) mod 2) 1 = false).
  { intros l. rewrite length_interleave. apply Nat.eqb_neq.
    rewrite Nat.mul_comm, Nat.Div0.mod_mul. discriminate. }
  assert (Hodd : forall (a : Arg) (l : list (Arg * Arg)),
             Nat.eqb (length (a :: interleave l) mod 2) 1 = true).
  { intros a l. cbn [length]. rewrite length_interleave. apply Nat.eqb_eq.
    replace (S (2 * length l)) with (1 + length l * 2)%nat by lia.
    rewrite Nat.Div0.mod_add. reflexivity. }
  split; [|split].
  - destruct pairs as [|[k v] more]; [reflexivity|].
    unfold formatArgs. cbn [interleave].
    change (k :: v :: interleave more) with (interleave ((k, v) :: more)).
    rewrite Heven, (formatPairs_interleave render "" ((k, v) :: more)).
    reflexivity.
  - unfold formatArgs. rewrite Hodd, (formatPairs_interleave render).
    destruct (0 <? String.length (render first))%nat; reflexivity.
  - reflexivity.
Qed.

(** X19. The zap logger reads its arguments the way the standard logger
    prints them.  [splitArgs] takes the first argument as the message
    exactly when the number of arguments is odd and makes one field of
    every following pair, in order, dropping none; and for every list of
    arguments the line [formatArgs] prints is that message followed by
    those fields. *)
Theorem splitArgs_agrees_with_formatArgs {Arg : Type} (render : Arg -> string)
    (args : list Arg) (first : Arg) (pairs : list (Arg * Arg)) :
  let fields := map (fun kv => (render (fst kv), snd kv)) pairs in
  splitArgs render (interleave pairs) = ("", fields) /\
  splitArgs render (first :: interleave pairs) = (render first, fields) /\
  formatArgs render args
  = lineOf render (fst (splitArgs render args)) (snd (splitArgs render args)) /\
  (2 * length (snd (splitArgs render args))
   + (if Nat.eqb (length args mod 2) 1 then 1 else 0))%nat = length args.
Proof.
  intros fields. subst fields.
  assert (Heven : forall l : list (Arg * Arg),
             Nat.eqb (length (interleave l) mod 2) 1 = false).
  { intros l. rewrite length_interleave. apply Nat.eqb_neq.
    rewrite Nat.mul_comm, Nat.Div0.mod_mul. discriminate. }
  assert (Hodd : forall (a : Arg) (l : list (Arg * Arg)),
             Nat.eqb (length (a :: interleave l) mod 2) 1 = true).
  { intros a l. cbn [length]. rewrite length_interleave. apply Nat.eqb_eq.
    replace (S (2 * length l)) with (1 + length l * 2)%nat by lia.
    rewrite Nat.Div0.mod_add. reflexivity. }
  assert (Hsplit_even : forall l : list (Arg * Arg),
             splitArgs render (interleave l)
             = ("", map (fun kv => (render (fst kv), snd kv)) l)).
  { intros l. destruct l as [|[k v] more]; [reflexivity|].
    unfold splitArgs. cbn [interleave].
    change (k :: v :: interleave more) with (interleave ((k, v) :: more)).
    rewrite Heven, (splitPairs_interleave render). reflexivity. }
  assert (Hsplit_odd : forall (a : Arg) (l : list (Arg * Arg)),
             splitArgs render (a :: interleave l)
             = (render a, map (fun kv => (render (fst kv), snd kv)) l)).
  { intros a l. unfold splitArgs. rewrite Hodd, (splitPairs_interleave render).
    reflexivity. }
  split; [apply Hsplit_even|]. split; [apply Hsplit_odd|].
  assert (Hmap : forall l : list (Arg * Arg),
             map (fun kv : string * Arg => fst kv +:+ "=" +:+ render (snd kv))
               (map (fun kv => (render (fst kv), snd kv)) l)
             = map (pairText render) l).
  { intros l. rewrite map_map. reflexivity. }
  destruct (args_shape args) as [[l ->] | (a & l & ->)].
  - rewrite Hsplit_even, Heven. cbn [fst snd]. split.
    + unfold lineOf. rewrite Hmap. cbn [String.length Nat.ltb Nat.leb app].
      destruct l as [|[k v] more]; [reflexivity|].
      unfold formatArgs. cbn [interleave].
      change (k :: v :: interleave more) with (interleave ((k, v) :: more)).
      rewrite Heven, (formatPairs_interleave render "" ((k, v) :: more)).
      reflexivity.
    + rewrite length_map, length_interleave. lia.
  - rewrite Hsplit_odd, Hodd. cbn [fst snd]. split.
    + unfold lineOf. rewrite Hmap. unfold formatArgs.
      rewrite Hodd, (formatPairs_interleave render). reflexivity.
    + rewrite length_map. cbn [length]. rewrite length_interleave. lia.
Qed.

(** ** Workflows *)

Section WorkflowFacts.
Context {T : Type} (taskStatus : T -> string) (ReferenceTaskName : T -> string).

Lemma appendIfStatus_spec (filteredTasks : list T) (task : T)
    (statuses : list string) :
  appendIfStatus taskStatus filteredTasks task statuses
  = if decide (taskStatus task ∈ statuses)
    then filteredTasks ++ [task] else filteredTasks.
Proof.
  induction statuses as [|status more IH].
  - cbn. destruct (decide _) as [Hin|_]; [inversion Hin | reflexivity].
  - cbn [appendIfStatus]. destruct (String.eqb_spec (taskStatus task) status) as [->|Hne].
    + rewrite decide_True by (apply elem_of_cons; left; reflexivity). reflexivity.
    + rewrite IH. destruct (decide (taskStatus task ∈ more)) as [Hin|Hout].
      * rewrite decide_True by (apply elem_of_cons; right; exact Hin). reflexivity.
      * rewrite decide_False; [reflexivity|].
        intros Hin. apply elem_of_cons in Hin. destruct Hin; contradiction.
Qed.

Lemma tasksByStatusFrom_spec (filteredTasks tasks : list T)
    (statuses : list string) :
  tasksByStatusFrom taskStatus filteredTasks tasks statuses
  = filteredTasks ++ filter (fun t => taskStatus t ∈ statuses) tasks.
Proof.
  revert filteredTasks. induction tasks as [|task rest IH]; intros filteredTasks.
  - cbn. rewrite app_nil_r. reflexivity.
  - cbn [tasksByStatusFrom]. rewrite IH, appendIfStatus_spec, filter_cons.
    destruct (decide (taskStatus task ∈ statuses)).
    + rewrite <- app_assoc. reflexivity.
    + reflexivity.
Qed.

End WorkflowFacts.

(** X20. [GetTasksByStatus] returns, in their order in the workflow, exactly
    the tasks whose status is one of the statuses asked for, each as often
    as it occurs among the workflow's tasks: naming a status twice does not
    return a task twice, and asking for no status returns nothing. *)
Theorem tasks_by_status_filters {T : Type} (taskStatus : T -> string)
    (tasks : list T) (statuses : list string) (status : string) :
  GetTasksByStatus taskStatus tasks statuses
  = filter (fun t => taskStatus t ∈ statuses) tasks /\
  GetTasksByStatus taskStatus tasks (status :: status :: statuses)
  = GetTasksByStatus taskStatus tasks (status :: statuses) /\
  GetTasksByStatus taskStatus tasks [] = [] /\
  (length (GetTasksByStatus taskStatus tasks statuses) <= length tasks)%nat.
Proof.
  unfold GetTasksByStatus. rewrite !tasksByStatusFrom_spec. cbn [app].
  split; [reflexivity|]. split; [|split].
  - apply list_filter_iff. intros t. rewrite !elem_of_cons. tauto.
  - induction tasks as [|t rest IH]; [reflexivity|].
    rewrite filter_cons_False; [exact IH|]. intros Hin. inversion Hin.
  - apply length_filter.
Qed.

(** X21. [GetTaskByReferenceName] returns the first task of the workflow
    that carries the reference name, and [nil] exactly when no task
    carries it. *)
Theorem task_by_reference_name_is_first {T : Type} (ReferenceTaskName : T -> string)
    (tasks : list T) (name : string) :
  (forall t,
      GetTaskByReferenceName ReferenceTaskName tasks name = Some t <->
      exists before after,
        tasks = before ++ t :: after /\
        ReferenceTaskName t = name /\
        Forall (fun u => ReferenceTaskName u <> name) before) /\
  (GetTaskByReferenceName ReferenceTaskName tasks name = None <->
   Forall (fun u => ReferenceTaskName u <> name) tasks).
Proof.
  induction tasks as [|task rest [IHsome IHnone]].
  - split.
    + intros t. split; [discriminate|].
      intros (before & after & Heq & _). destruct before; discriminate.
    + split; [constructor | reflexivity].
  - cbn [GetTaskByReferenceName].
    destruct (String.eqb_spec (ReferenceTaskName task) name) as [Heq|Hne].
    + split.
      * intros t. split.
        -- intros [= <-]. exists [], rest. repeat split; [exact Heq | constructor].
        -- intros (before & after & Hl & Hn & Hall).
           destruct before as [|b before'].
           ++ cbn in Hl. inversion Hl. reflexivity.
           ++ cbn in Hl. inversion Hl; subst. inversion Hall; subst. contradiction.
      * split; [discriminate|]. intros Hall. inversion Hall; subst. contradiction.
    + split.
      * intros t. rewrite IHsome. split.
        -- intros (before & after & -> & Hn & Hall).
           exists (task :: before), after. repeat split; [exact Hn|].
           constructor; assumption.
        -- intros (before & after & Hl & Hn & Hall).
           destruct before as [|b before'].
           ++ cbn in Hl. inversion Hl; subst. contradiction.
           ++ cbn in Hl. inversion Hl; subst. inversion Hall; subst.
              exists before', after. repeat split; assumption.
      * rewrite IHnone. split.
        -- intros Hall. constructor; assumption.
        -- intros Hall. inversion Hall; assumption.
Qed.

(** ** Fetching a workflow *)

Section ExecutorFacts.
Context {W : Type}.

Lemma getWorkflowLoop_retries fuel attempt retry workflowId includeTasks ctxErr
    (replies : nat -> StatusReply W) :
  ctxErr attempt = None ->
  retriable (replies attempt) ->
  getWorkflowLoop (S fuel) attempt retry workflowId includeTasks ctxErr replies
  = if retry <? 0
    then Some (Normal (None, replyErr (replies attempt)),
               [ExGetExecutionStatus workflowId includeTasks])
    else match getWorkflowLoop fuel (S attempt) (GoInt.sub retry 1) workflowId
                 includeTasks ctxErr replies with
         | Some (result, later) =>
             Some (result,
                   ExGetExecutionStatus workflowId includeTasks
                   :: ExSleep (GoInt.mul (GoInt.mul (GoInt.sub 4 retry) 10)
                                 Duration.Second)
                   :: later)
         | None => None
         end.
Proof.
  intros Hctx (code & err & Hstatus & Herr & H404 & Hrange).
  cbn [getWorkflowLoop]. rewrite Hctx, Hstatus, Herr.
  destruct (Z.eqb_spec code 404); [contradiction|].
  assert (Hclient : (399 <? code) && (code <? 500) && negb (code =? 429) = false).
  { destruct (Z.ltb_spec 399 code), (Z.ltb_spec code 500), (Z.eqb_spec code 429);
      cbn; try reflexivity; lia. }
  rewrite Hclient. reflexivity.
Qed.

Lemma getWorkflowLoop_total fuel attempt retry workflowId includeTasks ctxErr
    (replies : nat -> StatusReply W) :
  GoInt.is_int retry ->
  (Z.to_nat (retry + 1) < fuel)%nat ->
  exists r,
    getWorkflowLoop fuel attempt retry workflowId includeTasks ctxErr replies
    = Some r.
Proof.
  revert attempt retry. induction fuel as [|fuel IH]; intros attempt retry Hint Hfuel;
    [lia|].
  cbn [getWorkflowLoop].
  destruct (ctxErr attempt); [eauto|].
  destruct (replyStatus (replies attempt)) as [code|]; [|eauto].
  destruct (code =? 404); [eauto|].
  destruct ((399 <? code) && (code <? 500) && negb (code =? 429)); [eauto|].
  destruct (replyErr (replies attempt)); [|eauto].
  destruct (Z.ltb_spec retry 0); [eauto|].
  assert (Hsub : GoInt.sub retry 1 = retry - 1).
  { apply GoIntFacts.sub_exact.
    unfold GoInt.is_int, GoInt.int_min, GoInt.int_max in *. lia. }
  destruct (IH (S attempt) (GoInt.sub retry 1)) as [[res later] Hres].
  - rewrite Hsub. unfold GoInt.is_int, GoInt.int_min, GoInt.int_max in *. lia.
  - rewrite Hsub. lia.
  - rewrite Hres. eauto.
Qed.

End ExecutorFacts.

(** X22. [GetWorkflowWithContext] gives up after six calls.  As long as the
    context is live and the server keeps answering with an error and a
    status that is neither 404 nor another client error (429 counts as one
    to retry), it calls the server six times, sleeping 0 s, 10 s, 20 s,
    30 s and 40 s between the calls, and then returns no workflow and the
    error of the sixth call. *)
Theorem get_workflow_retry_schedule {W : Type} (workflowId : string)
    (includeTasks : bool) (ctxErr : nat -> option string)
    (replies : nat -> StatusReply W) :
  (forall k, (k <= 5)%nat -> ctxErr k = None /\ retriable (replies k)) ->
  let call := ExGetExecutionStatus workflowId includeTasks in
  let wait := fun seconds => ExSleep (seconds * Duration.Second) in
  GetWorkflowWithContext workflowId includeTasks ctxErr replies
  = Some (Normal (None, replyErr (replies 5%nat)),
          [call; wait 0; call; wait 10; call; wait 20; call; wait 30; call;
           wait 40; call]) /\
  exists err, replyErr (replies 5%nat) = Some err.
Proof.
  intros Hall call wait. subst call wait.
  unfold GetWorkflowWithContext, getWorkflowWithContext.
  change (S (Z.to_nat (4 + 1))) with 6%nat.
  destruct (Hall 0%nat ltac:(lia)) as [C0 R0].
  destruct (Hall 1%nat ltac:(lia)) as [C1 R1].
  destruct (Hall 2%nat ltac:(lia)) as [C2 R2].
  destruct (Hall 3%nat ltac:(lia)) as [C3 R3].
  destruct (Hall 4%nat ltac:(lia)) as [C4 R4].
  destruct (Hall 5%nat ltac:(lia)) as [C5 R5].
  rewrite (getWorkflowLoop_retries 5 0 4 _ _ _ _ C0 R0).
  change (4 <? 0) with false. cbv iota.
  change (GoInt.sub 4 1) with 3.
  rewrite (getWorkflowLoop_retries 4 1 3 _ _ _ _ C1 R1).
  change (3 <? 0) with false. cbv iota.
  change (GoInt.sub 3 1) with 2.
  rewrite (getWorkflowLoop_retries 3 2 2 _ _ _ _ C2 R2).
  change (2 <? 0) with false. cbv iota.
  change (GoInt.sub 2 1) with 1.
  rewrite (getWorkflowLoop_retries 2 3 1 _ _ _ _ C3 R3).
  change (1 <? 0) with false. cbv iota.
  change (GoInt.sub 1 1) with 0.
  rewrite (getWorkflowLoop_retries 1 4 0 _ _ _ _ C4 R4).
  change (0 <? 0) with false. cbv iota.
  change (GoInt.sub 0 1) with (-1).
  rewrite (getWorkflowLoop_retries 0 5 (-1) _ _ _ _ C5 R5).
  change (-1 <? 0) with true. cbv iota.
  split; [reflexivity|].
  destruct R5 as (code & err & _ & Herr & _). eauto.
Qed.

Lemma get_workflow_retry_schedule_witness :
  (forall k, (k <= 5)%nat ->
             (fun _ : nat => @None string) k = None /\
             retriable ((fun _ : nat => mkStatusReply tt (Some 503)
                                          (Some "service unavailable")) k)) /\
  exists err,
    replyErr ((fun _ : nat => mkStatusReply tt (Some 503)
                                (Some "service unavailable")) 5%nat) = Some err.
Proof.
  assert (Hall : forall k, (k <= 5)%nat ->
             (fun _ : nat => @None string) k = None /\
             retriable ((fun _ : nat => mkStatusReply tt (Some 503)
                                          (Some "service unavailable")) k)).
  { intros k _. split; [reflexivity|].
    exists 503, "service unavailable". cbn. repeat split; lia. }
  split; [exact Hall|].
  apply (get_workflow_retry_schedule "wf-1" true (fun _ => None)
           (fun _ => mkStatusReply tt (Some 503) (Some "service unavailable"))
           Hall).
Defined.

(** X23. What [GetWorkflowWithContext] answers without retrying, and that
    it always answers.  A context that is done gives its error with no
    call made.  Status 404 gives the error "no such workflow by Id" with
    the id, whatever error came with it.  Any other client error status
    (429 apart) gives back the reply's own error and no workflow, so that
    a reply without error yields neither workflow nor error.  A reply
    without error and with any other status gives the workflow.  A [nil]
    response makes the call panic. *)
Theorem get_workflow_first_reply {W : Type} (workflowId : string)
    (includeTasks : bool) (ctxErr : nat -> option string)
    (replies : nat -> StatusReply W) (statusCode : Z) :
  let result := GetWorkflowWithContext workflowId includeTasks ctxErr replies in
  let call := ExGetExecutionStatus workflowId includeTasks in
  (exists r, result = Some r) /\
  (forall err, ctxErr 0%nat = Some err ->
               result = Some (Normal (None, Some err), [])) /\
  (ctxErr 0%nat = None ->
   (replyStatus (replies 0%nat) = None ->
    result = Some (Panic nilFunctionPanic, [call])) /\
   (replyStatus (replies 0%nat) = Some 404 ->
    result = Some (Normal (None, Some ("no such workflow by Id " +:+ workflowId)),
                   [call])) /\
   (replyStatus (replies 0%nat) = Some statusCode ->
    399 < statusCode < 500 -> statusCode <> 404 -> statusCode <> 429 ->
    result = Some (Normal (None, replyErr (replies 0%nat)), [call])) /\
   (replyStatus (replies 0%nat) = Some statusCode ->
    statusCode <= 399 \/ 500 <= statusCode \/ statusCode = 429 ->
    replyErr (replies 0%nat) = None ->
    result = Some (Normal (Some (replyWorkflow (replies 0%nat)), None), [call]))).
Proof.
  intros result call. subst result call.
  split.
  { apply getWorkflowLoop_total; [vm_compute; split; discriminate|].
    vm_compute. lia. }
  unfold GetWorkflowWithContext, getWorkflowWithContext.
  change (S (Z.to_nat (4 + 1))) with 6%nat. cbn [getWorkflowLoop].
  split; [intros err ->; reflexivity|].
  intros ->. split; [intros ->; reflexivity|].
  split; [intros ->; reflexivity|].
  split.
  - intros -> [Hlo Hhi] H404 H429.
    destruct (Z.eqb_spec statusCode 404); [contradiction|].
    destruct (Z.ltb_spec 399 statusCode); [|lia].
    destruct (Z.ltb_spec statusCode 500); [|lia].
    destruct (Z.eqb_spec statusCode 429); [contradiction|]. reflexivity.
  - intros -> Hrange ->.
    destruct (Z.eqb_spec statusCode 404); [lia|].
    destruct (Z.ltb_spec 399 statusCode), (Z.ltb_spec statusCode 500),
      (Z.eqb_spec statusCode 429); cbn; try reflexivity; lia.
Qed.

Lemma get_workflow_first_reply_witness :
  replyStatus ((fun _ : nat => mkStatusReply tt (Some 403) None) 0%nat) = Some 403 /\
  GetWorkflowWithContext "wf-1" true (fun _ => None)
    (fun _ => mkStatusReply tt (Some 403) None)
  = Some (Normal (None, None), [ExGetExecutionStatus "wf-1" true]).
Proof.
  split; [reflexivity|].
  pose proof (get_workflow_first_reply "wf-1" true (fun _ => None)
                (fun _ => mkStatusReply tt (Some 403) None) 403) as Hw.
  cbv zeta in Hw. destruct Hw as (_ & _ & Hw).
  destruct (Hw eq_refl) as (_ & _ & Hclient & _).
  apply Hclient; [reflexivity | lia | lia | lia].
Defined.

(** ** The worker service *)

(** X24. What the state logging of the worker service does to a handler.
    The wrapped handler returns what the handler returns when there is no
    error; on an error it returns the error with a [nil] output, whatever
    output the handler gave, so that [executeTask] always reports it
    through [NewTaskResultFromTaskWithError]; a panic passes through.  With
    the database open it writes a row STARTED before the call and a row
    COMPLETED or FAILED after it, all for the task's id; when the handler
    panics the row STARTED is the last one written.  Whether the database
    is open makes no difference to what the wrapped handler returns. *)
Theorem state_logging_wraps_handler `{Collaborators} (TaskType : Task -> string)
    (dbOpen : bool) (fn : ExecuteTaskFunction) (t : Task) :
  let outcome := fst (withStateLogging TaskType dbOpen fn t) in
  let statuses := map write_status (snd (withStateLogging TaskType true fn t)) in
  let wrapped := loggedHandler TaskType dbOpen fn in
  fst (withStateLogging TaskType true fn t)
  = fst (withStateLogging TaskType false fn t) /\
  snd (withStateLogging TaskType false fn t) = [] /\
  Forall (fun w => write_task_id w = TaskId t)
    (snd (withStateLogging TaskType dbOpen fn t)) /\
  (forall res,
      callExecuteFunction fn t = Returns res None ->
      outcome = Returns res None /\
      statuses = ["STARTED"; "COMPLETED"] /\
      executeTask t wrapped = executeTask t fn) /\
  (forall res err,
      callExecuteFunction fn t = Returns res (Some err) ->
      outcome = Returns OutputNil (Some err) /\
      statuses = ["STARTED"; "FAILED"] /\
      executeTask t wrapped = Normal (NewTaskResultFromTaskWithError t err)) /\
  (forall value,
      callExecuteFunction fn t = Panics value ->
      outcome = Panics value /\
      statuses = ["STARTED"] /\
      executeTask t wrapped = Panic value).
Proof.
  intros outcome statuses wrapped. subst outcome statuses wrapped.
  unfold loggedHandler, withStateLogging, executeTask.
  cbn [callExecuteFunction].
  split; [destruct (callExecuteFunction fn t) as [res [err|]|v]; reflexivity|].
  split; [destruct (callExecuteFunction fn t) as [res [err|]|v]; reflexivity|].
  split.
  { unfold withStateLogging, recordWorkerState.
    destruct (callExecuteFunction fn t) as [res [err|]|v], dbOpen; cbn;
      repeat constructor. }
  split; [|split].
  - intros res Hcall. unfold withStateLogging. rewrite Hcall. cbn [fst snd].
    repeat split.
  - intros res err Hcall. unfold withStateLogging. rewrite Hcall. cbn [fst snd].
    repeat split.
  - intros value Hcall. unfold withStateLogging. rewrite Hcall. cbn [fst snd].
    repeat split.
Qed.

Lemma state_logging_wraps_handler_witness :
  callExecuteFunction
    (Some (fun _ => Returns (OutputValue [("enterprise_id", "7")])
                      (Some "failed to create enterprise")))
    (sampleTask "t-1")
  = Returns (OutputValue [("enterprise_id", "7")])
      (Some "failed to create enterprise") /\
  executeTask (sampleTask "t-1")
    (loggedHandler (fun _ => "create_enterprise_task") true
       (Some (fun _ => Returns (OutputValue [("enterprise_id", "7")])
                         (Some "failed to create enterprise"))))
  = Normal (NewTaskResultFromTaskWithError (sampleTask "t-1")
              "failed to create enterprise").
Proof.
  split; [reflexivity|].
  pose proof (state_logging_wraps_handler (fun _ => "create_enterprise_task") true
                (Some (fun _ => Returns (OutputValue [("enterprise_id", "7")])
                                  (Some "failed to create enterprise")))
                (sampleTask "t-1")) as Hw.
  cbv zeta in Hw. destruct Hw as (_ & _ & _ & _ & Hw & _).
  destruct (Hw (OutputValue [("enterprise_id", "7")])
              "failed to create enterprise" eq_refl) as (_ & _ & Hres).
  exact Hres.
Defined.

(** ** An execution and the server *)

(** X25. An execution whose handler returns sends the handler's result to
    the server at least once and at most four times, the same result every
    time, and makes no other call to the server.  It logs an error exactly
    when all four updates were refused, and then ends like any other: no
    panic of its own reaches the deferred [HandlePanicError]. *)
Theorem execution_sends_one_result `{Collaborators} (c : TaskRunner)
    (taskName : string) (task : Task) (fn : ExecuteTaskFunction)
    (replies : Z -> option string) (r : TaskResult) :
  executeTask task fn = Normal r ->
  let events := snd (fst (executeAndUpdateTask c taskName task fn replies)) in
  let message :=
    "execute_and_update_task " +:+ TaskId task +:+ ": " +:+ Status task in
  (exists k,
      (1 <= k <= 4)%nat /\ updateCalls events = repeat (taskName, r) k) /\
  batchPolls events = [] /\
  snd (executeAndUpdateTask c taskName task fn replies)
  = HandlePanicError message None /\
  ((exists msg, In (EvLogError msg) events) <->
   (replies 0 <> None /\ replies 1 <> None /\ replies 2 <> None
    /\ replies 3 <> None)).
Proof.
  intros Hr events message. subst events message.
  split; [|split; [apply executeAndUpdateTask_events|]].
  - unfold executeAndUpdateTask. rewrite Hr. unfold updateTaskWithRetry.
    change (seqZ 0 (taskUpdateRetryAttemptsLimit + 1)) with [0; 1; 2; 3].
    cbn [updateTaskAttempts updateTask].
    destruct (replies 0); [|exists 1%nat; split; [lia | reflexivity]].
    destruct (replies 1); [|exists 2%nat; split; [lia | reflexivity]].
    destruct (replies 2); [|exists 3%nat; split; [lia | reflexivity]].
    destruct (replies 3); exists 4%nat; (split; [lia | reflexivity]).
  - unfold executeAndUpdateTask. rewrite Hr. unfold updateTaskWithRetry.
    change (seqZ 0 (taskUpdateRetryAttemptsLimit + 1)) with [0; 1; 2; 3].
    cbn [updateTaskAttempts updateTask].
    assert (Hno : forall l : list Event,
               Forall (fun e => match e with EvLogError _ => False | _ => True end) l ->
               ~ exists msg, In (EvLogError msg) l).
    { intros l Hall [msg Hin]. rewrite Forall_forall in Hall.
      apply list_elem_of_In in Hin. exact (Hall _ Hin). }
    destruct (replies 0) as [e0|].
    2:{ cbn [fst snd]. split; [reflexivity|]. split.
        - intros Hex. exfalso. revert Hex. apply Hno. repeat constructor.
        - intros (H0 & _). contradiction. }
    destruct (replies 1) as [e1|].
    2:{ cbn [fst snd]. split; [reflexivity|]. split.
        - intros Hex. exfalso. revert Hex. apply Hno. repeat constructor.
        - intros (_ & H1 & _). contradiction. }
    destruct (replies 2) as [e2|].
    2:{ cbn [fst snd]. split; [reflexivity|]. split.
        - intros Hex. exfalso. revert Hex. apply Hno. repeat constructor.
        - intros (_ & _ & H2 & _). contradiction. }
    destruct (replies 3) as [e3|].
    2:{ cbn [fst snd]. split; [reflexivity|]. split.
        - intros Hex. exfalso. revert Hex. apply Hno. repeat constructor.
        - intros (_ & _ & _ & H3). contradiction. }
    cbn [fst snd]. split; [reflexivity|]. split.
    + intros _. repeat split; discriminate.
    + intros _. eexists. apply in_or_app. right. left. reflexivity.
Qed.

Lemma execution_sends_one_result_witness :
  executeTask (sampleTask "t-1") echoHandler
  = Normal {| ResultTaskId := "t-1";
              ResultWorkflowInstanceId := "wf-1";
              ResultStatus := COMPLETED;
              ReasonForIncompletion := "";
              OutputData := [("user_name", "jdoe")] |} /\
  batchPolls
    (snd (fst (executeAndUpdateTask echoOneInFlight "echo" (sampleTask "t-1")
                 echoHandler (fun _ => Some "connection refused")))) = [].
Proof.
  split; [reflexivity|].
  pose proof (execution_sends_one_result echoOneInFlight "echo" (sampleTask "t-1")
                echoHandler (fun _ => Some "connection refused") _ eq_refl) as Hw.
  cbv zeta in Hw. destruct Hw as (_ & Hw & _). exact Hw.
Defined.

(** X26. Capacity that is used up stops the polling, and every execution
    that ends gives one unit back.  When an iteration polls and the server
    returns as many tasks as were available, the next iteration makes no
    poll; once one of the executions has ended, the iteration after that
    polls again, for exactly one task. *)
Theorem capacity_cycle `{Collaborators} (c : TaskRunner) (taskName : string)
    (fn : ExecuteTaskFunction) (domain : string) (reply next : PollReply)
    (task : Task) (replies : Z -> option string) :
  let capacity := mapInt (batchSizeByTaskName c) taskName in
  let running := mapInt (runningWorkersByTaskName c) taskName in
  let full := fst (fst (workOnce c taskName fn domain reply)) in
  let released := fst (fst (executeAndUpdateTask full taskName task fn replies)) in
  batchPolls (snd (workOnce c taskName fn domain reply)) <> [] ->
  0 <= running -> GoInt.is_int capacity ->
  Z.of_nat (length (returnedTasks reply)) = capacity - running ->
  batchPolls (snd (workOnce full taskName fn domain next)) = [] /\
  snd (fst (workOnce full taskName fn domain next)) = [] /\
  batchPolls (snd (workOnce released taskName fn domain next)) = [(taskName, 1)].
Proof.
  intros capacity running full released Hpoll Hrun Hcap Hall.
  assert (Hrange : forall z, - running <= z <= capacity -> GoInt.is_int z).
  { intros z Hz. unfold GoInt.is_int, GoInt.int_min, GoInt.int_max in *. lia. }
  destruct (workOnce_cases c taskName fn domain reply)
    as [(_ & _ & Hnone) | ((Hp & Hge) & _ & _ & Hfull & Hb)]; [contradiction|].
  fold full in Hfull, Hb. fold capacity running in Hge, Hfull.
  rewrite GoIntFacts.sub_exact in Hge by (apply Hrange; lia).
  rewrite iter_add_1_exact in Hfull by (apply Hrange; lia).
  rewrite Hall in Hfull. replace (running + (capacity - running)) with capacity
    in Hfull by lia.
  assert (Hpaused : forall c', pausedWorkers c' = pausedWorkers c ->
                               isPaused c' taskName = false).
  { intros c' Hc'. unfold isPaused. rewrite Hc'. exact Hp. }
  assert (Hfull_paused : pausedWorkers full = pausedWorkers c).
  { subst full. unfold workOnce. rewrite Hp.
    destruct (getAvailableWorkerAmount c taskName) as [b [e|]]; [reflexivity|].
    destruct (b <? 1); [reflexivity|].
    destruct (batchPoll c taskName b domain reply) as [[tasks|e] calls];
      [|reflexivity].
    destruct (_ <? 1).
    - destruct (GetPollIntervalForTask c taskName) as [iv [e|]]; reflexivity.
    - pose proof (dispatchTasks_facts c taskName fn tasks) as (_ & _ & _ & _ & Hpw).
      destruct (dispatchTasks c taskName fn tasks). exact Hpw. }
  destruct (workOnce_cases full taskName fn domain next)
    as [(_ & Hsame & Hnone) | ((_ & Hge') & _)].
  2:{ exfalso. rewrite Hb, Hfull in Hge'. fold capacity in Hge'.
      rewrite GoIntFacts.sub_exact in Hge' by (apply Hrange; lia). lia. }
  split; [exact Hnone|]. split; [rewrite Hsame; reflexivity|].
  assert (Hrel_run : mapInt (runningWorkersByTaskName released) taskName
                     = capacity - 1).
  { subst released. rewrite executeAndUpdateTask_runner.
    cbn [runningWorkerDone fst withRunningWorkers runningWorkersByTaskName].
    rewrite mapInt_insert_eq, Hfull.
    apply GoIntFacts.sub_exact. apply Hrange. lia. }
  assert (Hrel_cap : batchSizeByTaskName released = batchSizeByTaskName c).
  { subst released. rewrite executeAndUpdateTask_runner. exact Hb. }
  assert (Hrel_paused : isPaused released taskName = false).
  { apply Hpaused. subst released. rewrite executeAndUpdateTask_runner.
    exact Hfull_paused. }
  destruct (workOnce_cases released taskName fn domain next)
    as [([Hpa | Hlt] & _) | (_ & Hev & _)].
  - congruence.
  - exfalso. rewrite Hrel_cap, Hrel_run in Hlt. fold capacity in Hlt.
    rewrite GoIntFacts.sub_exact in Hlt by (apply Hrange; lia). lia.
  - rewrite Hev, Hrel_cap, Hrel_run. fold capacity.
    rewrite GoIntFacts.sub_exact by (apply Hrange; lia).
    replace (capacity - (capacity - 1)) with 1 by lia. reflexivity.
Qed.

Lemma capacity_cycle_witness :
  batchPolls (snd (workOnce echoRegistered "echo" echoHandler ""
                     (PollReplied 200 [sampleTask "t-1"; sampleTask "t-2"])))
  <> [] /\
  batchPolls
    (snd (workOnce
            (fst (fst (executeAndUpdateTask
                         (fst (fst (workOnce echoRegistered "echo" echoHandler ""
                                      (PollReplied 200
                                         [sampleTask "t-1"; sampleTask "t-2"]))))
                         "echo" (sampleTask "t-1") echoHandler (fun _ => None))))
            "echo" echoHandler "" (PollReplied 204 [])))
  = [("echo", 1)].
Proof.
  assert (Hpoll : batchPolls
                    (snd (workOnce echoRegistered "echo" echoHandler ""
                            (PollReplied 200 [sampleTask "t-1"; sampleTask "t-2"])))
                  <> []) by (vm_compute; discriminate).
  split; [exact Hpoll|].
  pose proof (capacity_cycle echoRegistered "echo" echoHandler ""
                (PollReplied 200 [sampleTask "t-1"; sampleTask "t-2"])
                (PollReplied 204 []) (sampleTask "t-1") (fun _ => None)) as Hw.
  cbv zeta in Hw.
  assert (H1 : 0 <= mapInt (runningWorkersByTaskName echoRegistered) "echo")
    by (vm_compute; discriminate).
  assert (H2 : GoInt.is_int (mapInt (batchSizeByTaskName echoRegistered) "echo"))
    by (vm_compute; split; discriminate).
  assert (H3 : Z.of_nat (length (returnedTasks
                 (PollReplied 200 [sampleTask "t-1"; sampleTask "t-2"])))
               = mapInt (batchSizeByTaskName echoRegistered) "echo"
                 - mapInt (runningWorkersByTaskName echoRegistered) "echo")
    by (vm_compute; reflexivity).
  destruct (Hw Hpoll H1 H2 H3) as (_ & _ & Hnext). exact Hnext.
Defined.
